(** * sws: a shallow embedding of the HTTP/1.0 server of Team Geronimo

    The development follows the two translation units that carry the
    request-processing engine: [util.c] (buffers, HTTP dates) and [http.c]
    (request parsing, URI resolution, response composition, static files,
    directory listings, CGI).  C strings are [string]s without NUL, [int]
    and [time_t] values are [Z], a buffer that was never written is [None].
    The operating system (file system, password database, clock, MIME
    oracle, CGI children) is a record of functions; the client socket is a
    script of events consumed by the connection monad. *)

From Stdlib Require Import ZArith Lia Bool List String Ascii.
From Stdlib Require Import Sorting.Mergesort Sorting.Sorted Orders.
From Stdlib Require Import Permutation.
Import ListNotations.

Local Open Scope string_scope.
Local Open Scope Z_scope.

(* ================================================================== *)
(** * C strings and the pieces of <string.h>, <ctype.h>, <stdlib.h> used *)
(* ================================================================== *)

Module CString.

Definition zchar (c : ascii) : Z := Z.of_N (N_of_ascii c).

Definition CR : ascii := ascii_of_nat 13.
Definition LF : ascii := ascii_of_nat 10.
Definition NUL : ascii := ascii_of_nat 0.

(** The macro [CRLF] of http.c. *)
Definition CRLF : string := String CR (String LF EmptyString).

Definition strlen (s : string) : Z := Z.of_nat (String.length s).

(** The bytes of a zeroed buffer read as a C string: everything before the
    first NUL byte. *)
Fixpoint c_str (s : string) : string :=
  match s with
  | EmptyString => EmptyString
  | String c s' => if Ascii.eqb c NUL then EmptyString else String c (c_str s')
  end.

Definition isspace (c : ascii) : bool :=
  let n := zchar c in (n =? 32) || ((9 <=? n) && (n <=? 13)).

Definition isdigit (c : ascii) : bool :=
  let n := zchar c in (48 <=? n) && (n <=? 57).

Definition tolower (c : ascii) : ascii :=
  let n := zchar c in
  if (65 <=? n) && (n <=? 90) then ascii_of_N (Z.to_N (n + 32)) else c.

(** [strncasecmp s1 s2 n]: difference of the first pair of lower-cased
    characters that differ among the first [n]; the end of a string counts
    as character 0. *)
Fixpoint strncasecmp (s1 s2 : string) (n : nat) : Z :=
  match n with
  | O => 0
  | S n' =>
      match s1, s2 with
      | EmptyString, EmptyString => 0
      | EmptyString, String b _ => 0 - zchar (tolower b)
      | String a _, EmptyString => zchar (tolower a)
      | String a s1', String b s2' =>
          if Ascii.eqb (tolower a) (tolower b)
          then strncasecmp s1' s2' n'
          else zchar (tolower a) - zchar (tolower b)
      end
  end.

(** [strcasecmp] compares to the end of the longer string. *)
Definition strcasecmp (s1 s2 : string) : Z :=
  strncasecmp s1 s2 (S (Nat.max (String.length s1) (String.length s2))).

(** [strstr hay needle]: offset of the first occurrence, [None] for NULL. *)
Fixpoint strstr (hay needle : string) : option nat :=
  if String.prefix needle hay then Some O
  else match hay with
       | EmptyString => None
       | String _ hay' => option_map S (strstr hay' needle)
       end.

(** [strchr s c]: offset of the first [c]. *)
Fixpoint strchr (s : string) (c : ascii) : option nat :=
  match s with
  | EmptyString => None
  | String a s' => if Ascii.eqb a c then Some O else option_map S (strchr s' c)
  end.

Fixpoint is_delim (delims : string) (c : ascii) : bool :=
  match delims with
  | EmptyString => false
  | String d ds => Ascii.eqb c d || is_delim ds c
  end.

(** The tokens that successive calls [strtok(s, delims)], [strtok(NULL,
    delims)], ... return before the first NULL: the maximal runs of
    non-delimiter characters.  [cur] is the token being scanned, reversed. *)
Fixpoint strtok_go (delims : string) (s : string) (cur : list ascii)
  : list string :=
  let flush (rest : list string) :=
    match cur with
    | [] => rest
    | _ => string_of_list_ascii (rev cur) :: rest
    end in
  match s with
  | EmptyString => flush []
  | String c s' =>
      if is_delim delims c then flush (strtok_go delims s' [])
      else strtok_go delims s' (c :: cur)
  end.

Definition strtok_all (s delims : string) : list string :=
  strtok_go delims s [].

(** Characters of [s] from offset [n] on ([s + n] for [n <= strlen s]). *)
Fixpoint drop (n : nat) (s : string) : string :=
  match n, s with
  | O, _ => s
  | S n', String _ s' => drop n' s'
  | S _, EmptyString => EmptyString
  end.

Fixpoint take (n : nat) (s : string) : string :=
  match n, s with
  | O, _ => EmptyString
  | S n', String c s' => String c (take n' s')
  | S _, EmptyString => EmptyString
  end.

Fixpoint skip_spaces (s : string) : string :=
  match s with
  | String c s' => if isspace c then skip_spaces s' else s
  | EmptyString => s
  end.

Definition INT_MAX : Z := 2147483647.
Definition INT_MIN : Z := -2147483648.
Definition LONG_MAX : Z := 9223372036854775807.
Definition LONG_MIN : Z := -9223372036854775808.

(** Conversion of an integer to [int] (two's complement wrap-around). *)
Definition to_int (z : Z) : Z := (z + 2147483648) mod 4294967296 - 2147483648.

Fixpoint digits_value (s : string) (acc : Z) : Z :=
  match s with
  | String c s' =>
      if isdigit c then digits_value s' (acc * 10 + (zchar c - 48)) else acc
  | EmptyString => acc
  end.

(** [strtol(s, NULL, 10)]: white space, an optional sign, the longest run of
    digits (0 when there is none), clamped to the range of [long]. *)
Definition strtol (s : string) : Z :=
  let s := skip_spaces s in
  let '(neg, s) :=
    match s with
    | String c s' =>
        if Ascii.eqb c "-" then (true, s')
        else if Ascii.eqb c "+" then (false, s') else (false, s)
    | EmptyString => (false, s)
    end in
  let v := digits_value s 0 in
  let v := if neg then - v else v in
  Z.max LONG_MIN (Z.min LONG_MAX v).

(** [atoi(s)] is [(int) strtol(s, NULL, 10)]. *)
Definition atoi (s : string) : Z := to_int (strtol s).

Definition digit_char (d : Z) : ascii := ascii_of_N (Z.to_N (48 + d)).

(** Decimal digits of [n >= 0] in front of [acc]; twenty digits cover every
    64-bit value. *)
Fixpoint fmt_u (fuel : nat) (n : Z) (acc : string) : string :=
  match fuel with
  | O => acc
  | S fuel' =>
      let acc := String (digit_char (n mod 10)) acc in
      if n / 10 =? 0 then acc else fmt_u fuel' (n / 10) acc
  end.

(** [printf("%d", z)]. *)
Definition fmt_d (z : Z) : string :=
  if z <? 0 then String "-" (fmt_u 20 (- z) "") else fmt_u 20 z "".

Fixpoint concat (l : list string) : string :=
  match l with
  | [] => EmptyString
  | s :: l' => s ++ concat l'
  end.

End CString.
Import CString.

(* ================================================================== *)
(** * <time.h>: broken-down time as the C library computes it *)
(* ================================================================== *)

(** The C library is not part of the repository; the functions below follow
    ISO C / POSIX for the C locale, and glibc's [strptime] for the
    conversions that the server's three format strings use.  [time_t] is a
    64-bit count of seconds, modelled as [Z]. *)
Module CTime.

Record tm : Type := mk_tm {
  tm_sec : Z; tm_min : Z; tm_hour : Z;
  tm_mday : Z; tm_mon : Z; tm_year : Z;
  tm_wday : Z; tm_yday : Z; tm_isdst : Z
}.

(** [bzero(&tm, sizeof(tm))]. *)
Definition tm_zero : tm := mk_tm 0 0 0 0 0 0 0 0 0.

(** The proleptic Gregorian calendar in eras of 400 years (146097 days)
    that start on 1 March: the day of the era of a date whose year of the
    era is [yoe], and back. *)
Definition doe_of_civil (yoe m d : Z) : Z :=
  let mp := if 2 <? m then m - 3 else m + 9 in
  let doy := (153 * mp + 2) / 5 + d - 1 in
  yoe * 365 + yoe / 4 - yoe / 100 + doy.

Definition civil_of_doe (doe : Z) : Z * Z * Z :=
  let yoe := (doe - doe / 1460 + doe / 36524 - doe / 146096) / 365 in
  let doy := doe - (365 * yoe + yoe / 4 - yoe / 100) in
  let mp := (5 * doy + 2) / 153 in
  let d := doy - (153 * mp + 2) / 5 + 1 in
  let m := if mp <? 10 then mp + 3 else mp - 9 in
  (yoe, m, d).

(** Days from 1970-01-01 to the civil date [y]-[m]-[d], and back. *)
Definition days_from_civil (y m d : Z) : Z :=
  let y := if m <=? 2 then y - 1 else y in
  (y / 400) * 146097 + doe_of_civil (y mod 400) m d - 719468.

Definition civil_from_days (z : Z) : Z * Z * Z :=
  let z := z + 719468 in
  let '(yoe, m, d) := civil_of_doe (z mod 146097) in
  (yoe + (z / 146097) * 400 + (if m <=? 2 then 1 else 0), m, d).

(** [timegm]: seconds since the epoch of a broken-down UTC time; a month
    outside 0..11 carries into the year, the other fields count linearly. *)
Definition timegm (t : tm) : Z :=
  let y := tm_year t + 1900 + tm_mon t / 12 in
  let m := tm_mon t mod 12 + 1 in
  days_from_civil y m (tm_mday t) * 86400
  + tm_hour t * 3600 + tm_min t * 60 + tm_sec t.

(** [gmtime_r]: [None] is the NULL returned when the year does not fit the
    [int] field [tm_year]. *)
Definition gmtime_r (t : Z) : option tm :=
  let days := t / 86400 in
  let rem := t mod 86400 in
  let '(y, m, d) := civil_from_days days in
  if (INT_MIN <=? y - 1900) && (y - 1900 <=? INT_MAX) then
    Some (mk_tm (rem mod 60) (rem / 60 mod 60) (rem / 3600)
                d (m - 1) (y - 1900)
                ((days + 4) mod 7)
                (days - days_from_civil y 1 1)
                0)
  else None.

Section LocalZone.
(** What [mktime] answers depends on the time zone in force: on the TZ
    variable, the zone's rules in the system's database and the C library,
    none of which is part of the repository.  [zone] stands for that
    answer, -1 for a failure included. *)
Variable zone : tm -> Z.

(** [mktime] reads the structure as local time; ISO C has it ignore the
    values of [tm_wday] and [tm_yday]. *)
Definition mktime (t : tm) : Z :=
  zone (mk_tm (tm_sec t) (tm_min t) (tm_hour t) (tm_mday t) (tm_mon t)
              (tm_year t) 0 0 (tm_isdst t)).
End LocalZone.

(** The answer in a zone whose local time stays [tz] seconds east of
    Greenwich and knows no daylight saving time, as under TZ=UTC0 ([tz] is
    0) or TZ=CET-1 ([tz] is 3600): the fields counted as [timegm] counts
    them, less the offset.  With a 64-bit [time_t] no [int]-valued
    structure overflows. *)
Definition fixed_zone (tz : Z) (t : tm) : Z := timegm t - tz.

(** The answers under TZ=Pacific/Apia (glibc 2.36) for structures with
    [tm_isdst = 0] that are dated in 2011 or 2012, the 30 December 2011
    apart.  Samoa moved across the date line at the end of 29 December
    2011, from UTC-10 to UTC+14, in the middle of its daylight saving time;
    its standard time was UTC-11 before that summer and UTC+13 after it.
    Asked for standard time at a date of that summer, [mktime] takes the
    offset of the standard time it finds nearest: UTC-11 for structures
    before 31 December 2011 14:00:00, UTC+13 from there on. *)
Definition apia_zone (t : tm) : Z :=
  let g := timegm t in
  if g <? 1325340000 then g + 39600 else g - 46800.

Definition ab_weekday_name : list string :=
  ["Sun"; "Mon"; "Tue"; "Wed"; "Thu"; "Fri"; "Sat"].
Definition weekday_name : list string :=
  ["Sunday"; "Monday"; "Tuesday"; "Wednesday"; "Thursday"; "Friday";
   "Saturday"].
Definition ab_month_name : list string :=
  ["Jan"; "Feb"; "Mar"; "Apr"; "May"; "Jun"; "Jul"; "Aug"; "Sep"; "Oct";
   "Nov"; "Dec"].
Definition month_name : list string :=
  ["January"; "February"; "March"; "April"; "May"; "June"; "July"; "August";
   "September"; "October"; "November"; "December"].

(** [printf("%02d", n)] for [0 <= n]. *)
Definition fmt_02d (n : Z) : string :=
  if n <? 10 then "0" ++ fmt_d n else fmt_d n.

(** [strftime(dst, dst_len, "%a, %d %b %Y %H:%M:%S GMT", &date)]: the
    string, or [None] for the return value 0 when it does not fit with its
    terminating NUL.  glibc adds 1900 to [tm_year] in an [int]. *)
Definition strftime_rfc1123 (dst_len : Z) (date : tm) : option string :=
  let s :=
    nth (Z.to_nat (tm_wday date)) ab_weekday_name "?" ++ ", " ++
    fmt_02d (tm_mday date) ++ " " ++
    nth (Z.to_nat (tm_mon date)) ab_month_name "?" ++ " " ++
    fmt_d (to_int (tm_year date + 1900)) ++ " " ++
    fmt_02d (tm_hour date) ++ ":" ++ fmt_02d (tm_min date) ++ ":" ++
    fmt_02d (tm_sec date) ++ " GMT" in
  if strlen s <? dst_len then Some s else None.

(** glibc's [match_string]: the name is a case-insensitive prefix of the
    input; the result is the input after the name. *)
Definition match_string (name rp : string) : option string :=
  if strncasecmp name rp (String.length name) =? 0
  then Some (drop (String.length name) rp) else None.

(** The loop of [%a] and [%b]: every full and abbreviated name is tried, the
    longest match wins, the first one among equals. *)
Fixpoint match_names (full abbr : list string) (cnt : Z) (rp : string)
    (best : option (Z * string)) : option (Z * string) :=
  let better (b : option (Z * string)) (name : string) :=
    match match_string name rp with
    | Some rest =>
        match b with
        | Some (_, r) =>
            if (String.length rest <? String.length r)%nat
            then Some (cnt, rest) else b
        | None => Some (cnt, rest)
        end
    | None => b
    end in
  match full, abbr with
  | f :: full', a :: abbr' =>
      match_names full' abbr' (cnt + 1) rp (better (better best f) a)
  | _, _ => best
  end.

(** The do-while of glibc's [get_number]: [n] more digits at most, and no
    further digit once ten times the value exceeds [to]. *)
Fixpoint get_digits (n : nat) (to val : Z) (rp : string) : Z * string :=
  match n with
  | O => (val, rp)
  | S n' =>
      match rp with
      | String c rp' =>
          if isdigit c && (val * 10 <=? to)
          then get_digits n' to (val * 10 + (zchar c - 48)) rp'
          else (val, rp)
      | EmptyString => (val, rp)
      end
  end.

Definition get_number (from to : Z) (n : nat) (rp : string)
  : option (Z * string) :=
  match skip_spaces rp with
  | String c rp' =>
      if isdigit c then
        let '(val, rest) := get_digits (Nat.pred n) to (zchar c - 48) rp' in
        if (val <? from) || (to <? val) then None else Some (val, rest)
      else None
  | EmptyString => None
  end.

Definition set_mday v t :=
  mk_tm (tm_sec t) (tm_min t) (tm_hour t) v (tm_mon t) (tm_year t)
        (tm_wday t) (tm_yday t) (tm_isdst t).
Definition set_mon v t :=
  mk_tm (tm_sec t) (tm_min t) (tm_hour t) (tm_mday t) v (tm_year t)
        (tm_wday t) (tm_yday t) (tm_isdst t).
Definition set_year v t :=
  mk_tm (tm_sec t) (tm_min t) (tm_hour t) (tm_mday t) (tm_mon t) v
        (tm_wday t) (tm_yday t) (tm_isdst t).
Definition set_wday v t :=
  mk_tm (tm_sec t) (tm_min t) (tm_hour t) (tm_mday t) (tm_mon t) (tm_year t)
        v (tm_yday t) (tm_isdst t).
Definition set_hour v t :=
  mk_tm (tm_sec t) (tm_min t) v (tm_mday t) (tm_mon t) (tm_year t)
        (tm_wday t) (tm_yday t) (tm_isdst t).
Definition set_min v t :=
  mk_tm (tm_sec t) v (tm_hour t) (tm_mday t) (tm_mon t) (tm_year t)
        (tm_wday t) (tm_yday t) (tm_isdst t).
Definition set_sec v t :=
  mk_tm v (tm_min t) (tm_hour t) (tm_mday t) (tm_mon t) (tm_year t)
        (tm_wday t) (tm_yday t) (tm_isdst t).

Definition conv_number (from to : Z) (n : nat) (store : Z -> tm -> tm)
    (rp : string) (t : tm) : option (string * tm) :=
  match get_number from to n rp with
  | Some (v, rest) => Some (rest, store v t)
  | None => None
  end.

(** One conversion specification.  Only the conversions that occur in the
    server's formats are given; any other one fails. *)
Definition strptime_conv (c : ascii) (rp : string) (t : tm)
  : option (string * tm) :=
  if Ascii.eqb c "a" || Ascii.eqb c "A" then
    match match_names weekday_name ab_weekday_name 0 rp None with
    | Some (cnt, rest) => Some (rest, set_wday cnt t)
    | None => None
    end
  else if Ascii.eqb c "b" || Ascii.eqb c "B" || Ascii.eqb c "h" then
    match match_names month_name ab_month_name 0 rp None with
    | Some (cnt, rest) => Some (rest, set_mon cnt t)
    | None => None
    end
  else if Ascii.eqb c "d" || Ascii.eqb c "e" then
    conv_number 1 31 2 set_mday rp t
  else if Ascii.eqb c "H" then conv_number 0 23 2 set_hour rp t
  else if Ascii.eqb c "M" then conv_number 0 59 2 set_min rp t
  else if Ascii.eqb c "S" then conv_number 0 61 2 set_sec rp t
  else if Ascii.eqb c "Y" then
    conv_number 0 9999 4 (fun v => set_year (v - 1900)) rp t
  else if Ascii.eqb c "y" then
    conv_number 0 99 2 (fun v => set_year (if 69 <=? v then v else v + 100))
                rp t
  else None.

(** The main loop of [strptime]: white space in the format matches any
    amount of white space in the input, [%] starts a conversion, any other
    character must be matched exactly. *)
Fixpoint strptime_go (fmt rp : string) (t : tm) : option (string * tm) :=
  match fmt with
  | EmptyString => Some (rp, t)
  | String c fmt' =>
      if isspace c then strptime_go fmt' (skip_spaces rp) t
      else if Ascii.eqb c "%" then
        match fmt' with
        | String d fmt'' =>
            match strptime_conv d rp t with
            | Some (rp', t') => strptime_go fmt'' rp' t'
            | None => None
            end
        | EmptyString => None
        end
      else
        match rp with
        | String r rp' => if Ascii.eqb r c then strptime_go fmt' rp' t else None
        | EmptyString => None
        end
  end.

(** [strptime(s, fmt, &tm)]: the filled structure, [None] for NULL.  The
    derived fields [tm_wday]/[tm_yday] that glibc recomputes afterwards are
    not read by [mktime] and are left as parsed. *)
Definition strptime (s fmt : string) (t : tm) : option tm :=
  option_map snd (strptime_go fmt s t).

End CTime.
Import CTime.

(* ================================================================== *)
(** * util.c *)
(* ================================================================== *)

Definition BUF_SIZE : Z := 4 * 1024.

(** [write_buffer(buf, buf_size, format, ...)]: [formatted] is the text that
    [vsnprintf] produces for the arguments; the result is its length, or
    [-1] when it does not fit the buffer together with the NUL byte. *)
Definition write_buffer (buf_size : Z) (formatted : string) : Z :=
  let written := strlen formatted in
  if (written <? 0) || (buf_size <=? written) then -1 else written.

(** [time_to_http_date(&time, dst, dst_len)]: the string stored in [dst] on
    return value 0, [None] on return value -1. *)
Definition time_to_http_date (time : Z) (dst_len : Z) : option string :=
  match gmtime_r time with
  | None => None
  | Some date => strftime_rfc1123 dst_len date
  end.

Section Zone.
Variable zone : tm -> Z.

(** [local_to_gmtime(&time)]. *)
Definition local_to_gmtime (time : Z) : Z :=
  match gmtime_r time with
  | None => -1
  | Some result => mktime zone result
  end.

(** The broken-down time that [http_date_to_time] hands to [mktime]: the
    choice among the three formats of RFC 1945 and the call of
    [strptime]. *)
Definition http_date_tm (date : string) : option tm :=
  match strchr date "," with
  | None => strptime date "%a %b %e %H:%M:%S %Y" tm_zero
  | Some pos =>
      let weekday_len := Z.of_nat pos in
      if weekday_len =? 3
      then strptime date "%a, %d %b %Y %H:%M:%S GMT" tm_zero
      else strptime date "%A, %d-%b-%y %H:%M:%S GMT" tm_zero
  end.

(** [http_date_to_time(date, &dst)]: the value stored in [dst] on return
    value 0, [None] on return value -1 ([dst] is then left untouched). *)
Definition http_date_to_time (date : string) : option Z :=
  match http_date_tm date with
  | None => None
  | Some tm =>
      let time := mktime zone tm in
      if time =? -1 then None else Some time
  end.
End Zone.

(* ================================================================== *)
(** * http.h: requests, responses, status codes *)
(* ================================================================== *)

Definition REQUEST_METHOD_GET : Z := 1.
Definition REQUEST_METHOD_HEAD : Z := 2.
Definition REQUEST_METHOD_POST : Z := 3.

Definition RESPONSE_STATUS_OK : Z := 200.
Definition RESPONSE_STATUS_BAD_REQUEST : Z := 400.
Definition RESPONSE_STATUS_FORBIDDEN : Z := 403.
Definition RESPONSE_STATUS_NOT_FOUND : Z := 404.
Definition RESPONSE_STATUS_NOT_IMPLEMENTED : Z := 501.
Definition RESPONSE_STATUS_VERSION_NOT_SUPPORTED : Z := 505.
Definition RESPONSE_STATUS_CONNECTION_TIMED_OUT : Z := 522.
Definition RESPONSE_STATUS_INTERNAL_SERVER_ERROR : Z := 500.

Module Request.
Record request : Type := mk {
  path : string;
  method : Z;
  if_modified_since_date : Z;
  content_length : Z;
  content_type : string;
  querystring : string;
  version_major : Z;
  version_minor : Z
}.
Definition set_path v r :=
  mk v (method r) (if_modified_since_date r) (content_length r)
     (content_type r) (querystring r) (version_major r) (version_minor r).
Definition set_method v r :=
  mk (path r) v (if_modified_since_date r) (content_length r)
     (content_type r) (querystring r) (version_major r) (version_minor r).
Definition set_if_modified_since_date v r :=
  mk (path r) (method r) v (content_length r)
     (content_type r) (querystring r) (version_major r) (version_minor r).
Definition set_content_length v r :=
  mk (path r) (method r) (if_modified_since_date r) v
     (content_type r) (querystring r) (version_major r) (version_minor r).
Definition set_content_type v r :=
  mk (path r) (method r) (if_modified_since_date r) (content_length r)
     v (querystring r) (version_major r) (version_minor r).
Definition set_querystring v r :=
  mk (path r) (method r) (if_modified_since_date r) (content_length r)
     (content_type r) v (version_major r) (version_minor r).
Definition set_version major minor r :=
  mk (path r) (method r) (if_modified_since_date r) (content_length r)
     (content_type r) (querystring r) major minor.
End Request.
Abbreviation request := Request.request.

Module Response.
Record response : Type := mk {
  code : Z;
  last_modified : Z;
  content_type : string;
  content_length : Z
}.
End Response.
Abbreviation response := Response.response.

(** The two fields of [struct flags] that the request engine reads: the
    served root [dir] and the optional CGI root [c_dir] (NULL is [None]). *)
Record flags : Type := mk_flags {
  c_dir : option string;
  dir : string
}.

(** [init_response(&response, code)]. *)
Definition init_response (code : Z) : response :=
  Response.mk code (-1) "" 0.

(** [init_request(&request)]. *)
Definition init_request : request :=
  Request.mk "" (-1) (-1) (-1) "" "" (-1) (-1).

(* ================================================================== *)
(** * The environment of one connection *)
(* ================================================================== *)

Inductive errno : Type :=
| EACCES | EROFS | ENAMETOOLONG | ELOOP | ENOENT | ENOTDIR | EOTHER.

Definition R_OK : Z := 4.
Definition X_OK : Z := 1.

Record stat_t : Type := mk_stat {
  st_size : Z;
  st_mtime : Z;
  S_ISDIR : bool
}.

(** What one [write] of the parent on the pipe to the standard input of a
    CGI child meets.  The server leaves SIGPIPE at its default action, so a
    write on a pipe that the child has closed (or left behind on ending)
    ends the server process. *)
Inductive pipe_write : Type :=
| Taken        (* the byte is in the pipe *)
| Refused      (* [write] returns -1 *)
| BrokenPipe.  (* SIGPIPE *)

(** How the standard output of a CGI child ends for the parent that reads
    it: with the end of the file, or never, as with a child that waits for
    the end of its own input, which the parent closes only afterwards. *)
Inductive pipe_end : Type :=
| EndOfFile
| NeverEnds.

(** One run of a CGI child as the parent meets it: what its writes to the
    pipe meet, counted from 0, the bytes that the child writes to its
    standard output, and how that output ends. *)
Record cgi_run : Type := mk_cgi_run {
  stdin_writes : nat -> pipe_write;
  stdout_bytes : string;
  stdout_end : pipe_end
}.

(** What the kernel and the libraries answer.  The file system does not
    change while a connection is served. *)
Record os : Type := mk_os {
  (** what [mktime] answers in the zone in force *)
  os_zone : tm -> Z;
  (** [time(NULL)] *)
  os_time : Z;
  (** [realpath(path, resolved)]: the canonical absolute path, or NULL *)
  realpath : string -> option string;
  (** [access(path, mode)]: [None] for 0, otherwise the [errno] of -1 *)
  access : string -> Z -> option errno;
  (** [stat(path, &sb)] *)
  stat : string -> option stat_t;
  (** [getpwnam(name)->pw_dir] *)
  getpwnam : string -> option string;
  (** the entries of a directory as [readdir] yields them, "." and ".."
      included; [None] when it cannot be opened *)
  dir_entries : string -> option (list string);
  (** the bytes of a file that [open]/[read] deliver; [None] when [open]
      fails *)
  file_bytes : string -> option string;
  (** libmagic: [magic_file] with [MAGIC_MIME_TYPE] *)
  magic_file : string -> option string;
  (** [pipe], [fork] and [execl] of a CGI program: how the child gets on
      with the parent, given the strings passed to [putenv] and the bytes
      that the parent has for its standard input; [None] when [pipe] or
      [fork] fails *)
  cgi_child : string -> list (option string) -> list (option ascii)
              -> option cgi_run
}.

Definition PATH_MAX : Z := 4096.
Definition LOGIN_NAME_MAX : Z := 256.

(** ** The client socket and the connection monad *)

(** What the next [select]/[read] on the client socket meets.  The end of
    the script is the end of the stream (the peer closed). *)
Inductive sock_event : Type :=
| Data (bytes : string)   (* bytes ready to be read *)
| Timeout                 (* nothing arrives within CLIENT_TIMEOUT_SEC *)
| ReadError.              (* read returns -1 *)

(** What the connection does that can be observed from outside; the call
    of [checkuri] is recorded next to the system calls. *)
Inductive action : Type :=
| Write (bytes : string)                       (* write/send on the socket *)
| Checkuri (path : string)                     (* path resolution invoked *)
| Exec (cgi_path : string) (env : list (option string))
       (stdin : list (option ascii)).          (* CGI child spawned, with
                                                  the bytes that reach it *)

Record conn : Type := mk_conn {
  input : list sock_event;
  trace : list action
}.

(** The bytes sent to the client, in order. *)
Fixpoint sent (tr : list action) : string :=
  match tr with
  | [] => ""
  | Write s :: tr' => s ++ sent tr'
  | _ :: tr' => sent tr'
  end.

Inductive outcome (A : Type) : Type :=
| Ret (a : A)   (* the function returns *)
| Exit          (* the process called exit *)
| Killed        (* a signal with its default action ended the process *)
| Blocked       (* a system call does not return *)
| Undef.        (* the C program has no defined behaviour *)
Arguments Ret {A} a.
Arguments Exit {A}.
Arguments Killed {A}.
Arguments Blocked {A}.
Arguments Undef {A}.

Definition M (A : Type) : Type := conn -> outcome A * conn.

Definition ret {A} (a : A) : M A := fun c => (Ret a, c).
Definition bind {A B} (m : M A) (k : A -> M B) : M B :=
  fun c =>
    match m c with
    | (Ret a, c') => k a c'
    | (Exit, c') => (Exit, c')
    | (Killed, c') => (Killed, c')
    | (Blocked, c') => (Blocked, c')
    | (Undef, c') => (Undef, c')
    end.
Definition exit {A} : M A := fun c => (Exit, c).
Definition undef {A} : M A := fun c => (Undef, c).

Notation "x <- m ;; k" := (bind m (fun x => k))
  (at level 61, m at next level, right associativity).
Notation "' p <- m ;; k" := (bind m (fun x => let p := x in k))
  (at level 61, p pattern, m at next level, right associativity).
Notation "m ;;; k" := (bind m (fun _ => k))
  (at level 61, right associativity).

Definition emit (a : action) : M unit :=
  fun c => (Ret tt, mk_conn (input c) (trace c ++ [a])).

(** [write(socket, buf, n)]; writes to the client are taken to succeed. *)
Definition write_socket (bytes : string) : M unit := emit (Write bytes).

(* ================================================================== *)
(** * http.c: response composition *)
(* ================================================================== *)

Definition HTTP_VERSION : string := "HTTP/1.0".
Definition HTTP_VERSION_1 : string := "HTTP/1.0".
Definition SERVER_ID : string := "sws/1.0".
Definition IF_MODIFIED_SINCE_PREFIX : string := "If-Modified-Since:".
Definition CONTENT_LENGTH_PREFIX : string := "Content-Length:".
Definition CONTENT_TYPE_PREFIX : string := "Content-Type:".
Definition INDEX_HTML : string := "index.html".
Definition CGI_PREFIX : string := "/cgi-bin/".

(** A fixed buffer being filled: the text written so far and the bytes
    left ([buf_pos - buf] is the length of [filled]). *)
Record cbuf : Type := mk_cbuf {
  filled : string;
  buf_size_remain : Z
}.

Definition cbuf_new (size : Z) : cbuf := mk_cbuf "" size.

(** The recurring step [written = write_buffer(buf_pos, buf_size_remain,
    ...); if (written < 0) return -1; buf_pos += written; buf_size_remain
    -= written]: [None] stands for the early return. *)
Definition cbuf_write (b : cbuf) (formatted : string) : option cbuf :=
  let written := write_buffer (buf_size_remain b) formatted in
  if written <? 0 then None
  else Some (mk_cbuf (filled b ++ formatted) (buf_size_remain b - written)).

Definition cbuf_write_if (cond : bool) (b : cbuf) (formatted : string)
  : option cbuf :=
  if cond then cbuf_write b formatted else Some b.

Definition obind {A B} (o : option A) (k : A -> option B) : option B :=
  match o with Some a => k a | None => None end.

(** The header block that [coderesp_headers] assembles in its buffer;
    [None] when the function returns -1 before writing to the socket. *)
Definition coderesp_headers_text (o : os) (r : response) : option string :=
  obind (time_to_http_date (os_time o) 128) (fun http_date =>
  obind (cbuf_write (cbuf_new BUF_SIZE) ("Date: " ++ http_date ++ CRLF))
    (fun b =>
  obind (cbuf_write b ("Server: " ++ SERVER_ID ++ CRLF)) (fun b =>
  obind (if Response.last_modified r =? -1 then Some b
         else obind (time_to_http_date (Response.last_modified r) 128)
                (fun http_date =>
                 cbuf_write b ("Last-Modified: " ++ http_date ++ CRLF)))
    (fun b =>
  obind (cbuf_write_if (0 <? strlen (Response.content_type r)) b
           ("Content-Type: " ++ Response.content_type r ++ CRLF)) (fun b =>
  obind (cbuf_write_if (0 <=? Response.content_length r) b
           ("Content-Length: " ++ fmt_d (Response.content_length r) ++ CRLF))
    (fun b =>
  obind (cbuf_write b CRLF) (fun b => Some (filled b)))))))).

Definition coderesp_headers (o : os) (r : response) : M Z :=
  match coderesp_headers_text o r with
  | None => ret (-1)
  | Some text => write_socket text ;;; ret 0
  end.

(** The reason phrase of [coderesp]'s switch, with the code that the status
    line shows (an unknown code is rewritten to 500). *)
Definition reason_phrase (code : Z) : Z * string :=
  if code =? RESPONSE_STATUS_OK then (code, "OK")
  else if code =? RESPONSE_STATUS_BAD_REQUEST then (code, "Bad Request")
  else if code =? RESPONSE_STATUS_FORBIDDEN then (code, "Forbidden")
  else if code =? RESPONSE_STATUS_NOT_FOUND then (code, "Not Found")
  else if code =? RESPONSE_STATUS_NOT_IMPLEMENTED
    then (code, "Not Implemented")
  else if code =? RESPONSE_STATUS_VERSION_NOT_SUPPORTED
    then (code, "Version Not Supported")
  else if code =? RESPONSE_STATUS_CONNECTION_TIMED_OUT
    then (code, "Connection Timed Out")
  else (RESPONSE_STATUS_INTERNAL_SERVER_ERROR, "Internal Server Error").

Definition status_line (code : Z) : string :=
  let '(code, phrase) := reason_phrase code in
  HTTP_VERSION ++ " " ++ fmt_d code ++ " " ++ phrase ++ CRLF.

(** [coderesp(response, socket, full_response)]. *)
Definition coderesp (o : os) (r : response) (full_response : bool) : M Z :=
  if negb full_response then ret 0
  else
    let line := status_line (Response.code r) in
    let written := write_buffer BUF_SIZE line in
    if written <? 0 then ret (-1)
    else
      write_socket line ;;;
      result <- coderesp_headers o r ;;
      if fst (reason_phrase (Response.code r))
         =? RESPONSE_STATUS_CONNECTION_TIMED_OUT
      then exit
      else ret result.

(** The text [send_generic_page] puts in the title and the first
    paragraph; [None] for the timed-out code, where the function returns
    at once. *)
Definition generic_message (code : Z) : option string :=
  if code =? RESPONSE_STATUS_OK then Some (fmt_d code ++ " - OK")
  else if code =? RESPONSE_STATUS_BAD_REQUEST
    then Some (fmt_d code ++ " - Bad Request")
  else if code =? RESPONSE_STATUS_FORBIDDEN
    then Some (fmt_d code ++ " - Forbidden")
  else if code =? RESPONSE_STATUS_NOT_FOUND
    then Some (fmt_d code ++ " - File Not Found")
  else if code =? RESPONSE_STATUS_NOT_IMPLEMENTED
    then Some (fmt_d code ++ " - Method Not Implemented")
  else if code =? RESPONSE_STATUS_VERSION_NOT_SUPPORTED
    then Some (fmt_d code ++ " - HTTP Version Not Supported")
  else if code =? RESPONSE_STATUS_CONNECTION_TIMED_OUT then None
  else if code =? RESPONSE_STATUS_INTERNAL_SERVER_ERROR
    then Some (fmt_d code ++ " - Internal Server Error")
  else Some (fmt_d code ++ " - Unknown").

(** The HTML document of [send_generic_page]; [None] when a
    [write_buffer] fails. *)
Definition generic_page_html (message : string) (custom_msg : option string)
  : option cbuf :=
  obind (cbuf_write (cbuf_new BUF_SIZE) ("<html>" ++ CRLF ++ "<head>" ++ CRLF))
    (fun b =>
  obind (cbuf_write b ("<title>Team Geronimo - " ++ message ++ "</title>"
                       ++ CRLF ++ "</head>" ++ CRLF)) (fun b =>
  obind (cbuf_write b ("<body>" ++ CRLF ++ "<h1>Team Geronimo</h1>" ++ CRLF))
    (fun b =>
  match custom_msg with
  | Some msg =>
      cbuf_write b ("<p>" ++ message ++ "</p>" ++ CRLF ++ "<p>" ++ msg
                    ++ "</p>" ++ CRLF ++ "</body>" ++ CRLF ++ "</html>"
                    ++ CRLF)
  | None =>
      cbuf_write b ("<p>" ++ message ++ "</p>" ++ CRLF ++ "</body>" ++ CRLF
                    ++ "</html>" ++ CRLF)
  end))).

(** [send_generic_page(response, simple_response, socket, custom_msg)]: the
    return value and the response as the function leaves it. *)
Definition send_generic_page (o : os) (r : response) (simple_response : bool)
    (custom_msg : option string) : M (Z * response) :=
  match generic_message (Response.code r) with
  | None => ret (0, r)
  | Some message =>
      match generic_page_html message custom_msg with
      | None => ret (-1, r)
      | Some b =>
          let r' := Response.mk (Response.code r) (Response.last_modified r)
                      "text/html" (strlen (filled b)) in
          rc <- coderesp o r' (negb simple_response) ;;
          if negb (rc =? 0) then ret (-1, r')
          else write_socket (filled b) ;;; ret (0, r')
      end
  end.

(* ================================================================== *)
(** * http.c: directory listings *)
(* ================================================================== *)

(** [alphasort] compares with [strcoll]; the server never calls
    [setlocale], so the collation is that of the C locale: byte order. *)
Module NameOrder <: TotalLeBool.
Definition t := string.
Definition leb := String.leb.
Theorem leb_total : forall a1 a2, leb a1 a2 = true \/ leb a2 a1 = true.
Proof. exact String.leb_total. Qed.
End NameOrder.
Module NameSort := Sort NameOrder.

(** [scandir(path, &namelist, 0, alphasort)]: the sorted entries, [None]
    for the return value -1. *)
Definition scandir (o : os) (path : string) : option (list string) :=
  option_map NameSort.sort (dir_entries o path).

(** The part of [s] after its last '/', [acc] being the part after the
    last '/' seen so far. *)
Fixpoint after_last_slash (s acc : string) : string :=
  match s with
  | EmptyString => acc
  | String c s' =>
      if Ascii.eqb c "/" then after_last_slash s' s'
      else after_last_slash s' acc
  end.

Fixpoint strip_trailing_slashes (s : string) : string :=
  match s with
  | EmptyString => EmptyString
  | String c s' =>
      match strip_trailing_slashes s' with
      | EmptyString => if Ascii.eqb c "/" then EmptyString else String c ""
      | t => String c t
      end
  end.

(** POSIX [basename]. *)
Definition basename (path : string) : string :=
  match path with
  | EmptyString => "."
  | _ =>
      match strip_trailing_slashes path with
      | EmptyString => "/"
      | p => after_last_slash p p
      end
  end.

(** The loop over the entries of [send_directory_listing]: the buffer is
    written out when an entry and its CRLF would not fit, names starting
    with '.' are skipped.  [None] is the early [return -1]. *)
Fixpoint list_entries (names : list string) (b : cbuf) : M (option cbuf) :=
  match names with
  | [] => ret (Some b)
  | d_name :: names' =>
      b <- (if buf_size_remain b <? strlen d_name + 2
            then write_socket (filled b) ;;; ret (cbuf_new BUF_SIZE)
            else ret b) ;;
      match d_name with
      | String c _ =>
          if negb (Ascii.eqb c ".") then
            match cbuf_write b (d_name ++ CRLF) with
            | None => ret None
            | Some b' => list_entries names' b'
            end
          else list_entries names' b
      | EmptyString => list_entries names' b
      end
  end.

(** The head of the page, up to the opening paragraph. *)
Definition listing_head (path : string) : option cbuf :=
  obind (cbuf_write (cbuf_new BUF_SIZE) ("<html>" ++ CRLF ++ "<head>" ++ CRLF))
    (fun b =>
  obind (cbuf_write b ("<title>Team Geronimo - " ++ basename path
                       ++ "</title>" ++ CRLF ++ "</head>" ++ CRLF)) (fun b =>
  cbuf_write b ("<body>" ++ CRLF ++ "<h1>Directory Listing for "
                ++ basename path ++ "</h1>" ++ CRLF ++ "<p>" ++ CRLF))).

Definition listing_tail : string :=
  "</p>" ++ CRLF ++ "</body>" ++ CRLF ++ "</html>" ++ CRLF.

(** [send_directory_listing(request, socket)].  When [scandir] fails the
    loop is skipped and [free] is applied to the pointer that was never
    assigned. *)
Definition send_directory_listing (o : os) (rq : request) : M Z :=
  let entries := scandir o (Request.path rq) in
  match listing_head (Request.path rq) with
  | None => ret (-1)
  | Some b =>
      match entries with
      | None => undef
      | Some namelist =>
          ob <- list_entries namelist b ;;
          match ob with
          | None => ret (-1)
          | Some b =>
              b <- (if buf_size_remain b <? 100
                    then write_socket (filled b) ;;; ret (cbuf_new BUF_SIZE)
                    else ret b) ;;
              match cbuf_write b listing_tail with
              | None => ret (-1)
              | Some b => write_socket (filled b) ;;; ret 0
              end
          end
      end
  end.

(* ================================================================== *)
(** * http.c: URI resolution *)
(* ================================================================== *)

Definition last_char (s : string) : option ascii :=
  match String.length s with
  | O => None
  | S n => String.get n s
  end.

(** [check_index_html(path, index_html)]: the string left in [index_html]
    (the return value is not used by the caller). *)
Definition check_index_html (o : os) (path : string) : string :=
  match stat o path with
  | None => path
  | Some st_stat_index =>
      if negb (S_ISDIR st_stat_index) then path
      else if strlen path + strlen INDEX_HTML <? PATH_MAX then
        let index_html :=
          match last_char path with
          | Some c =>
              if Ascii.eqb c "/" then path ++ INDEX_HTML
              else path ++ "/" ++ INDEX_HTML
          | None => path ++ "/" ++ INDEX_HTML
          end in
        match stat o index_html with
        | Some st =>
            if negb (S_ISDIR st) then
              match access o index_html R_OK with
              | None => index_html
              | Some _ => path
              end
            else path
        | None => path
        end
      else path
  end.

(** What [checkuri] leaves behind: its return value, the request (whose
    path and query string it may rewrite), [*uri_status], [realpath_str]
    ([None] while never written) and [*cgi_request]. *)
Record checkuri_result : Type := mk_checkuri {
  cu_ret : Z;
  cu_request : request;
  cu_status : Z;
  cu_realpath : option string;
  cu_cgi : bool
}.

(** The candidate path and the resolution root that the four URI forms of
    [checkuri] build, or the status of an early return. *)
Inductive candidate : Type :=
| Candidate (uri_path server_real_path : string) (rq : request) (cgi : bool)
| Early (status : Z) (rq : request) (cgi : bool).

(** Offset of the first '/' in [s], its length when there is none. *)
Fixpoint slash_index (s : string) : nat :=
  match s with
  | EmptyString => O
  | String c s' => if Ascii.eqb c "/" then O else S (slash_index s')
  end.

(** The text before the first '?' and, when there is one, the text after
    it. *)
Fixpoint split_query (s : string) : string * option string :=
  match s with
  | EmptyString => (EmptyString, None)
  | String c s' =>
      if Ascii.eqb c "?" then (EmptyString, Some s')
      else let '(a, q) := split_query s' in (String c a, q)
  end.

Definition build_candidate (o : os) (flag : flags) (rq : request)
    (cgi_request : bool) : candidate :=
  let path := Request.path rq in
  if String.prefix "/~" path then
    (* the user's home directory *)
    let userdir := drop 2 path in
    let i := slash_index userdir in
    if LOGIN_NAME_MAX <? Z.of_nat i
    then Early RESPONSE_STATUS_BAD_REQUEST rq cgi_request
    else
      let username := take i userdir in
      match getpwnam o username with
      | None => Early RESPONSE_STATUS_NOT_FOUND rq cgi_request
      | Some pw_dir =>
          match realpath o pw_dir with
          | None => Early RESPONSE_STATUS_NOT_FOUND rq cgi_request
          | Some server_real_path =>
              let userdir := drop i userdir in
              if PATH_MAX <? strlen server_real_path + strlen userdir
              then Early RESPONSE_STATUS_BAD_REQUEST rq cgi_request
              else Candidate (server_real_path ++ userdir) server_real_path
                             rq cgi_request
          end
      end
  else
    match c_dir flag with
    | Some cdir =>
        if String.prefix "/cgi-bin/" path then
          (* /cgi-bin/ is replaced by the CGI directory *)
          if PATH_MAX <? strlen cdir + strlen (drop 8 path)
          then Early RESPONSE_STATUS_BAD_REQUEST rq cgi_request
          else
            let uri_path :=
              cdir ++ drop (String.length CGI_PREFIX) path in
            match realpath o cdir with
            | None => Early RESPONSE_STATUS_NOT_FOUND rq true
            | Some server_real_path =>
                match split_query uri_path with
                | (uri_path, Some q) =>
                    Candidate uri_path server_real_path
                      (Request.set_querystring
                         (take (255 - String.length "QUERY_STRING=") q) rq)
                      true
                | (uri_path, None) =>
                    Candidate uri_path server_real_path rq true
                end
            end
        else
          match split_query path with
          | (path', Some q) =>
              (* any other URI with a '?' is taken for a CGI request *)
              let rq := Request.set_path path' rq in
              if (PATH_MAX <? strlen cdir + strlen path')
                 || (PATH_MAX <? strlen q)
              then Early RESPONSE_STATUS_BAD_REQUEST rq true
              else
                match realpath o (dir flag) with
                | None => Early RESPONSE_STATUS_INTERNAL_SERVER_ERROR rq true
                | Some server_real_path =>
                    Candidate (cdir ++ path') server_real_path rq true
                end
          | (_, None) =>
              match realpath o (dir flag) with
              | None =>
                  Early RESPONSE_STATUS_INTERNAL_SERVER_ERROR rq cgi_request
              | Some server_real_path =>
                  if PATH_MAX <? strlen server_real_path + strlen path
                  then Early RESPONSE_STATUS_BAD_REQUEST rq cgi_request
                  else Candidate (server_real_path ++ path) server_real_path
                                 rq cgi_request
              end
          end
    | None =>
        match realpath o (dir flag) with
        | None => Early RESPONSE_STATUS_INTERNAL_SERVER_ERROR rq cgi_request
        | Some server_real_path =>
            if PATH_MAX <? strlen server_real_path + strlen path
            then Early RESPONSE_STATUS_BAD_REQUEST rq cgi_request
            else Candidate (server_real_path ++ path) server_real_path
                           rq cgi_request
        end
    end.

(** The mode handed to [access]; [None] when the switch on the method
    falls to its default and leaves [mode] unassigned. *)
Definition access_mode (rq : request) (cgi_request : bool) : option Z :=
  if cgi_request then Some (Z.lor R_OK X_OK)
  else if (Request.method rq =? REQUEST_METHOD_GET)
          || (Request.method rq =? REQUEST_METHOD_HEAD) then Some R_OK
  else if Request.method rq =? REQUEST_METHOD_POST
    then Some (Z.lor R_OK X_OK)
  else None.

Definition access_status (e : errno) : Z :=
  match e with
  | EACCES | EROFS => RESPONSE_STATUS_FORBIDDEN
  | ENAMETOOLONG | ELOOP => RESPONSE_STATUS_BAD_REQUEST
  | ENOENT | ENOTDIR => RESPONSE_STATUS_NOT_FOUND
  | EOTHER => RESPONSE_STATUS_INTERNAL_SERVER_ERROR
  end.

(** [checkuri(request, &uri_status, flag, realpath_str, &cgi_request)].
    [None]: [access] is called with the unassigned [mode]. *)
Definition checkuri (o : os) (flag : flags) (rq : request)
    (cgi_request : bool) : option checkuri_result :=
  match build_candidate o flag rq cgi_request with
  | Early status rq cgi => Some (mk_checkuri (-1) rq status None cgi)
  | Candidate uri_path server_real_path rq cgi =>
      match access_mode rq cgi with
      | None => None
      | Some mode =>
          match access o uri_path mode with
          | Some e => Some (mk_checkuri (-1) rq (access_status e) None cgi)
          | None =>
              match realpath o uri_path with
              | None =>
                  Some (mk_checkuri (-1) rq
                          RESPONSE_STATUS_INTERNAL_SERVER_ERROR None cgi)
              | Some uri_real_path =>
                  match strstr uri_real_path server_real_path with
                  | Some _ =>
                      Some (mk_checkuri 0 rq RESPONSE_STATUS_OK
                              (Some (if cgi then uri_real_path
                                     else check_index_html o uri_real_path))
                              cgi)
                  | None =>
                      Some (mk_checkuri (-1) rq RESPONSE_STATUS_FORBIDDEN
                              None cgi)
                  end
              end
          end
      end
  end.

(* ================================================================== *)
(** * http.c: static files *)
(* ================================================================== *)

(** [mime_type(path, dst, dst_len)]: the contents of [dst] afterwards. *)
Definition mime_type (o : os) (path : string) (dst : string) (dst_len : Z)
  : string :=
  match magic_file o path with
  | None => dst
  | Some mime => if dst_len <? strlen mime + 1 then "" else mime
  end.

(** [set_entity_body_headers(response, path)]. *)
Definition set_entity_body_headers (o : os) (r : response) (path : string)
  : Z * response :=
  match stat o path with
  | None => (-1, r)
  | Some sb =>
      (0, Response.mk (Response.code r) (st_mtime sb)
            (mime_type o path (Response.content_type r) 64)
            (to_int (st_size sb)))
  end.

(** The file goes out in pieces of [BUF_SIZE] bytes ([fuel] bounds their
    number). *)
Fixpoint send_chunks (fuel : nat) (bytes : string) : M unit :=
  match fuel with
  | O => ret tt
  | S fuel' =>
      match bytes with
      | EmptyString => ret tt
      | _ =>
          write_socket (take (Z.to_nat BUF_SIZE) bytes) ;;;
          send_chunks fuel' (drop (Z.to_nat BUF_SIZE) bytes)
      end
  end.

(** [fileserver(request, response, simple_response, socket, flag)]. *)
Definition fileserver (o : os) (rq : request) (r : response)
    (simple_response : bool) : M (Z * response) :=
  match stat o (Request.path rq) with
  | None =>
      send_generic_page o (init_response RESPONSE_STATUS_INTERNAL_SERVER_ERROR)
        simple_response None
  | Some st_stat =>
      if negb (Request.if_modified_since_date rq =? -1)
         && (local_to_gmtime (os_zone o) (st_mtime st_stat)
             <=? Request.if_modified_since_date rq)
      then
        (* file is not new enough *)
        let r := Response.mk (Response.code r) (Response.last_modified r)
                   "" 0 in
        rc <- coderesp o r (negb simple_response) ;; ret (rc, r)
      else
        rc <- coderesp o r (negb simple_response) ;;
        if negb (rc =? 0) then ret (-1, r)
        else if negb (S_ISDIR st_stat) then
          match file_bytes o (Request.path rq) with
          | None => ret (-1, r)
          | Some bytes =>
              send_chunks (String.length bytes) bytes ;;; ret (0, r)
          end
        else
          rc <- send_directory_listing o rq ;;
          if rc <? 0 then ret (-1, r) else ret (0, r)
  end.

(* ================================================================== *)
(** * http.c: CGI *)
(* ================================================================== *)

(** One [recv(socket, &c, 1, 0)]: the byte received, if any, and the rest
    of the script.  [recv] blocks, so a pause of the client only delays
    it. *)
Fixpoint recv1 (script : list sock_event) : option ascii * list sock_event :=
  match script with
  | [] => (None, [])
  | Data (String c EmptyString) :: rest => (Some c, rest)
  | Data (String c s) :: rest => (Some c, Data s :: rest)
  | Data EmptyString :: rest => (None, rest)
  | Timeout :: rest => recv1 rest
  | ReadError :: rest => (None, rest)
  end.

(** The loop that forwards [content_length] bytes of the request body: the
    result of [recv] is not looked at, so when nothing was received the
    previous content of [c] is written again ([None] while [c] was never
    assigned). *)
Fixpoint recv_body (n : nat) (c : option ascii) (script : list sock_event)
  : list (option ascii) * list sock_event :=
  match n with
  | O => ([], script)
  | S n' =>
      let '(got, script') := recv1 script in
      let c := match got with Some b => Some b | None => c end in
      let '(body, script'') := recv_body n' c script' in
      (c :: body, script'')
  end.

(** The four buffers that [execute_cgi] hands to [putenv].  [query_env] is
    only written under the guard [!request->querystring]; the query string
    is an array member, so the guard is never true and the buffer stays as
    it was allocated. *)
Definition cgi_environment (rq : request) : list (option string) :=
  let query_env : option string := None in
  let meth_env :=
    if Request.method rq =? REQUEST_METHOD_GET then "REQUEST_METHOD =GET"
    else if Request.method rq =? REQUEST_METHOD_HEAD
      then "REQUEST_METHOD =HEAD"
    else "REQUEST_METHOD =POST" in
  let length_env := "CONTENT_LENGTH =" ++ fmt_d (Request.content_length rq) in
  let type_env := "CONTENT_TYPE =" ++ Request.content_type rq in
  (if (Request.method rq =? REQUEST_METHOD_GET)
      || (Request.method rq =? REQUEST_METHOD_HEAD)
   then [query_env] else [])
  ++ [Some meth_env; Some length_env; Some type_env].

(** The writes of that loop on the pipe: the bytes that reach the child,
    and, when a write meets a broken pipe, the number of bytes received
    from the client by then. *)
Fixpoint pipe_writes (writes : nat -> pipe_write) (i : nat)
    (body : list (option ascii)) : list (option ascii) * option nat :=
  match body with
  | [] => ([], None)
  | b :: body' =>
      match writes i with
      | Taken =>
          let '(taken, killed) := pipe_writes writes (S i) body' in
          (b :: taken, killed)
      | Refused => pipe_writes writes (S i) body'
      | BrokenPipe => ([], Some (S i))
      end
  end.

(** [execute_cgi(request, flag, &uri_status, cgi_path, socket)]: the return
    value and the status stored through [uri_status].  The parent forwards
    the body of a POST to the child byte by byte, and afterwards the
    output of the child to the client byte by byte, until the output
    ends. *)
Definition execute_cgi (o : os) (rq : request) (uri_status : Z)
    (cgi_path : string) : M (Z * Z) :=
  let content_length := Request.content_length rq in
  let is_get_head :=
    (Request.method rq =? REQUEST_METHOD_GET)
    || (Request.method rq =? REQUEST_METHOD_HEAD) in
  let is_post := Request.method rq =? REQUEST_METHOD_POST in
  if negb is_get_head && negb is_post
  then ret (-1, RESPONSE_STATUS_INTERNAL_SERVER_ERROR)
  else if is_post && (content_length <=? 0)
  then ret (-1, RESPONSE_STATUS_BAD_REQUEST)
  else
    fun c =>
      let n := if is_post then Z.to_nat content_length else O in
      let body := fst (recv_body n None (input c)) in
      let env := cgi_environment rq in
      match cgi_child o cgi_path env body with
      | None => (Ret (-1, RESPONSE_STATUS_INTERNAL_SERVER_ERROR), c)
      | Some run =>
          match pipe_writes (stdin_writes run) 0 body with
          | (taken, Some received) =>
              (Killed,
               mk_conn (snd (recv_body received None (input c)))
                 (trace c ++ [Exec cgi_path env taken]))
          | (taken, None) =>
              let c' :=
                mk_conn (snd (recv_body n None (input c)))
                  (trace c ++ Exec cgi_path env taken
                     :: map (fun b => Write (String b ""))
                          (list_ascii_of_string (stdout_bytes run))) in
              match stdout_end run with
              | EndOfFile => (Ret (0, RESPONSE_STATUS_OK), c')
              | NeverEnds => (Blocked, c')
              end
          end
      end.

(* ================================================================== *)
(** * http.c: the connection handler *)
(* ================================================================== *)

Inductive read_result : Type :=
| ReadDone (buf : string)  (* the loop was left; [buf] holds these bytes *)
| ReadTimedOut             (* [wait_for_data] saw the timeout *)
| ReadFailed.              (* [read] returned -1 *)

(** The do-while loop that fills [buf]: [buf] is what was stored so far,
    [remain_buf] the room left.  A [read] of [remain_buf = 0] bytes returns
    0 and leaves the loop, as does the end of the stream; a chunk larger
    than the room is cut, and the loop is then left either by its
    condition or by the next [read], which asks for 0 bytes. *)
Fixpoint read_request (script : list sock_event) (buf : string)
    (remain_buf : Z) : read_result * list sock_event :=
  match script with
  | [] => (ReadDone buf, [])
  | Timeout :: rest => (ReadTimedOut, rest)
  | ReadError :: rest => (ReadFailed, rest)
  | Data bytes :: rest =>
      if strlen bytes =? 0 then (ReadDone buf, rest)
      else if remain_buf =? 0 then (ReadDone buf, script)
      else if remain_buf <? strlen bytes then
        (ReadDone (buf ++ take (Z.to_nat remain_buf) bytes),
         Data (drop (Z.to_nat remain_buf) bytes) :: rest)
      else
        let buf := buf ++ bytes in
        match strstr (c_str buf) (CRLF ++ CRLF) with
        | Some _ => (ReadDone buf, rest)
        | None => read_request rest buf (remain_buf - strlen bytes)
        end
  end.

(** The three blocks of the loop over the header lines.  The first one
    is the only one that can fail: [None] is the [break] with
    [header_parsing_failed = 1]. *)
Definition header_if_modified_since (zone : tm -> Z) (header_line : string)
    (rq : request) : option request :=
  let if_modified_since_prefix_len := String.length IF_MODIFIED_SINCE_PREFIX in
  if (Z.of_nat if_modified_since_prefix_len <? strlen header_line)
     && (strncasecmp header_line IF_MODIFIED_SINCE_PREFIX
           if_modified_since_prefix_len =? 0)
  then
    (* Skip whitespaces *)
    let date := skip_spaces (drop if_modified_since_prefix_len header_line) in
    match http_date_to_time zone date with
    | None => None
    | Some t => Some (Request.set_if_modified_since_date t rq)
    end
  else Some rq.

Definition header_content_length (header_line : string) (rq : request)
  : request :=
  let content_length_prefix_len := String.length CONTENT_LENGTH_PREFIX in
  if (Z.of_nat content_length_prefix_len + 2 <? strlen header_line)
     && (strncasecmp header_line CONTENT_LENGTH_PREFIX
           content_length_prefix_len =? 0)
  then Request.set_content_length
         (atoi (drop (content_length_prefix_len + 1) header_line)) rq
  else rq.

(** [snprintf(newreq.content_type, 64, "%s", ...)] keeps 63 characters. *)
Definition header_content_type (header_line : string) (rq : request)
  : request :=
  let content_type_prefix_len := String.length CONTENT_TYPE_PREFIX in
  if (Z.of_nat content_type_prefix_len + 2 <? strlen header_line)
     && (strncasecmp header_line CONTENT_TYPE_PREFIX
           content_type_prefix_len =? 0)
  then Request.set_content_type
         (take 63 (drop (content_type_prefix_len + 1) header_line)) rq
  else rq.

(** One turn of the loop. *)
Definition parse_header_line (zone : tm -> Z) (header_line : string)
    (rq : request) : option request :=
  match header_if_modified_since zone header_line rq with
  | None => None
  | Some rq =>
      Some (header_content_type header_line
              (header_content_length header_line rq))
  end.

(** The loop over the header lines: the request as it stands when the loop
    ends, and [header_parsing_failed]. *)
Fixpoint parse_headers (zone : tm -> Z) (header_lines : list string)
    (rq : request) : request * bool :=
  match header_lines with
  | [] => (rq, false)
  | header_line :: rest =>
      match parse_header_line zone header_line rq with
      | None => (rq, true)
      | Some rq' => parse_headers zone rest rq'
      end
  end.

(** The state of [httpd] after the chain that looks at the request line:
    [newreq], [response], [http_status], [realpath_str], [cgi_request]. *)
Record dispatched : Type := mk_dispatched {
  d_newreq : request;
  d_response : response;
  d_http_status : Z;
  d_realpath_str : option string;
  d_cgi_request : bool
}.

(** A call of [checkuri] from [httpd], recorded in the trace. *)
Definition call_checkuri (o : os) (flag : flags) (rq : request)
  : M checkuri_result :=
  emit (Checkuri (Request.path rq)) ;;;
  match checkuri o flag rq false with
  | None => undef
  | Some res => ret res
  end.

(** The branches of GET and HEAD. *)
Definition dispatch_get_head (o : os) (flag : flags) (newreq : request)
    (method : Z) (uri : string) : M dispatched :=
  let newreq := Request.set_path uri (Request.set_method method newreq) in
  res <- call_checkuri o flag newreq ;;
  let newreq := cu_request res in
  let http_status := cu_status res in
  let newreq :=
    if http_status =? RESPONSE_STATUS_OK
    then match cu_realpath res with
         | Some p => Request.set_path p newreq
         | None => newreq
         end
    else newreq in
  ret (mk_dispatched newreq (init_response http_status) http_status
         (cu_realpath res) (cu_cgi res)).

(** The branch of POST.  When [checkuri] fails, the final [strcpy] copies
    the never-written [realpath_str] into the path, which nothing reads
    afterwards; the model leaves the path as it is. *)
Definition dispatch_post (o : os) (flag : flags) (newreq : request)
    (uri : string) : M dispatched :=
  let newreq := Request.set_method REQUEST_METHOD_POST newreq in
  match c_dir flag with
  | None =>
      (* POST IS ONLY VALID IF CGI IS ENABLED *)
      ret (mk_dispatched newreq (init_response RESPONSE_STATUS_BAD_REQUEST)
             0 None false)
  | Some _ =>
      let newreq := Request.set_path uri newreq in
      res <- call_checkuri o flag newreq ;;
      let newreq := cu_request res in
      let http_status := cu_status res in
      if negb (cu_cgi res) && (http_status =? RESPONSE_STATUS_OK) then
        ret (mk_dispatched newreq (init_response RESPONSE_STATUS_BAD_REQUEST)
               http_status (cu_realpath res) (cu_cgi res))
      else
        let newreq :=
          match cu_realpath res with
          | Some p => Request.set_path p newreq
          | None => newreq
          end in
        ret (mk_dispatched newreq (init_response http_status) http_status
               (cu_realpath res) (cu_cgi res))
  end.

(** The if-else chain on the tokens of the request line. *)
Definition dispatch (o : os) (flag : flags) (newreq : request)
    (header_parsing_failed : bool) (token : list string) : M dispatched :=
  let token_count := Nat.max 1 (List.length token) in
  let simple_request := Nat.eqb token_count 2 in
  let newreq :=
    if simple_request then Request.set_version 0 9 newreq
    else Request.set_version 1 0 newreq in
  let plain code :=
    ret (mk_dispatched newreq (init_response code) 0 None false) in
  if header_parsing_failed
     || (negb (Nat.eqb token_count 3) && negb simple_request)
  then plain RESPONSE_STATUS_BAD_REQUEST
  else
    let token0 := nth 0 token "" in
    let token1 := nth 1 token "" in
    let last_token := nth (token_count - 1) token "" in
    if negb (strncasecmp last_token HTTP_VERSION_1 8 =? 0)
       && negb simple_request
    then plain RESPONSE_STATUS_VERSION_NOT_SUPPORTED
    else if strcasecmp token0 "GET" =? 0
    then dispatch_get_head o flag newreq REQUEST_METHOD_GET token1
    else if (strcasecmp token0 "HEAD" =? 0) && negb simple_request
    then dispatch_get_head o flag newreq REQUEST_METHOD_HEAD token1
    else if (strcasecmp token0 "POST" =? 0) && negb simple_request
    then dispatch_post o flag newreq token1
    else plain RESPONSE_STATUS_NOT_IMPLEMENTED.

(** The second half of [httpd], after the chain on the request line: the
    entity headers, then the response by one of the handlers.  The result
    is the return value with the response whose code the log line
    records. *)
Definition respond (o : os) (flag : flags) (simple_request : bool)
    (d : dispatched) : M (Z * response) :=
  let newreq := d_newreq d in
  let response := d_response d in
  let cgi_request := d_cgi_request d in
  let is_ok := Response.code response =? RESPONSE_STATUS_OK in
  (* send file when GET and OK *)
  let serve_file :=
    (Request.method newreq =? REQUEST_METHOD_GET) && is_ok
    && negb cgi_request in
  response <-
    (if is_ok
        && ((Request.method newreq =? REQUEST_METHOD_GET)
            || (Request.method newreq =? REQUEST_METHOD_HEAD))
        && negb cgi_request
     then match d_realpath_str d with
          | Some realpath_str =>
              ret (snd (set_entity_body_headers o response realpath_str))
          | None => undef
          end
     else ret response) ;;
  if is_ok then
    failure_status <-
      (if negb serve_file then coderesp o response (negb simple_request)
       else ret 0) ;;
    if cgi_request then
      match d_realpath_str d with
      | Some realpath_str =>
          '(failure_status, _) <-
             execute_cgi o newreq (d_http_status d) realpath_str ;;
          ret (failure_status, response)
      | None => undef
      end
    else if serve_file then
      fileserver o newreq response simple_request
    else ret (failure_status, response)
  else
    (* POST is only valid if CGI is enabled *)
    if (Request.method newreq =? REQUEST_METHOD_POST)
       && match c_dir flag with None => true | Some _ => false end
    then send_generic_page o response simple_request
           (Some "CGI is not enabled in the server")
    else if (Request.method newreq =? REQUEST_METHOD_POST)
            && negb cgi_request
    then send_generic_page o response simple_request
           (Some "The uri suplied with the POST resource must point to a CGI")
    else send_generic_page o response simple_request None.

(** [httpd] from the point where [buf] holds a request with its blank
    line; [buf] is the buffer read as a C string.  (The log goes to the
    log file or to standard output, not to the client, and is left out.)
    A buffer that starts with the blank line makes the first [strtok]
    return NULL, which [strncpy] then reads. *)
Definition httpd_process (o : os) (flag : flags) (buf : string)
  : M (Z * response) :=
  match strtok_all buf CRLF with
  | [] => undef
  | request_line :: header_lines =>
      let '(newreq, header_parsing_failed) :=
        parse_headers (os_zone o) header_lines init_request in
      let token := strtok_all request_line " " in
      let simple_request := Nat.eqb (Nat.max 1 (List.length token)) 2 in
      d <- dispatch o flag newreq header_parsing_failed token ;;
      respond o flag simple_request d
  end.

(** [httpd(socket, flag, client_ip)]: [None] for the response when the
    function returns before any is initialised. *)
Definition httpd (o : os) (flag : flags) : M (Z * option response) :=
  fun c =>
    (* leave space for terminating null byte *)
    let remain_buf := BUF_SIZE - 1 in
    match read_request (input c) "" remain_buf with
    | (ReadFailed, script) => (Ret (-1, None), mk_conn script (trace c))
    | (ReadTimedOut, script) =>
        (* wait_for_data: the timed-out response, after which coderesp
           leaves the process *)
        bind (coderesp o (init_response RESPONSE_STATUS_CONNECTION_TIMED_OUT)
                true)
             (fun _ => exit) (mk_conn script (trace c))
    | (ReadDone buf, script) =>
        let c := mk_conn script (trace c) in
        match strstr (c_str buf) (CRLF ++ CRLF) with
        | None =>
            bind (send_generic_page o
                    (init_response RESPONSE_STATUS_BAD_REQUEST) false None)
                 (fun '(rc, r) => ret (rc, Some r)) c
        | Some _ =>
            bind (httpd_process o flag (c_str buf))
                 (fun '(rc, r) => ret (rc, Some r)) c
        end
    end.

(* ================================================================== *)
(** * util.c: reading from a descriptor, and the log *)
(* ================================================================== *)

(** ** Lines and buffers

    [get_socket_line] and [read_buffer] read a descriptor with [read]; the
    descriptor is a script of events as above.  A blocking [read] sits out
    a pause of the peer.  Both keep their count in an [int], which holds
    every count up to the buffer size when that is at most [INT_MAX]; the
    models are for such sizes, and the properties below are stated for
    them. *)

Inductive read1_result : Type :=
| Read1 (a : ascii)   (* one byte was read *)
| ReadEof             (* read returned 0 *)
| ReadErr.            (* read returned -1 *)

(** One [read(socket, &a, 1)]. *)
Fixpoint read1 (script : list sock_event) : read1_result * list sock_event :=
  match script with
  | [] => (ReadEof, [])
  | Data (String a EmptyString) :: rest => (Read1 a, rest)
  | Data (String a s) :: rest => (Read1 a, Data s :: rest)
  | Data EmptyString :: rest => (ReadEof, rest)
  | Timeout :: rest => read1 rest
  | ReadError :: rest => (ReadErr, rest)
  end.

(** The while loop of [get_socket_line]: [room] is [buf_size - 1 - count],
    [buf] the [count] bytes stored so far; the result starts with
    [chars_read] as the last [read] left it. *)
Fixpoint socket_line_loop (room : nat) (script : list sock_event)
    (buf : string) : Z * string * list sock_event :=
  match room with
  | O => (1, buf, script)
  | S room' =>
      match read1 script with
      | (Read1 a, script') =>
          if Ascii.eqb a LF then (1, buf, script')
          else socket_line_loop room' script' (buf ++ String a "")
      | (ReadEof, script') => (0, buf, script')
      | (ReadErr, script') => (-1, buf, script')
      end
  end.

(** [s] without its last character. *)
Fixpoint remove_last (s : string) : string :=
  match s with
  | EmptyString => EmptyString
  | String c EmptyString => EmptyString
  | String c s' => String c (remove_last s')
  end.

(** [get_socket_line(socket, buf, buf_size)]: the return value, the bytes
    of [buf] before the NUL that the function stores ([None] when it
    stores none), and the rest of the script. *)
Definition get_socket_line (script : list sock_event) (buf_size : Z)
  : Z * option string * list sock_event :=
  if buf_size =? 0 then (0, None, script)
  else if buf_size =? 1 then (0, Some "", script)
  else
    let '(chars_read, buf, script) :=
      socket_line_loop (Z.to_nat (buf_size - 1)) script "" in
    let count := strlen buf in
    (* read returns -1 on failure *)
    if chars_read <? 0 then (chars_read, None, script)
    else if count =? 0 then (count, Some "", script)
    else
      match last_char buf with
      | Some c =>
          if Ascii.eqb c CR then (count - 1, Some (remove_last buf), script)
          else (count, Some buf, script)
      | None => (count, Some buf, script)
      end.

(** The do-while loop of [read_buffer]: [buf] holds the [bytes_read] bytes
    read so far, [room] is [buf_len - bytes_read].  A [read] of no bytes
    returns 0. *)
Fixpoint read_buffer_loop (script : list sock_event) (buf : string)
    (room : Z) : Z * string * list sock_event :=
  match script with
  | [] => (strlen buf, buf, [])
  | Timeout :: rest => read_buffer_loop rest buf room
  | ReadError :: rest => (-1, buf, rest)
  | Data bytes :: rest =>
      if strlen bytes =? 0 then (strlen buf, buf, rest)
      else if room =? 0 then (strlen buf, buf, script)
      else if room <? strlen bytes then
        let buf := buf ++ take (Z.to_nat room) bytes in
        (strlen buf, buf, Data (drop (Z.to_nat room) bytes) :: rest)
      else
        let buf := buf ++ bytes in
        if 0 <? room - strlen bytes
        then read_buffer_loop rest buf (room - strlen bytes)
        else (strlen buf, buf, rest)
  end.

(** [read_buffer(buf, buf_len, fd)]: the return value, the bytes stored in
    [buf] and the rest of the script. *)
Definition read_buffer (script : list sock_event) (buf_len : Z)
  : Z * string * list sock_event :=
  read_buffer_loop script "" buf_len.

(** ** The log entry

    [struct logging] of util.h holds five character arrays; [httpd] zeroes
    them with [init_logging] and fills them with [strncpy],
    [time_to_http_date] and [snprintf]. *)
Record logging : Type := mk_logging {
  remoteip : string;        (* char remoteip[64] *)
  request_time : string;    (* char request_time[128] *)
  request_lineq : string;   (* char request_lineq[BUF_SIZE] *)
  request_status : string;  (* char request_status[16] *)
  response_size : string    (* char response_size[64] *)
}.

(** [sizeof(struct logging)]. *)
Definition sizeof_logging : Z := 64 + 128 + BUF_SIZE + 16 + 64.

(** [init_logging(&log)]. *)
Definition init_logging : logging := mk_logging "" "" "" "" "".

(** The quotation mark. *)
Definition DQUOTE : string := String (ascii_of_nat 34) "".

(** [writelog(fd, &log)]: the text handed to [write], which is taken to
    succeed; [snprintf] cuts the text to the size of [logstr]. *)
Definition writelog (log : logging) : string :=
  let logstr_size := sizeof_logging + 16 in
  take (Z.to_nat (logstr_size - 1))
    (remoteip log ++ " [" ++ request_time log ++ "] " ++ DQUOTE
     ++ request_lineq log ++ DQUOTE ++ " " ++ request_status log ++ " "
     ++ response_size log ++ String LF "").

(** The log structure as [httpd] has filled it when it calls [writelog]:
    [request_line] is the first line of the request, [r] the response at
    the end.  The date needs 29 bytes of the 128, so that [strftime]
    cannot fail; when [gmtime_r] fails the field stays zeroed. *)
Definition httpd_log (o : os) (client_ip request_line : string)
    (r : response) : logging :=
  let log := init_logging in
  mk_logging
    (take (64 - 1) client_ip)
    (match time_to_http_date (os_time o) 128 with
     | Some date => date
     | None => request_time log
     end)
    (take (Z.to_nat (BUF_SIZE - 1)) request_line)
    (take (16 - 1) (fmt_d (Response.code r)))
    (take (64 - 1) (fmt_d (Response.content_length r))).

(* ================================================================== *)
(** * Notions used to state the properties *)
(* ================================================================== *)

(** The request line and the header lines of a buffer, as [httpd] cuts
    them with [strtok]. *)
Definition request_tokens (buf : string) : list string :=
  match strtok_all buf CRLF with
  | [] => []
  | request_line :: _ => strtok_all request_line " "
  end.

(** The lines after the request line, which the header loop visits. *)
Definition header_lines (buf : string) : list string :=
  tl (strtok_all buf CRLF).

(** The request built by the loop over the header lines. *)
Definition parsed_request (zone : tm -> Z) (buf : string) : request :=
  fst (parse_headers zone (header_lines buf) init_request).

(** The flag [header_parsing_failed] when the loop is left. *)
Definition header_parsing_failed (zone : tm -> Z) (buf : string) : bool :=
  snd (parse_headers zone (header_lines buf) init_request).

(** The reading loop of [httpd] leaves the request [buf] in the buffer,
    blank line included, with [rest] still to come on the socket. *)
Definition request_received (script : list sock_event) (buf : string)
    (rest : list sock_event) : Prop :=
  exists raw,
    read_request script "" (BUF_SIZE - 1) = (ReadDone raw, rest)
    /\ c_str raw = buf
    /\ strstr buf (CRLF ++ CRLF) <> None.

(** Containment as the specification words it: the canonical path equals
    the canonical root or is a descendant of it delimited by the path
    separator. *)
Definition contained (root path : string) : bool :=
  String.eqb path root
  || String.prefix (root ++ "/") path
  || (String.eqb root "/" && String.prefix "/" path).

(** A well-formed integer as the specification means it for a header
    value: optional white space and sign, then digits only. *)
Fixpoint all_digits (s : string) : bool :=
  match s with
  | EmptyString => true
  | String c s' => isdigit c && all_digits s'
  end.

Definition well_formed_integer (s : string) : bool :=
  let s := skip_spaces s in
  let s := match s with
           | String c s' =>
               if Ascii.eqb c "-" || Ascii.eqb c "+" then s' else s
           | EmptyString => s
           end in
  negb (String.eqb s "") && all_digits s.

(** The status a run reports: the code of the response it leaves. *)
Definition response_code (res : outcome (Z * option response) * conn)
  : option Z :=
  match fst res with
  | Ret (_, Some r) => Some (Response.code r)
  | _ => None
  end.

(** ** A small file system for the examples

    Absolute paths without symbolic links: [realpath] removes ".", ".." and
    repeated separators lexically and succeeds on the listed paths. *)
Module ExampleFs.

Record node : Type := mk_node {
  n_path : string;
  n_stat : stat_t;
  n_exec : bool;            (* execute permission *)
  n_bytes : string;         (* contents of a regular file *)
  n_entries : list string   (* entries of a directory *)
}.

Definition file (path bytes : string) (mtime : Z) : node :=
  mk_node path (mk_stat (strlen bytes) mtime false) false bytes [].
Definition program (path : string) : node :=
  mk_node path (mk_stat 0 0 false) true "" [].
Definition directory (path : string) (entries : list string) : node :=
  mk_node path (mk_stat 4096 0 true) true "" ("." :: ".." :: entries).

Definition normalize (path : string) : string :=
  let step (stack : list string) (comp : string) :=
    if String.eqb comp "." then stack
    else if String.eqb comp ".." then tl stack
    else comp :: stack in
  match rev (fold_left step (strtok_all path "/") []) with
  | [] => "/"
  | comps => CString.concat (map (fun c => "/" ++ c) comps)
  end.

Fixpoint lookup (nodes : list node) (path : string) : option node :=
  match nodes with
  | [] => None
  | n :: nodes' =>
      if String.eqb (n_path n) path then Some n else lookup nodes' path
  end.

Definition find (nodes : list node) (path : string) : option node :=
  lookup nodes (normalize path).

(** Every listed node is readable; [X_OK] needs the execute bit.  Local
    time stays [tz] seconds east of Greenwich, and every CGI program takes
    the whole of its input and prints [cgi_output]. *)
Definition make (tz now : Z) (nodes : list node) (mime : string)
    (cgi_output : string) : os :=
  mk_os (fixed_zone tz) now
    (fun p => option_map n_path (find nodes p))
    (fun p mode =>
       match find nodes p with
       | None => Some ENOENT
       | Some n =>
           if Z.testbit mode 0 && negb (n_exec n) then Some EACCES else None
       end)
    (fun p => option_map n_stat (find nodes p))
    (fun _ => None)
    (fun p => match find nodes p with
              | Some n => if S_ISDIR (n_stat n) then Some (n_entries n)
                          else None
              | None => None
              end)
    (fun p => match find nodes p with
              | Some n => if S_ISDIR (n_stat n) then None
                          else Some (n_bytes n)
              | None => None
              end)
    (fun _ => Some mime)
    (fun _ _ _ => Some (mk_cgi_run (fun _ => Taken) cgi_output EndOfFile)).

(** The same system under other zone rules. *)
Definition in_zone (zone : tm -> Z) (o : os) : os :=
  mk_os zone (os_time o) (realpath o) (access o) (stat o) (getpwnam o)
    (dir_entries o) (file_bytes o) (magic_file o) (cgi_child o).

End ExampleFs.

(** ** Derived notions *)

(** The header block as the list of the writes it causes. *)
Definition headers_writes (o : os) (r : response) : list action :=
  match coderesp_headers_text o r with
  | Some text => [Write text]
  | None => []
  end.

(** The value [coderesp_headers] returns. *)
Definition headers_rc (o : os) (r : response) : Z :=
  match coderesp_headers_text o r with
  | Some _ => 0
  | None => -1
  end.

(** The page of [send_generic_page] for one of the server's messages. *)
Definition generic_page_body (code : Z) (custom_msg : option string)
  : string :=
  match generic_message code with
  | Some message =>
      match generic_page_html message custom_msg with
      | Some b => filled b
      | None => ""
      end
  | None => ""
  end.

(** The response as [send_generic_page] leaves it. *)
Definition generic_page_response (code : Z) (custom_msg : option string)
  : response :=
  Response.mk code (-1) "text/html" (strlen (generic_page_body code custom_msg)).

(** What a full generic page puts on the wire: status line, header block
    and, when the header block could be written, the HTML page. *)
Definition generic_page_writes (o : os) (code : Z)
    (custom_msg : option string) : list action :=
  Write (status_line code)
  :: headers_writes o (generic_page_response code custom_msg)
  ++ (if headers_rc o (generic_page_response code custom_msg) =? 0
      then [Write (generic_page_body code custom_msg)] else []).

(** Resolution of [uri] for [method], as [httpd] asks for it. *)
Definition resolve (o : os) (flag : flags) (method : Z) (uri : string)
  : option checkuri_result :=
  checkuri o flag
    (Request.set_path uri (Request.set_method method init_request)) false.

(** What the caller reads of the result. *)
Definition verdict (res : checkuri_result) : Z * Z * option string * bool :=
  (cu_ret res, cu_status res, cu_realpath res, cu_cgi res).

(** What a candidate holds apart from the request, with the method. *)
Definition candidate_view (c : candidate)
  : option (string * string) * Z * bool * Z :=
  match c with
  | Candidate uri_path server_real_path rq cgi =>
      (Some (uri_path, server_real_path), 0, cgi, Request.method rq)
  | Early status rq cgi => (None, status, cgi, Request.method rq)
  end.

(** The request as a candidate carries it on. *)
Definition candidate_request (c : candidate) : request :=
  match c with
  | Candidate _ _ rq _ => rq
  | Early _ rq _ => rq
  end.

(** Resolution rewrites the path and the query string of the request and
    nothing else. *)
Definition same_fields (rq rq' : request) : Prop :=
  Request.method rq' = Request.method rq
  /\ Request.if_modified_since_date rq' = Request.if_modified_since_date rq
  /\ Request.content_length rq' = Request.content_length rq
  /\ Request.content_type rq' = Request.content_type rq
  /\ Request.version_major rq' = Request.version_major rq
  /\ Request.version_minor rq' = Request.version_minor rq.

(** What the server writes when it turns a POST down for not addressing a
    CGI program. *)
Definition post_rejection (o : os) (flag : flags) (uri : string)
  : list action :=
  match c_dir flag with
  | None =>
      generic_page_writes o RESPONSE_STATUS_BAD_REQUEST
        (Some "CGI is not enabled in the server")
  | Some _ =>
      Checkuri uri
      :: generic_page_writes o RESPONSE_STATUS_BAD_REQUEST
           (Some "The uri suplied with the POST resource must point to a CGI")
  end.

(** The bytes a script delivers when no wait times out and no read
    fails. *)
Fixpoint received (script : list sock_event) : option string :=
  match script with
  | [] => Some ""
  | Data bytes :: rest => option_map (append bytes) (received rest)
  | _ => None
  end.

(** The string in lower case. *)
Fixpoint lower (s : string) : string :=
  match s with
  | EmptyString => EmptyString
  | String c s' => String (tolower c) (lower s')
  end.

(** No character of the string is NUL. *)
Fixpoint nul_free (s : string) : bool :=
  match s with
  | EmptyString => true
  | String c s' => negb (Ascii.eqb (tolower c) NUL) && nul_free s'
  end.

(** After optional white space and sign, [s] goes on with a digit. *)
Definition starts_with_number (s : string) : bool :=
  match skip_spaces s with
  | String c s' =>
      if Ascii.eqb c "-" || Ascii.eqb c "+"
      then match s' with String d _ => isdigit d | EmptyString => false end
      else isdigit c
  | EmptyString => false
  end.

(** An entry is listed when its name does not start with '.'. *)
Definition visible (d_name : string) : bool :=
  match d_name with
  | String c _ => negb (Ascii.eqb c ".")
  | EmptyString => false
  end.

(** The lines of the listing: the visible names, one per line. *)
Definition listing_lines (names : list string) : string :=
  CString.concat (map (fun d_name => d_name ++ CRLF) (filter visible names)).

(** [n] times the character [c]. *)
Fixpoint repeat_char (c : ascii) (n : nat) : string :=
  match n with
  | O => ""
  | S n' => String c (repeat_char c n')
  end.

(** Fifteen names of 255 characters, "axx...x" to "oxx...x", and one of
    133 characters, "zxx...x". *)
Definition boundary_names : list string :=
  (map (fun i => String (ascii_of_nat (97 + i)) (repeat_char "x" 254))
       (seq 0 15)
   ++ [String "z" (repeat_char "x" 132)])%list.

(** The response that [set_entity_body_headers] fills from [stat]. *)
Definition entity_response (o : os) (target : string) (sb : stat_t)
  : response :=
  Response.mk RESPONSE_STATUS_OK (st_mtime sb) (mime_type o target "" 64)
    (to_int (st_size sb)).

(** [f] holds on the [n] integers from [z] on. *)
Fixpoint all_from (n : nat) (z : Z) (f : Z -> bool) : bool :=
  match n with
  | O => true
  | S n' => f z && all_from n' (z + 1) f
  end.

(** A day of the era gives a date of the era from which it is found
    again; the last two conditions place the first days of the years 1000
    and 10000 of the eras that hold them. *)
Definition doe_round_trip (doe : Z) : bool :=
  let '(yoe, m, d) := civil_of_doe doe in
  let y := yoe + (if m <=? 2 then 1 else 0) in
  (0 <=? yoe) && (yoe <? 400) && (1 <=? m) && (m <=? 12)
  && (1 <=? d) && (d <=? 31) && (doe_of_civil yoe m d =? doe)
  && implb (72989 <=? doe) (200 <=? y)
  && implb (doe <? 146037) (y <=? 399).

(** The last sixty days of an era are the January and the February of a
    year that is a multiple of 400. *)
Definition doe_year_end (doe : Z) : bool :=
  let '(yoe, m, d) := civil_of_doe doe in
  400 <=? yoe + (if m <=? 2 then 1 else 0).

(** The first second of the year 1000 and the first second of the year
    10000: between them a year is written with four digits. *)
Definition YEAR_1000 : Z := -30610224000.
Definition YEAR_10000 : Z := 253402300800.

(** The first second of the year 0: from there on [%Y] prints a year
    without a sign. *)
Definition YEAR_0 : Z := -62167219200.

(** The instant that an HTTP date denotes, its fields read as GMT. *)
Definition http_date_instant (date : string) : option Z :=
  option_map timegm (http_date_tm date).

(** A header line that the loop takes for a Content-Length field, and the
    last one among the header lines. *)
Definition content_length_line (header_line : string) : bool :=
  (17 <? strlen header_line)
  && (strncasecmp header_line CONTENT_LENGTH_PREFIX 15 =? 0).

Fixpoint last_content_length (header_lines : list string) : option string :=
  match header_lines with
  | [] => None
  | header_line :: rest =>
      match last_content_length rest with
      | Some l => Some l
      | None =>
          if content_length_line header_line then Some header_line else None
      end
  end.

(** The header block for a target, field by field, as the values of
    [stat] and of libmagic make it: [now] is the date of the Date field. *)
Definition entity_header_block (o : os) (target : string) (sb : stat_t)
    (now : string) : string :=
  "Date: " ++ now ++ CRLF
  ++ "Server: sws/1.0" ++ CRLF
  ++ (if st_mtime sb =? -1 then ""
      else match time_to_http_date (st_mtime sb) 128 with
           | Some modified => "Last-Modified: " ++ modified ++ CRLF
           | None => ""
           end)
  ++ (if 0 <? strlen (mime_type o target "" 64)
      then "Content-Type: " ++ mime_type o target "" 64 ++ CRLF else "")
  ++ (if 0 <=? to_int (st_size sb)
      then "Content-Length: " ++ fmt_d (to_int (st_size sb)) ++ CRLF
      else "")
  ++ CRLF.

(** The response of a conditional GET that finds the file unchanged. *)
Definition not_modified_response (sb : stat_t) : response :=
  Response.mk RESPONSE_STATUS_OK (st_mtime sb) "" 0.

(** ** Notions for the further properties *)

(** What a generic page puts on the wire: the page alone for a simple
    response, preceded by the status line and the header block for a full
    one. *)
Definition page_writes (o : os) (simple : bool) (code : Z)
    (custom_msg : option string) : list action :=
  if simple then [Write (generic_page_body code custom_msg)]
  else generic_page_writes o code custom_msg.

(** The value [send_generic_page] returns. *)
Definition page_rc (o : os) (simple : bool) (code : Z)
    (custom_msg : option string) : Z :=
  if simple then 0 else headers_rc o (generic_page_response code custom_msg).

(** The status codes with which the server turns a request down. *)
Definition error_status (code : Z) : bool :=
  (code =? RESPONSE_STATUS_BAD_REQUEST)
  || (code =? RESPONSE_STATUS_FORBIDDEN)
  || (code =? RESPONSE_STATUS_NOT_FOUND)
  || (code =? RESPONSE_STATUS_INTERNAL_SERVER_ERROR)
  || (code =? RESPONSE_STATUS_NOT_IMPLEMENTED)
  || (code =? RESPONSE_STATUS_VERSION_NOT_SUPPORTED).

(** A request line of two tokens is a simple request. *)
Definition is_simple (token : list string) : bool :=
  Nat.eqb (Nat.max 1 (List.length token)) 2.

(** The action is a write of at most [n] bytes. *)
Definition write_upto (n : Z) (a : action) : bool :=
  match a with
  | Write s => strlen s <=? n
  | _ => false
  end.

(** The invariant of a buffer being filled: the text and the room left add
    up to the size of the buffer, and there is room for the NUL byte. *)
Definition cbuf_ok (b : cbuf) : Prop :=
  strlen (filled b) + buf_size_remain b = BUF_SIZE /\ 0 < buf_size_remain b.

(** The writes of a text sent one byte at a time. *)
Definition byte_writes (out : string) : list action :=
  map (fun b => Write (String b "")) (list_ascii_of_string out).

(** Every character of the buffer is a carriage return or a line feed. *)
Fixpoint only_line_ends (s : string) : bool :=
  match s with
  | EmptyString => true
  | String c s' => is_delim CRLF c && only_line_ends s'
  end.

(** The status codes that [coderesp] and [send_generic_page] know. *)
Definition known_status (code : Z) : bool :=
  error_status code
  || (code =? RESPONSE_STATUS_OK)
  || (code =? RESPONSE_STATUS_CONNECTION_TIMED_OUT).

(** No event of the script is a [read] that returns 0. *)
Fixpoint no_empty_data (script : list sock_event) : bool :=
  match script with
  | [] => true
  | Data bytes :: rest => negb (String.eqb bytes "") && no_empty_data rest
  | _ :: rest => no_empty_data rest
  end.

(** A line as [get_socket_line] hands it out: without the carriage return
    that ends it. *)
Definition strip_cr (text : string) : string :=
  match last_char text with
  | Some c => if Ascii.eqb c CR then remove_last text else text
  | None => text
  end.

(** The two older forms of an HTTP date that [http_date_to_time] accepts
    beside the RFC 1123 form, as the grammar quoted in its comment gives
    them, for a broken-down time:
    rfc850-date = weekday "," SP 2DIGIT "-" month "-" 2DIGIT SP time SP "GMT"
    and asctime-date = wkday SP month SP (2DIGIT | (SP 1DIGIT)) SP time SP
    4DIGIT. *)
Definition time_of_day (date : tm) : string :=
  fmt_02d (tm_hour date) ++ ":" ++ fmt_02d (tm_min date) ++ ":"
  ++ fmt_02d (tm_sec date).

Definition rfc850_date (date : tm) : string :=
  nth (Z.to_nat (tm_wday date)) weekday_name "?" ++ ", " ++
  fmt_02d (tm_mday date) ++ "-" ++
  nth (Z.to_nat (tm_mon date)) ab_month_name "?" ++ "-" ++
  fmt_02d ((tm_year date + 1900) mod 100) ++ " " ++
  time_of_day date ++ " GMT".

Definition asctime_date (date : tm) : string :=
  nth (Z.to_nat (tm_wday date)) ab_weekday_name "?" ++ " " ++
  nth (Z.to_nat (tm_mon date)) ab_month_name "?" ++ " " ++
  (if tm_mday date <? 10 then " " ++ fmt_d (tm_mday date)
   else fmt_d (tm_mday date)) ++ " " ++
  time_of_day date ++ " " ++ fmt_d (tm_year date + 1900).

(** The first second of 1969 and the first second of 2069: the years that
    [%y] can denote lie between them. *)
Definition YEAR_1969 : Z := -31536000.
Definition YEAR_2069 : Z := 3124224000.

(** The day falls in a year from 1969 to 2068. *)
Definition year_in_window (z : Z) : bool :=
  let '(y, _, _) := civil_from_days z in (1969 <=? y) && (y <=? 2068).

(** ** The environment of the examples

    A served root with a file, a directory with an index page and a
    directory without one, and a CGI directory with one program that
    prints "Hi". *)
Definition example_os : os :=
  ExampleFs.make 0 1700000000
    [ExampleFs.directory "/srv/www" ["a.txt"; "site"; "d"];
     ExampleFs.file "/srv/www/a.txt" "hello" 1600000000;
     ExampleFs.directory "/srv/www/site" ["index.html"];
     ExampleFs.file "/srv/www/site/index.html" "<p>welcome</p>" 1600000000;
     ExampleFs.directory "/srv/www/d" ["x"; ".y"];
     ExampleFs.file "/srv/www/d/x" "" 1600000000;
     ExampleFs.directory "/srv/cgi" ["hello"];
     ExampleFs.program "/srv/cgi/hello"]
    "text/plain" "Hi".

Definition example_flags : flags := mk_flags (Some "/srv/cgi/") "/srv/www".

(** The request that [httpd] hands to [checkuri] for a method and a URI. *)
Definition example_request (method : Z) (uri : string) : request :=
  Request.set_path uri (Request.set_method method init_request).

(* ================================================================== *)
(** * Response composition: what goes on the wire *)
(* ================================================================== *)

Lemma app_trace_assoc : forall (tr a b : list action),
  ((tr ++ a) ++ b = tr ++ (a ++ b))%list.
Proof. intros; now rewrite app_assoc. Qed.

Lemma coderesp_headers_run : forall o r c,
  coderesp_headers o r c
  = (Ret (headers_rc o r), mk_conn (input c) (trace c ++ headers_writes o r)).
Proof.
  intros o r [inp tr]. unfold coderesp_headers, headers_rc, headers_writes.
  destruct (coderesp_headers_text o r); cbn.
  - reflexivity.
  - now rewrite app_nil_r.
Qed.

Lemma status_line_fits : forall code,
  (write_buffer BUF_SIZE (status_line code) <? 0) = false.
Proof.
  intros code. unfold status_line, reason_phrase.
  repeat match goal with
         | |- context [if ?b then _ else _] =>
             let E := fresh "E" in
             destruct b eqn:E;
             [apply Z.eqb_eq in E; subst; reflexivity|]
         end.
  reflexivity.
Qed.

Lemma reason_phrase_timed_out : forall code,
  (fst (reason_phrase code) =? RESPONSE_STATUS_CONNECTION_TIMED_OUT)
  = (code =? RESPONSE_STATUS_CONNECTION_TIMED_OUT).
Proof.
  intros code. unfold reason_phrase.
  repeat match goal with
         | |- context [if ?b then _ else _] =>
             let E := fresh "E" in
             destruct b eqn:E;
             [apply Z.eqb_eq in E; subst; reflexivity|]
         end.
  reflexivity.
Qed.

(** A simple response carries no status line and no headers. *)
Lemma coderesp_simple : forall o r c, coderesp o r false c = (Ret 0, c).
Proof. reflexivity. Qed.

(** A full response is the status line followed by the header block. *)
Lemma coderesp_full : forall o r c,
  Response.code r <> RESPONSE_STATUS_CONNECTION_TIMED_OUT ->
  coderesp o r true c
  = (Ret (headers_rc o r),
     mk_conn (input c)
       (trace c ++ Write (status_line (Response.code r))
                   :: headers_writes o r)).
Proof.
  intros o r [inp tr] H. unfold coderesp. cbn [negb].
  rewrite status_line_fits.
  unfold bind, write_socket, emit. cbn [input trace].
  rewrite coderesp_headers_run. cbn [input trace].
  rewrite reason_phrase_timed_out.
  apply Z.eqb_neq in H. rewrite H. unfold ret.
  now rewrite app_trace_assoc.
Qed.

Lemma send_generic_page_full : forall o code custom_msg message b c,
  code <> RESPONSE_STATUS_CONNECTION_TIMED_OUT ->
  generic_message code = Some message ->
  generic_page_html message custom_msg = Some b ->
  send_generic_page o (init_response code) false custom_msg c
  = (Ret (headers_rc o (generic_page_response code custom_msg),
          generic_page_response code custom_msg),
     mk_conn (input c) (trace c ++ generic_page_writes o code custom_msg)).
Proof.
  intros o code msg message b [inp tr] Hc Hm Hb.
  unfold send_generic_page, generic_page_writes, generic_page_response,
    generic_page_body.
  cbn [init_response Response.code Response.last_modified].
  rewrite Hm, Hb. cbn [negb]. unfold bind at 1.
  rewrite coderesp_full by (cbn; assumption).
  cbn [input trace Response.code].
  set (r := Response.mk code (-1) "text/html" (strlen (filled b))).
  unfold headers_rc.
  destruct (coderesp_headers_text o r) eqn:E; cbn.
  - unfold bind, write_socket, emit, ret. cbn.
    now rewrite app_trace_assoc.
  - unfold ret. now rewrite app_nil_r.
Qed.

(* ================================================================== *)
(** * The connection handler: reading and dispatching *)
(* ================================================================== *)

Lemma httpd_request_received : forall o flag script tr buf rest,
  request_received script buf rest ->
  httpd o flag (mk_conn script tr)
  = bind (httpd_process o flag buf) (fun '(rc, r) => ret (rc, Some r))
         (mk_conn rest tr).
Proof.
  intros o flag script tr buf rest (raw & Hread & Hc & Hs).
  unfold httpd. cbn [input trace]. rewrite Hread, Hc.
  destruct (strstr buf (CRLF ++ CRLF)); [reflexivity | contradiction].
Qed.

Lemma parse_headers_pair : forall zone buf,
  parse_headers zone (header_lines buf) init_request
  = (parsed_request zone buf, header_parsing_failed zone buf).
Proof.
  intros. unfold parsed_request, header_parsing_failed.
  now destruct (parse_headers zone (header_lines buf) init_request).
Qed.

(** [httpd_process] on a request line of three tokens. *)
Lemma httpd_process_three : forall o flag buf t0 t1 t2,
  request_tokens buf = [t0; t1; t2] ->
  httpd_process o flag buf
  = bind (dispatch o flag (parsed_request (os_zone o) buf)
            (header_parsing_failed (os_zone o) buf) [t0; t1; t2])
         (respond o flag false).
Proof.
  intros o flag buf t0 t1 t2 H. unfold httpd_process.
  unfold request_tokens in H.
  pose proof (parse_headers_pair (os_zone o) buf) as P.
  unfold header_lines in P.
  destruct (strtok_all buf CRLF) as [|rl hl]; [discriminate|].
  cbn [tl] in P. rewrite P, H. reflexivity.
Qed.

(** The header loop never touches the method. *)
Lemma parse_header_line_method : forall zone h rq rq',
  parse_header_line zone h rq = Some rq' ->
  Request.method rq' = Request.method rq.
Proof.
  intros zone h rq rq'. unfold parse_header_line, header_if_modified_since.
  destruct (_ && _).
  - destruct (http_date_to_time _ _); [|discriminate].
    intros H; inversion H; subst; clear H.
    unfold header_content_type, header_content_length.
    do 2 destruct (_ && _); reflexivity.
  - intros H; inversion H; subst; clear H.
    unfold header_content_type, header_content_length.
    do 2 destruct (_ && _); reflexivity.
Qed.

Lemma parse_headers_method : forall zone hl rq,
  Request.method (fst (parse_headers zone hl rq)) = Request.method rq.
Proof.
  intros zone hl. induction hl as [|h hl IH]; intros rq; cbn.
  - reflexivity.
  - destruct (parse_header_line zone h rq) as [rq'|] eqn:E; cbn.
    + rewrite IH. eapply parse_header_line_method; eassumption.
    + reflexivity.
Qed.

Lemma parsed_request_method : forall zone buf,
  Request.method (parsed_request zone buf) = -1.
Proof. intros. unfold parsed_request. now rewrite parse_headers_method. Qed.

Lemma Zeqb_neq_negb : forall a b, a <> b -> negb (a =? b) = true.
Proof. intros a b H. apply Z.eqb_neq in H. now rewrite H. Qed.

(** A version token whose first eight characters are not "HTTP/1.0" ends
    the chain with 505 before any method is looked at. *)
Lemma dispatch_version : forall o flag newreq t0 t1 t2 c,
  strncasecmp t2 HTTP_VERSION_1 8 <> 0 ->
  dispatch o flag newreq false [t0; t1; t2] c
  = (Ret (mk_dispatched (Request.set_version 1 0 newreq)
            (init_response RESPONSE_STATUS_VERSION_NOT_SUPPORTED)
            0 None false), c).
Proof.
  intros o flag newreq t0 t1 t2 c H. unfold dispatch.
  cbn [List.length Nat.max Nat.eqb negb orb andb nth Nat.sub].
  rewrite (Zeqb_neq_negb _ _ H). reflexivity.
Qed.

(** C3 (as amended): a request line of exactly three tokens whose version
    token does not match "HTTP/1.0" on its first eight characters,
    compared without regard to case, is answered with 505 Version Not
    Supported whatever the method and the path, provided no header line
    failed to parse; path resolution is not invoked. *)
Theorem version_token_mismatch_is_505 :
  forall o flag script tr buf rest method uri version,
    request_received script buf rest ->
    request_tokens buf = [method; uri; version] ->
    header_parsing_failed (os_zone o) buf = false ->
    strncasecmp version HTTP_VERSION_1 8 <> 0 ->
    response_code (httpd o flag (mk_conn script tr))
    = Some RESPONSE_STATUS_VERSION_NOT_SUPPORTED
    /\ snd (httpd o flag (mk_conn script tr))
       = mk_conn rest
           (tr ++ generic_page_writes o RESPONSE_STATUS_VERSION_NOT_SUPPORTED
                    None).
Proof.
  intros o flag script tr buf rest m uri v Hrecv Htok Hhdr Hver.
  rewrite (httpd_request_received _ _ _ _ _ _ Hrecv).
  rewrite (httpd_process_three _ _ _ _ _ _ Htok), Hhdr.
  unfold bind. rewrite dispatch_version by assumption.
  unfold respond, bind, ret.
  cbn [d_response d_newreq d_cgi_request init_response Response.code
       Request.set_version Request.method init_request].
  rewrite (parsed_request_method (os_zone o) buf).
  cbn -[send_generic_page generic_page_writes generic_page_response].
  rewrite (send_generic_page_full o RESPONSE_STATUS_VERSION_NOT_SUPPORTED
             None _ _ _ ltac:(discriminate) eq_refl eq_refl).
  split; reflexivity.
Qed.

Lemma version_token_mismatch_is_505_witness :
  let o := ExampleFs.make 0 1700000000 [] "text/plain" "" in
  let flag := mk_flags None "/srv/www" in
  let buf := "PUT /x HTTP/2.0" ++ CRLF ++ CRLF in
  response_code (httpd o flag (mk_conn [Data buf] []))
  = Some RESPONSE_STATUS_VERSION_NOT_SUPPORTED
  /\ snd (httpd o flag (mk_conn [Data buf] []))
     = mk_conn []
         ([] ++ generic_page_writes o RESPONSE_STATUS_VERSION_NOT_SUPPORTED
                  None).
Proof.
  intros o flag buf.
  apply (version_token_mismatch_is_505 o flag [Data buf] [] buf []
           "PUT" "/x" "HTTP/2.0").
  - exists buf. repeat split; vm_compute; congruence.
  - reflexivity.
  - reflexivity.
  - vm_compute. discriminate.
Defined.

(** C3 as stated fails twice on the code: the comparison stops after eight
    characters, so "HTTP/1.0x" is taken for the supported version, and a
    header line that fails to parse is answered with 400 before the
    version is looked at. *)
Lemma version_token_unequal_without_505 :
  let o := ExampleFs.make 0 1700000000
             [ExampleFs.directory "/srv/www" ["a.txt"];
              ExampleFs.file "/srv/www/a.txt" "hello" 1600000000]
             "text/plain" "" in
  let flag := mk_flags None "/srv/www" in
  let buf1 := "GET /a.txt HTTP/1.0x" ++ CRLF ++ CRLF in
  let buf2 := "GET /a.txt HTTP/2.0" ++ CRLF ++ "If-Modified-Since: soon"
              ++ CRLF ++ CRLF in
  (request_tokens buf1 = ["GET"; "/a.txt"; "HTTP/1.0x"]
   /\ strcasecmp "HTTP/1.0x" "HTTP/1.0" <> 0
   /\ response_code (httpd o flag (mk_conn [Data buf1] []))
      = Some RESPONSE_STATUS_OK)
  /\ (request_tokens buf2 = ["GET"; "/a.txt"; "HTTP/2.0"]
      /\ strcasecmp "HTTP/2.0" "HTTP/1.0" <> 0
      /\ response_code (httpd o flag (mk_conn [Data buf2] []))
         = Some RESPONSE_STATUS_BAD_REQUEST).
Proof.
  vm_compute. repeat split; discriminate.
Qed.

(** ** Case-insensitive comparison *)

Lemma zchar_inj : forall a b, zchar a = zchar b -> a = b.
Proof.
  intros a b H. unfold zchar in H. apply N2Z.inj in H.
  rewrite <- (ascii_N_embedding a), <- (ascii_N_embedding b). now rewrite H.
Qed.

Lemma zchar_tolower_pos : forall a, tolower a <> NUL -> zchar (tolower a) <> 0.
Proof.
  intros a H E. apply H. apply zchar_inj. rewrite E. reflexivity.
Qed.

(** Equal strings under [strncasecmp] start with the same letter. *)
Lemma strncasecmp_first_char : forall n m b t,
  tolower b <> NUL ->
  strncasecmp m (String b t) (S n) = 0 ->
  exists a s, m = String a s /\ tolower a = tolower b.
Proof.
  intros n m b t Hb H. destruct m as [|a s]; cbn in H.
  - exfalso. apply (zchar_tolower_pos b Hb). lia.
  - exists a, s. split; [reflexivity|].
    destruct (Ascii.eqb (tolower a) (tolower b)) eqn:E.
    + now apply Ascii.eqb_eq.
    + apply zchar_inj. lia.
Qed.

Lemma strncasecmp_distinct : forall n n' m b t b' t',
  tolower b <> NUL ->
  tolower b <> tolower b' ->
  strncasecmp m (String b t) (S n) = 0 ->
  strncasecmp m (String b' t') (S n') <> 0.
Proof.
  intros n n' m b t b' t' Hb Hne H.
  destruct (strncasecmp_first_char n m b t Hb H) as (a & s & -> & Ha).
  cbn. rewrite Ha.
  destruct (Ascii.eqb (tolower b) (tolower b')) eqn:E.
  - apply Ascii.eqb_eq in E. contradiction.
  - intros Z0. apply Hne. apply zchar_inj. lia.
Qed.

Lemma strcasecmp_distinct : forall m b t b' t',
  tolower b <> NUL ->
  tolower b <> tolower b' ->
  strcasecmp m (String b t) = 0 ->
  strcasecmp m (String b' t') <> 0.
Proof.
  intros m b t b' t' Hb Hne H. unfold strcasecmp in *.
  eapply strncasecmp_distinct; eassumption.
Qed.

(** ** Path resolution looks at the path and the method only *)

Lemma build_candidate_frame : forall o flag rq cgi,
  candidate_view (build_candidate o flag rq cgi)
  = candidate_view
      (build_candidate o flag
         (Request.set_path (Request.path rq)
            (Request.set_method (Request.method rq) init_request)) cgi).
Proof.
  intros o flag [path method ims cl ct qs vmaj vmin] cgi.
  unfold build_candidate.
  cbn [Request.path Request.method Request.set_path Request.set_method
       init_request].
  repeat match goal with
         | |- context [match ?x with _ => _ end] =>
             match x with
             | context [match _ with _ => _ end] => fail 1
             | _ => destruct x eqn:?
             end
         end; reflexivity.
Qed.

Lemma checkuri_frame : forall o flag rq,
  option_map verdict (checkuri o flag rq false)
  = option_map verdict
      (resolve o flag (Request.method rq) (Request.path rq)).
Proof.
  intros o flag rq. unfold resolve, checkuri.
  pose proof (build_candidate_frame o flag rq false) as F.
  destruct (build_candidate o flag rq false) as [u s r c|st r c];
    destruct (build_candidate o flag _ false) as [u' s' r' c'|st' r' c'];
    cbn in F; inversion F; subst; clear F; [|reflexivity].
  unfold access_mode.
  match goal with H : Request.method _ = Request.method _ |- _ =>
    rewrite H end.
  destruct (if c' then _ else _) as [mode|]; [|reflexivity].
  destruct (access o u' mode); [reflexivity|].
  destruct (realpath o u'); [|reflexivity].
  destruct (strstr _ _); reflexivity.
Qed.

Lemma build_candidate_fields : forall o flag rq cgi,
  same_fields rq (candidate_request (build_candidate o flag rq cgi)).
Proof.
  intros o flag [path method ims cl ct qs vmaj vmin] cgi.
  unfold build_candidate, same_fields.
  cbn [Request.path Request.method].
  repeat match goal with
         | |- context [match ?x with _ => _ end] =>
             match x with
             | context [match _ with _ => _ end] => fail 1
             | _ => destruct x eqn:?
             end
         end; cbn; repeat split.
Qed.

Lemma checkuri_fields : forall o flag rq cgi res,
  checkuri o flag rq cgi = Some res -> same_fields rq (cu_request res).
Proof.
  intros o flag rq cgi res. unfold checkuri.
  pose proof (build_candidate_fields o flag rq cgi) as F.
  destruct (build_candidate o flag rq cgi) as [u s r c|st r c]; cbn in F.
  - destruct (access_mode r c); [|discriminate].
    destruct (access o u z).
    + intros H; inversion H; subst; exact F.
    + destruct (realpath o u).
      * destruct (strstr _ _); intros H; inversion H; subst; exact F.
      * intros H; inversion H; subst; exact F.
  - intros H; inversion H; subst; exact F.
Qed.

Lemma checkuri_method : forall o flag rq cgi res,
  checkuri o flag rq cgi = Some res ->
  Request.method (cu_request res) = Request.method rq.
Proof. intros * H. exact (proj1 (checkuri_fields _ _ _ _ _ H)). Qed.

(** What [httpd] learns from [checkuri] is what [resolve] says. *)
Lemma call_checkuri_resolve : forall o flag rq c res,
  resolve o flag (Request.method rq) (Request.path rq) = Some res ->
  exists res',
    call_checkuri o flag rq c
    = (Ret res',
       mk_conn (input c) (trace c ++ [Checkuri (Request.path rq)]))
    /\ verdict res' = verdict res
    /\ same_fields rq (cu_request res').
Proof.
  intros o flag rq c res H.
  pose proof (checkuri_frame o flag rq) as F. rewrite H in F.
  destruct (checkuri o flag rq false) as [res'|] eqn:E; [|discriminate].
  exists res'. unfold call_checkuri, bind, emit. rewrite E.
  unfold option_map in F.
  split; [reflexivity|]. split; [congruence|].
  eapply checkuri_fields; eassumption.
Qed.

(** ** POST *)

Lemma dispatch_method_post : forall o flag newreq m uri v,
  strncasecmp v HTTP_VERSION_1 8 = 0 ->
  strcasecmp m "POST" = 0 ->
  dispatch o flag newreq false [m; uri; v]
  = dispatch_post o flag (Request.set_version 1 0 newreq) uri.
Proof.
  intros o flag newreq m uri v Hv Hm. unfold dispatch.
  cbn [List.length Nat.max Nat.eqb negb orb andb nth Nat.sub].
  rewrite Hv, Hm. cbn [Z.eqb negb andb].
  assert (Hg : strcasecmp m "GET" <> 0)
    by (eapply strcasecmp_distinct; [| |exact Hm]; vm_compute; discriminate).
  assert (Hh : strcasecmp m "HEAD" <> 0)
    by (eapply strcasecmp_distinct; [| |exact Hm]; vm_compute; discriminate).
  apply Z.eqb_neq in Hg, Hh. rewrite Hg, Hh. reflexivity.
Qed.

Lemma bind_run : forall A B (m : M A) (k : A -> M B) c a c',
  m c = (Ret a, c') -> bind m k c = k a c'.
Proof. intros A B m k c a c' H. unfold bind. now rewrite H. Qed.

Lemma bind_bind_run : forall A B C (m : M A) (k : A -> M B) (k2 : B -> M C)
    c a c',
  m c = (Ret a, c') -> bind (bind m k) k2 c = bind (k a) k2 c'.
Proof. intros * H. unfold bind. now rewrite H. Qed.

(** [respond] on a response that is not OK: one of the generic pages. *)
Lemma respond_not_ok : forall o flag simple d,
  Response.code (d_response d) <> RESPONSE_STATUS_OK ->
  respond o flag simple d
  = send_generic_page o (d_response d) simple
      (if (Request.method (d_newreq d) =? REQUEST_METHOD_POST)
          && match c_dir flag with None => true | Some _ => false end
       then Some "CGI is not enabled in the server"
       else if (Request.method (d_newreq d) =? REQUEST_METHOD_POST)
               && negb (d_cgi_request d)
       then Some "The uri suplied with the POST resource must point to a CGI"
       else None).
Proof.
  intros o flag simple d H. unfold respond.
  apply Z.eqb_neq in H. rewrite H. cbn [andb].
  unfold bind, ret.
  destruct (_ && match c_dir flag with None => true | Some _ => false end);
    [reflexivity|].
  destruct (_ && negb _); reflexivity.
Qed.

Lemma dispatch_post_run : forall o flag newreq uri c res,
  resolve o flag REQUEST_METHOD_POST uri = Some res ->
  cu_status res = RESPONSE_STATUS_OK ->
  cu_cgi res = false ->
  exists d,
    dispatch_post o flag newreq uri c
    = (Ret d,
       mk_conn (input c)
         (trace c ++ match c_dir flag with
                     | None => []
                     | Some _ => [Checkuri uri]
                     end))
    /\ d_response d = init_response RESPONSE_STATUS_BAD_REQUEST
    /\ Request.method (d_newreq d) = REQUEST_METHOD_POST
    /\ d_cgi_request d = false.
Proof.
  intros o flag newreq uri c res Hres Hok Hcgi. unfold dispatch_post.
  destruct (c_dir flag) as [cdir|].
  - set (rq := Request.set_path uri _).
    destruct (call_checkuri_resolve o flag rq c res)
      as (res' & Hcall & Hv & Hmeth).
    { subst rq. destruct newreq. exact Hres. }
    unfold verdict in Hv. inversion Hv as [[Hr Hs Hp Hc]].
    rewrite (bind_run _ _ _ _ _ _ _ Hcall).
    rewrite Hc, Hs, Hcgi, Hok. cbn [negb andb Z.eqb].
    eexists. split; [reflexivity|]. cbn. repeat split.
    rewrite (proj1 Hmeth). subst rq. now destruct newreq.
  - eexists. unfold ret. rewrite app_nil_r. destruct c.
    split; [reflexivity|]. cbn. repeat split.
Qed.

(** A header line that failed to parse ends the chain with 400. *)
Lemma dispatch_failed : forall o flag newreq t0 t1 t2 c,
  dispatch o flag newreq true [t0; t1; t2] c
  = (Ret (mk_dispatched (Request.set_version 1 0 newreq)
            (init_response RESPONSE_STATUS_BAD_REQUEST) 0 None false), c).
Proof. reflexivity. Qed.

(** C2: a POST whose path resolves with status OK to a target that is not
    a CGI target is answered with 400 Bad Request, whether or not a CGI
    root is configured.  The request is an HTTP/1.0 request line of three
    tokens; the page says why the POST is turned down, or is the plain
    400 page when a header line failed to parse. *)
Theorem post_to_non_cgi_is_bad_request :
  forall o flag script tr buf rest method uri version res,
    request_received script buf rest ->
    request_tokens buf = [method; uri; version] ->
    strncasecmp version HTTP_VERSION_1 8 = 0 ->
    strcasecmp method "POST" = 0 ->
    resolve o flag REQUEST_METHOD_POST uri = Some res ->
    cu_status res = RESPONSE_STATUS_OK ->
    cu_cgi res = false ->
    response_code (httpd o flag (mk_conn script tr))
    = Some RESPONSE_STATUS_BAD_REQUEST
    /\ snd (httpd o flag (mk_conn script tr))
       = mk_conn rest
           (tr ++ if header_parsing_failed (os_zone o) buf
                  then generic_page_writes o RESPONSE_STATUS_BAD_REQUEST None
                  else post_rejection o flag uri).
Proof.
  intros o flag script tr buf rest m uri v res
    Hrecv Htok Hver Hm Hres Hok Hcgi.
  rewrite (httpd_request_received _ _ _ _ _ _ Hrecv).
  rewrite (httpd_process_three _ _ _ _ _ _ Htok).
  destruct (header_parsing_failed (os_zone o) buf).
  { (* a header line failed to parse *)
    erewrite bind_bind_run by apply dispatch_failed.
    rewrite respond_not_ok by discriminate.
    cbn [d_response d_newreq d_cgi_request Request.set_version
         Request.method].
    rewrite (parsed_request_method (os_zone o) buf).
    cbn [Z.eqb andb REQUEST_METHOD_POST].
    erewrite bind_run;
      [|apply (send_generic_page_full o RESPONSE_STATUS_BAD_REQUEST None
                 _ _ _ ltac:(discriminate) eq_refl eq_refl)].
    split; reflexivity. }
  rewrite dispatch_method_post by assumption.
  destruct (dispatch_post_run o flag
              (Request.set_version 1 0 (parsed_request (os_zone o) buf))
              uri (mk_conn rest tr) res Hres Hok Hcgi)
    as (d & Hd & Hresp & Hmeth & Hdcgi).
  rewrite (bind_bind_run _ _ _ _ _ _ _ _ _ Hd).
  rewrite respond_not_ok by (rewrite Hresp; discriminate).
  rewrite Hresp, Hmeth, Hdcgi. unfold post_rejection.
  cbn [input trace Z.eqb negb andb REQUEST_METHOD_POST Pos.eqb].
  destruct (c_dir flag) as [cdir|].
  - erewrite bind_run;
      [|apply (send_generic_page_full o RESPONSE_STATUS_BAD_REQUEST
                 (Some "The uri suplied with the POST resource must point to a CGI")
                 _ _ _ ltac:(discriminate) eq_refl eq_refl)].
    cbn [input trace]. rewrite app_trace_assoc. split; reflexivity.
  - erewrite bind_run;
      [|apply (send_generic_page_full o RESPONSE_STATUS_BAD_REQUEST
                 (Some "CGI is not enabled in the server")
                 _ _ _ ltac:(discriminate) eq_refl eq_refl)].
    cbn [input trace]. rewrite app_nil_r. split; reflexivity.
Qed.

Lemma post_to_non_cgi_is_bad_request_witness :
  let o := ExampleFs.make 0 1700000000
             [ExampleFs.directory "/srv/www" ["run.sh"];
              ExampleFs.program "/srv/www/run.sh";
              ExampleFs.directory "/srv/cgi" []]
             "text/plain" "" in
  let flag := mk_flags (Some "/srv/cgi/") "/srv/www" in
  let buf := "POST /run.sh HTTP/1.0" ++ CRLF ++ "Content-Length: 3" ++ CRLF
             ++ CRLF ++ "a=b" in
  response_code (httpd o flag (mk_conn [Data buf] []))
  = Some RESPONSE_STATUS_BAD_REQUEST
  /\ snd (httpd o flag (mk_conn [Data buf] []))
     = mk_conn []
         ([] ++ if header_parsing_failed (os_zone o) buf
                then generic_page_writes o RESPONSE_STATUS_BAD_REQUEST None
                else post_rejection o flag "/run.sh").
Proof.
  intros o flag buf.
  apply (post_to_non_cgi_is_bad_request o flag [Data buf] [] buf []
           "POST" "/run.sh" "HTTP/1.0"
           (mk_checkuri 0
              (Request.set_path "/run.sh"
                 (Request.set_method REQUEST_METHOD_POST init_request))
              RESPONSE_STATUS_OK (Some "/srv/www/run.sh") false)).
  - exists buf. repeat split; vm_compute; congruence.
  - reflexivity.
  - reflexivity.
  - reflexivity.
  - reflexivity.
  - reflexivity.
  - reflexivity.
Defined.

(* ================================================================== *)
(** * Facts about strings *)
(* ================================================================== *)

Lemma append_nil_r : forall s : string, s ++ "" = s.
Proof. induction s as [|c s IH]; cbn; [reflexivity | now rewrite IH]. Qed.

Lemma append_assoc : forall a b c : string, (a ++ b) ++ c = a ++ (b ++ c).
Proof. induction a as [|x a IH]; intros; cbn; [reflexivity | now rewrite IH]. Qed.

Lemma length_append : forall a b : string,
  String.length (a ++ b) = (String.length a + String.length b)%nat.
Proof. induction a as [|x a IH]; intros; cbn; [reflexivity | now rewrite IH]. Qed.

Lemma strlen_append : forall a b, strlen (a ++ b) = strlen a + strlen b.
Proof. intros. unfold strlen. rewrite length_append. lia. Qed.

Lemma strlen_nonneg : forall s, 0 <= strlen s.
Proof. intros. unfold strlen. lia. Qed.

Lemma take_drop : forall n s, take n s ++ drop n s = s.
Proof.
  induction n as [|n IH]; intros [|c s]; cbn; try reflexivity.
  now rewrite IH.
Qed.

Lemma length_take : forall n s, (String.length (take n s) <= n)%nat.
Proof.
  induction n as [|n IH]; intros [|c s]; cbn; try lia.
  specialize (IH s). lia.
Qed.

Lemma take_app_le : forall n a b,
  (n <= String.length a)%nat -> take n (a ++ b) = take n a.
Proof.
  induction n as [|n IH]; intros [|c a] b H; cbn in *; try reflexivity; try lia.
  rewrite IH by lia. reflexivity.
Qed.

Lemma take_app_plus : forall a b k,
  take (String.length a + k) (a ++ b) = a ++ take k b.
Proof.
  induction a as [|c a IH]; intros; cbn; [reflexivity | now rewrite IH].
Qed.

Lemma take_take : forall n m s, (n <= m)%nat -> take n (take m s) = take n s.
Proof.
  induction n as [|n IH]; intros [|m] [|c s] H; cbn; try reflexivity; try lia.
  rewrite IH by lia. reflexivity.
Qed.

Lemma prefix_app : forall n a b,
  String.prefix n a = true -> String.prefix n (a ++ b) = true.
Proof.
  induction n as [|x n IH]; intros a b H.
  - now destruct (a ++ b).
  - destruct a as [|y a]; cbn in *; [discriminate|].
    destruct (ascii_dec x y); [now apply IH | discriminate].
Qed.

(** A needle that does not occur in a string does not occur in any prefix
    of it. *)
Lemma strstr_app_none : forall a b needle,
  strstr (a ++ b) needle = None -> strstr a needle = None.
Proof.
  induction a as [|x a IH]; intros b needle H.
  - cbn in *. destruct needle; [|reflexivity].
    destruct b; cbn in H; discriminate.
  - cbn [append] in H. cbn [strstr] in *.
    destruct (String.prefix needle (String x a)) eqn:P.
    + pose proof (prefix_app _ (String x a) b P) as Q.
      cbn [append] in Q. rewrite Q in H. discriminate.
    + destruct (String.prefix needle (String x (a ++ b))); [discriminate|].
      destruct (strstr (a ++ b) needle) eqn:E; [discriminate|].
      now rewrite (IH _ _ E).
Qed.

Lemma c_str_prefix : forall s, exists r, s = c_str s ++ r.
Proof.
  induction s as [|c s [r IH]]; cbn [c_str].
  - now exists "".
  - destruct (Ascii.eqb c NUL).
    + now exists (String c s).
    + exists r. cbn [append]. now rewrite <- IH.
Qed.

Lemma strstr_c_str_none : forall s needle,
  strstr s needle = None -> strstr (c_str s) needle = None.
Proof.
  intros s needle H. destruct (c_str_prefix s) as [r E].
  rewrite E in H. eapply strstr_app_none; eassumption.
Qed.

Lemma strstr_take_none : forall n m s needle,
  (n <= m)%nat ->
  strstr (take m s) needle = None -> strstr (take n s) needle = None.
Proof.
  intros n m s needle L H. rewrite <- (take_take n m s L).
  rewrite <- (take_drop n (take m s)) in H.
  eapply strstr_app_none; eassumption.
Qed.

(* ================================================================== *)
(** * The reading loop *)
(* ================================================================== *)

(** The loop stores a prefix of what the client sends and never more than
    the room it was given. *)
Lemma read_request_prefix : forall script buf remain_buf bytes,
  0 <= remain_buf ->
  received script = Some bytes ->
  exists k rest,
    read_request script buf remain_buf = (ReadDone (buf ++ take k bytes), rest)
    /\ Z.of_nat k <= remain_buf.
Proof.
  induction script as [|ev script IH]; intros buf remain bytes Hr Hb.
  - cbn in *. exists O, []. rewrite append_nil_r.
    destruct bytes; split; try reflexivity; lia.
  - destruct ev as [b| |]; cbn in Hb; try discriminate.
    destruct (received script) as [rb|] eqn:Erb; [|discriminate].
    cbn in Hb. inversion Hb; subst bytes; clear Hb.
    cbn [read_request].
    destruct (strlen b =? 0) eqn:E0.
    { exists O, script. cbn. rewrite append_nil_r. split; [reflexivity|lia]. }
    destruct (remain =? 0) eqn:E1.
    { exists O, (Data b :: script). cbn. rewrite append_nil_r.
      split; [reflexivity|lia]. }
    destruct (remain <? strlen b) eqn:E2.
    { apply Z.ltb_lt in E2. unfold strlen in E2.
      exists (Z.to_nat remain), (Data (drop (Z.to_nat remain) b) :: script).
      rewrite take_app_le by lia. split; [reflexivity|lia]. }
    apply Z.ltb_ge in E2.
    destruct (strstr (c_str (buf ++ b)) (CRLF ++ CRLF)) eqn:E3.
    { exists (String.length b + 0)%nat, script.
      rewrite take_app_plus. cbn [take]. rewrite append_nil_r.
      split; [reflexivity|]. unfold strlen in E2. lia. }
    destruct (IH (buf ++ b) (remain - strlen b) rb ltac:(lia) eq_refl)
      as (k & rest & Hk & Hle).
    exists (String.length b + k)%nat, rest.
    rewrite take_app_plus, <- append_assoc. split; [exact Hk|].
    unfold strlen in *. lia.
Qed.

(** C9: when the bytes a connection delivers hold no blank line (CRLF
    CRLF) within their first 4095, the reading loop stops with at most
    4095 bytes stored in the request buffer, and the server answers with
    the generic 400 page; nothing but the status line, the headers and
    that page is done: no request is dispatched and [checkuri] is not
    called. *)
Theorem unterminated_request_is_bad_request :
  forall o flag script tr bytes,
    received script = Some bytes ->
    strstr (take (Z.to_nat (BUF_SIZE - 1)) bytes) (CRLF ++ CRLF) = None ->
    exists buf rest,
      read_request script "" (BUF_SIZE - 1) = (ReadDone buf, rest)
      /\ strlen buf <= BUF_SIZE - 1
      /\ response_code (httpd o flag (mk_conn script tr))
         = Some RESPONSE_STATUS_BAD_REQUEST
      /\ snd (httpd o flag (mk_conn script tr))
         = mk_conn rest
             (tr ++ generic_page_writes o RESPONSE_STATUS_BAD_REQUEST None).
Proof.
  intros o flag script tr bytes Hrecv Hnone.
  destruct (read_request_prefix script "" (BUF_SIZE - 1) bytes
              ltac:(unfold BUF_SIZE; lia) Hrecv) as (k & rest & Hread & Hk).
  cbn [append] in Hread.
  exists (take k bytes), rest. split; [exact Hread|]. split.
  { pose proof (length_take k bytes). unfold strlen. lia. }
  assert (Hs : strstr (c_str (take k bytes)) (CRLF ++ CRLF) = None).
  { apply strstr_c_str_none.
    eapply strstr_take_none; [|exact Hnone]. lia. }
  unfold httpd. cbn [input trace]. rewrite Hread, Hs.
  erewrite bind_run;
    [|apply (send_generic_page_full o RESPONSE_STATUS_BAD_REQUEST None
               _ _ _ ltac:(discriminate) eq_refl eq_refl)].
  split; reflexivity.
Qed.

Lemma unterminated_request_is_bad_request_witness :
  let o := ExampleFs.make 0 1700000000 [] "text/plain" "" in
  let flag := mk_flags None "/srv/www" in
  let script := [Data "GET / HT"; Data ("TP/1.0" ++ CRLF)] in
  exists buf rest,
    read_request script "" (BUF_SIZE - 1) = (ReadDone buf, rest)
    /\ strlen buf <= BUF_SIZE - 1
    /\ response_code (httpd o flag (mk_conn script []))
       = Some RESPONSE_STATUS_BAD_REQUEST
    /\ snd (httpd o flag (mk_conn script []))
       = mk_conn rest
           ([] ++ generic_page_writes o RESPONSE_STATUS_BAD_REQUEST None).
Proof.
  intros o flag script.
  apply (unterminated_request_is_bad_request o flag script []
           ("GET / HTTP/1.0" ++ CRLF)).
  - reflexivity.
  - reflexivity.
Defined.

(* ================================================================== *)
(** * Header lines *)
(* ================================================================== *)

(** A line that [strncasecmp] finds equal to a prefix starts with that
    prefix, letter case aside. *)
Lemma strncasecmp_prefix : forall p s,
  nul_free p = true ->
  strncasecmp s p (String.length p) = 0 ->
  take (String.length p) (lower s) = lower p.
Proof.
  induction p as [|b p IH]; intros s Hn H.
  - reflexivity.
  - cbn [nul_free] in Hn. apply andb_prop in Hn as [Hb Hn].
    apply negb_true_iff, Ascii.eqb_neq in Hb.
    destruct s as [|a s]; cbn [String.length strncasecmp] in H.
    + exfalso. apply (zchar_tolower_pos b Hb). lia.
    + cbn [lower String.length take].
      destruct (Ascii.eqb (tolower a) (tolower b)) eqn:E.
      * apply Ascii.eqb_eq in E. rewrite E, (IH s Hn H). reflexivity.
      * exfalso. apply Ascii.eqb_neq in E. apply E, zchar_inj. lia.
Qed.

(** Two prefixes that differ within their common length are not both
    found on the same line. *)
Lemma strncasecmp_exclusive : forall p q s,
  nul_free p = true -> nul_free q = true ->
  take (Nat.min (String.length p) (String.length q)) (lower p)
  <> take (Nat.min (String.length p) (String.length q)) (lower q) ->
  strncasecmp s p (String.length p) = 0 ->
  strncasecmp s q (String.length q) <> 0.
Proof.
  intros p q s Hp Hq Hne H1 H2. apply Hne.
  rewrite <- (strncasecmp_prefix p s Hp H1), <- (strncasecmp_prefix q s Hq H2).
  rewrite !take_take by lia. reflexivity.
Qed.

Lemma digits_value_no_digit : forall s acc,
  match s with String d _ => isdigit d | EmptyString => false end = false ->
  digits_value s acc = acc.
Proof. intros [|d s] acc H; cbn in *; [reflexivity | now rewrite H]. Qed.

(** Without a number to convert, [atoi] yields 0. *)
Lemma atoi_without_number : forall s,
  starts_with_number s = false -> atoi s = 0.
Proof.
  intros s H. unfold atoi, strtol, starts_with_number in *.
  destruct (skip_spaces s) as [|c s'].
  - reflexivity.
  - destruct (Ascii.eqb c "-") eqn:Em; cbn [orb] in H.
    + rewrite digits_value_no_digit by exact H. reflexivity.
    + destruct (Ascii.eqb c "+") eqn:Ep; cbn [orb] in H.
      * rewrite digits_value_no_digit by exact H. reflexivity.
      * rewrite digits_value_no_digit by exact H. reflexivity.
Qed.

(** A Content-Length line passes the loop and sets the field. *)
Lemma parse_header_line_content_length : forall zone header_line rq,
  content_length_line header_line = true ->
  parse_header_line zone header_line rq
  = Some (Request.set_content_length (atoi (drop 16 header_line)) rq).
Proof.
  intros zone line rq H. unfold content_length_line in H.
  apply andb_prop in H as [Hlen Hpre]. apply Z.eqb_eq in Hpre.
  unfold parse_header_line, header_if_modified_since,
    header_content_length, header_content_type.
  assert (Hims : strncasecmp line IF_MODIFIED_SINCE_PREFIX
                   (String.length IF_MODIFIED_SINCE_PREFIX) <> 0).
  { apply (strncasecmp_exclusive CONTENT_LENGTH_PREFIX); try reflexivity;
      [vm_compute; discriminate | exact Hpre]. }
  assert (Hct : strncasecmp line CONTENT_TYPE_PREFIX
                  (String.length CONTENT_TYPE_PREFIX) <> 0).
  { apply (strncasecmp_exclusive CONTENT_LENGTH_PREFIX); try reflexivity;
      [vm_compute; discriminate | exact Hpre]. }
  apply Z.eqb_neq in Hims, Hct. rewrite Hims, Hct, !andb_false_r.
  change (String.length CONTENT_LENGTH_PREFIX) with 15%nat.
  rewrite Hpre. change (Z.of_nat 15 + 2) with 17. rewrite Hlen. reflexivity.
Qed.

(** Any other line leaves the field as it is, and whether it fails the
    request does not depend on the request built so far. *)
Lemma parse_header_line_other : forall zone header_line rq,
  content_length_line header_line = false ->
  match parse_header_line zone header_line rq with
  | Some rq' =>
      Request.content_length rq' = Request.content_length rq
      /\ forall rq0, parse_header_line zone header_line rq0 <> None
  | None => forall rq0, parse_header_line zone header_line rq0 = None
  end.
Proof.
  intros zone line rq H. unfold content_length_line in H.
  unfold parse_header_line, header_if_modified_since,
    header_content_length, header_content_type.
  change (String.length CONTENT_LENGTH_PREFIX) with 15%nat.
  change (Z.of_nat 15 + 2) with 17. rewrite H. clear H.
  destruct ((Z.of_nat (String.length IF_MODIFIED_SINCE_PREFIX) <? strlen line)
            && _).
  - destruct (http_date_to_time zone _).
    + split; [|discriminate].
      destruct (_ && _); reflexivity.
    + reflexivity.
  - split; [|discriminate]. destruct (_ && _); reflexivity.
Qed.

(** Whether the loop fails does not depend on the Content-Length lines. *)
Lemma parse_headers_failed_without_content_length : forall zone hl rq rq0,
  snd (parse_headers zone hl rq)
  = snd (parse_headers zone
           (filter (fun h => negb (content_length_line h)) hl) rq0).
Proof.
  intros zone hl. induction hl as [|h hl IH]; intros rq rq0.
  - reflexivity.
  - cbn [parse_headers filter].
    destruct (content_length_line h) eqn:E; cbn [negb].
    + rewrite (parse_header_line_content_length zone h rq E). apply IH.
    + cbn [parse_headers].
      pose proof (parse_header_line_other zone h rq E) as K.
      destruct (parse_header_line zone h rq) as [rq'|].
      * destruct K as [_ K].
        destruct (parse_header_line zone h rq0) as [rq0'|] eqn:E0;
          [apply IH | now destruct (K rq0)].
      * now rewrite K.
Qed.

(** The field after a loop that did not fail. *)
Lemma parse_headers_content_length : forall zone hl rq,
  snd (parse_headers zone hl rq) = false ->
  Request.content_length (fst (parse_headers zone hl rq))
  = match last_content_length hl with
    | Some h => atoi (drop 16 h)
    | None => Request.content_length rq
    end.
Proof.
  intros zone hl. induction hl as [|h hl IH]; intros rq Hf.
  - reflexivity.
  - cbn [parse_headers last_content_length] in *.
    destruct (content_length_line h) eqn:E.
    + rewrite (parse_header_line_content_length zone h rq E) in *.
      rewrite (IH _ Hf).
      destruct (last_content_length hl); reflexivity.
    + pose proof (parse_header_line_other zone h rq E) as K.
      destruct (parse_header_line zone h rq) as [rq'|]; [|discriminate].
      destruct K as [K _]. rewrite (IH _ Hf), K.
      destruct (last_content_length hl); reflexivity.
Qed.

(** C5 (as amended): the header lines of more than 17 characters that
    start with "Content-Length:", letter case aside, never make the loop
    over the header lines fail the request, whatever their values: the
    loop fails exactly as it does on the other lines alone.  When it does
    not fail, the request's content length is what [atoi] makes of the
    last of those lines from offset 16 on: 0 when no number starts there,
    and not the unset value -1. *)
Theorem content_length_header_stores_atoi :
  forall zone buf,
    header_parsing_failed zone buf
    = snd (parse_headers zone
             (filter (fun h => negb (content_length_line h))
                (header_lines buf)) init_request)
    /\ (header_parsing_failed zone buf = false ->
        forall header_line,
          last_content_length (header_lines buf) = Some header_line ->
          Request.content_length (parsed_request zone buf)
          = atoi (drop 16 header_line)
          /\ (starts_with_number (drop 16 header_line) = false ->
              Request.content_length (parsed_request zone buf) = 0)).
Proof.
  intros zone buf. unfold header_parsing_failed, parsed_request. split.
  - apply parse_headers_failed_without_content_length.
  - intros Hf h Hl.
    rewrite (parse_headers_content_length _ _ _ Hf), Hl.
    split; [reflexivity | apply atoi_without_number].
Qed.

Lemma content_length_header_stores_atoi_witness :
  let buf := "POST /cgi-bin/form HTTP/1.0" ++ CRLF
             ++ "Content-Length: 12" ++ CRLF
             ++ "If-Modified-Since: Sun, 13 Sep 2020 12:26:40 GMT" ++ CRLF
             ++ "content-length: twelve" ++ CRLF ++ CRLF in
  header_parsing_failed (fixed_zone 0) buf = false
  /\ last_content_length (header_lines buf) = Some "content-length: twelve"
  /\ Request.content_length (parsed_request (fixed_zone 0) buf)
     = atoi (drop 16 "content-length: twelve")
  /\ Request.content_length (parsed_request (fixed_zone 0) buf) = 0.
Proof.
  intros buf.
  destruct (content_length_header_stores_atoi (fixed_zone 0) buf) as [_ H].
  assert (Hf : header_parsing_failed (fixed_zone 0) buf = false)
    by reflexivity.
  destruct (H Hf "content-length: twelve" eq_refl) as [H1 H2].
  split; [exact Hf|]. split; [reflexivity|]. split; [exact H1|].
  apply H2. reflexivity.
Defined.

(** C5 as stated fails on the code: a value that is no integer is stored
    as 0, where the unset value is -1. *)
Lemma malformed_content_length_is_not_left_unset :
  let buf := "POST /cgi-bin/form HTTP/1.0" ++ CRLF ++ "Content-Length: abc"
             ++ CRLF ++ CRLF in
  well_formed_integer "abc" = false
  /\ header_lines buf = ["Content-Length: abc"]
  /\ header_parsing_failed (fixed_zone 0) buf = false
  /\ Request.content_length init_request = -1
  /\ Request.content_length (parsed_request (fixed_zone 0) buf) = 0.
Proof. vm_compute. repeat split. Qed.

(* ================================================================== *)
(** * CGI environment *)
(* ================================================================== *)

(** Whatever the request, no buffer handed to [putenv] holds a
    QUERY_STRING entry: the first one, for GET and HEAD, was never
    written, the others are the method, the length and the type. *)
Lemma cgi_environment_has_no_query_string : forall rq entry,
  In (Some entry) (cgi_environment rq) ->
  String.prefix "QUERY_STRING" entry = false.
Proof.
  intros rq entry H. unfold cgi_environment in H.
  apply in_app_or in H as [H|H].
  - destruct (_ || _); cbn in H; [destruct H as [H|[]]; discriminate | easy].
  - cbn in H.
    destruct H as [H|[H|[H|[]]]]; inversion H; subst; clear H;
      try reflexivity.
    repeat match goal with
           | |- context [if ?b then _ else _] => destruct b
           end; reflexivity.
Qed.

(** C6 on the code: a GET for a CGI program with the query string "x=1".
    [checkuri] stores the query string in the request, the program is
    spawned, and of the four buffers given to [putenv] the one meant for
    QUERY_STRING was never written; the other three carry the space
    before '='. *)
Theorem cgi_query_string_entry_is_never_built :
  let o := ExampleFs.make 0 1700000000
             [ExampleFs.directory "/srv/www" [];
              ExampleFs.directory "/srv/cgi" ["hello"];
              ExampleFs.program "/srv/cgi/hello"]
             "text/plain" "Content-Type: text/plain" in
  let flag := mk_flags (Some "/srv/cgi/") "/srv/www" in
  let buf := "GET /cgi-bin/hello?x=1 HTTP/1.0" ++ CRLF ++ CRLF in
  option_map (fun res => Request.querystring (cu_request res))
    (resolve o flag REQUEST_METHOD_GET "/cgi-bin/hello?x=1") = Some "x=1"
  /\ In (Exec "/srv/cgi/hello"
           [None; Some "REQUEST_METHOD =GET"; Some "CONTENT_LENGTH =-1";
            Some "CONTENT_TYPE ="] [])
        (trace (snd (httpd o flag (mk_conn [Data buf] [])))).
Proof.
  vm_compute. split; [reflexivity|]. do 3 right. left. reflexivity.
Qed.

(* ================================================================== *)
(** * Containment *)
(* ================================================================== *)

(** [checkuri] answers OK exactly when the canonical root occurs somewhere
    in the canonical path. *)
Lemma checkuri_ok_iff_strstr : forall o flag rq cgi res,
  checkuri o flag rq cgi = Some res ->
  cu_status res = RESPONSE_STATUS_OK ->
  exists uri_path server_real_path rq' cgi' uri_real_path,
    build_candidate o flag rq cgi
    = Candidate uri_path server_real_path rq' cgi'
    /\ realpath o uri_path = Some uri_real_path
    /\ strstr uri_real_path server_real_path <> None.
Proof.
  intros o flag rq cgi res. unfold checkuri.
  destruct (build_candidate o flag rq cgi) as [u s r c|st r c] eqn:B.
  - destruct (access_mode r c) as [mode|]; [|discriminate].
    destruct (access o u mode) as [e|].
    + intros H E; inversion H; subst; cbn in E. destruct e; discriminate.
    + destruct (realpath o u) as [p|] eqn:R.
      * destruct (strstr p s) eqn:S; intros H E; inversion H; subst;
          cbn in E; try discriminate.
        exists u, s, r, c, p. repeat split; congruence.
      * intros H E; inversion H; subst; discriminate.
  - intros H E; inversion H; subst; cbn in E.
    unfold build_candidate in B.
    repeat match type of B with
           | context [match ?x with _ => _ end] => destruct x
           end; inversion B; subst; discriminate.
Qed.

(** C1 on the code: with the served root /srv/www, the request path
    /../www2/secret.txt canonicalizes to /srv/www2/secret.txt, which is
    neither the root nor below it; [checkuri] finds the root's text inside
    the canonical path and answers OK, and the file is served. *)
Theorem sibling_of_the_root_is_served :
  let o := ExampleFs.make 0 1700000000
             [ExampleFs.directory "/srv/www" ["index.html"];
              ExampleFs.file "/srv/www/index.html" "welcome" 1600000000;
              ExampleFs.directory "/srv/www2" ["secret.txt"];
              ExampleFs.file "/srv/www2/secret.txt" "s3cret" 1600000000]
             "text/plain" "" in
  let flag := mk_flags None "/srv/www" in
  let buf := "GET /../www2/secret.txt HTTP/1.0" ++ CRLF ++ CRLF in
  realpath o (dir flag) = Some "/srv/www"
  /\ realpath o ("/srv/www" ++ "/../www2/secret.txt")
     = Some "/srv/www2/secret.txt"
  /\ contained "/srv/www" "/srv/www2/secret.txt" = false
  /\ option_map verdict (resolve o flag REQUEST_METHOD_GET "/../www2/secret.txt")
     = Some (0, RESPONSE_STATUS_OK, Some "/srv/www2/secret.txt", false)
  /\ response_code (httpd o flag (mk_conn [Data buf] []))
     = Some RESPONSE_STATUS_OK
  /\ In (Write "s3cret") (trace (snd (httpd o flag (mk_conn [Data buf] [])))).
Proof.
  vm_compute. repeat split. do 3 right. left. reflexivity.
Qed.

(* ================================================================== *)
(** * Directory listings *)
(* ================================================================== *)

Lemma sent_app : forall tr tr', sent (tr ++ tr') = sent tr ++ sent tr'.
Proof.
  induction tr as [|a tr IH]; intros tr'; cbn; [reflexivity|].
  destruct a; cbn; rewrite IH; [now rewrite append_assoc | reflexivity..].
Qed.

Lemma cbuf_write_filled : forall b s b',
  cbuf_write b s = Some b' -> filled b' = filled b ++ s.
Proof.
  intros b s b'. unfold cbuf_write.
  destruct (write_buffer _ _ <? 0); [discriminate|].
  intros H; inversion H; reflexivity.
Qed.

(** When the loop over the entries runs to its end, what was written out
    together with what is still in the buffer is what the buffer held
    before, followed by the lines of the visible entries in order. *)
Lemma list_entries_sent : forall names b c b' c',
  list_entries names b c = (Ret (Some b'), c') ->
  input c' = input c
  /\ exists tr',
       trace c' = (trace c ++ tr')%list
       /\ sent tr' ++ filled b' = filled b ++ listing_lines names.
Proof.
  induction names as [|d_name names IH]; intros b c b' c' H.
  - cbn in H. inversion H; subst. split; [reflexivity|].
    exists []. rewrite app_nil_r. split; [reflexivity|].
    unfold listing_lines. cbn. now rewrite append_nil_r.
  - cbn [list_entries] in H. unfold bind at 1 in H.
    set (flushed := buf_size_remain b <? strlen d_name + 2) in H.
    assert (Hstep : exists b1 pre,
               (if flushed
                then write_socket (filled b) ;;; ret (cbuf_new BUF_SIZE)
                else ret b) c
               = (Ret b1, mk_conn (input c) (trace c ++ pre))
               /\ sent pre ++ filled b1 = filled b).
    { destruct flushed.
      - exists (cbuf_new BUF_SIZE), [Write (filled b)]. split; [reflexivity|].
        cbn. now rewrite !append_nil_r.
      - exists b, []. rewrite app_nil_r. destruct c. split; reflexivity. }
    destruct Hstep as (b1 & pre & Hrun & Hpre). rewrite Hrun in H.
    assert (Hrec : forall b2,
               list_entries names b2 (mk_conn (input c) (trace c ++ pre))
               = (Ret (Some b'), c') ->
               filled b2 = filled b1 ++ (if visible d_name
                                         then d_name ++ CRLF else "") ->
               input c' = input c
               /\ exists tr',
                    trace c' = (trace c ++ tr')%list
                    /\ sent tr' ++ filled b'
                       = filled b ++ listing_lines (d_name :: names)).
    { intros b2 Hl Hf. destruct (IH _ _ _ _ Hl) as (Hin & tr' & Htr & Hs).
      cbn [input trace] in *. split; [exact Hin|].
      exists (pre ++ tr')%list. rewrite Htr, app_trace_assoc.
      split; [reflexivity|].
      rewrite sent_app, append_assoc, Hs, Hf, <- Hpre, !append_assoc.
      unfold listing_lines. cbn [filter].
      destruct (visible d_name); cbn [map CString.concat append];
        now rewrite ?append_assoc. }
    destruct d_name as [|ch d_rest].
    + apply (Hrec b1 H). cbn. now rewrite append_nil_r.
    + cbn [visible] in Hrec.
      destruct (negb (Ascii.eqb ch ".")).
      * destruct (cbuf_write b1 (String ch d_rest ++ CRLF)) as [b2|] eqn:W;
          [|discriminate].
        apply (Hrec b2 H). exact (cbuf_write_filled _ _ _ W).
      * apply (Hrec b1 H). now rewrite append_nil_r.
Qed.

(** X8: a listing that completes holds the head of the page, one line
    for every entry whose name does not start with '.', in the order of
    [alphasort], and the tail of the page. *)
Theorem complete_listing_is_sorted_and_visible :
  forall o rq c c' entries,
    dir_entries o (Request.path rq) = Some entries ->
    send_directory_listing o rq c = (Ret 0, c') ->
    exists head tr',
      listing_head (Request.path rq) = Some head
      /\ trace c' = (trace c ++ tr')%list
      /\ sent tr'
         = filled head ++ listing_lines (NameSort.sort entries)
           ++ listing_tail
      /\ Sorted.Sorted (fun a b => String.leb a b = true)
           (NameSort.sort entries)
      /\ Permutation entries (NameSort.sort entries).
Proof.
  intros o rq c c' entries Hdir H.
  unfold send_directory_listing, scandir in H. rewrite Hdir in H.
  cbn [option_map] in H.
  destruct (listing_head (Request.path rq)) as [head|]; [|discriminate].
  exists head.
  unfold bind at 1 in H.
  destruct (list_entries (NameSort.sort entries) head c) as [[ob| | | |] c1] eqn:L;
    try discriminate.
  destruct ob as [b|]; [|discriminate].
  destruct (list_entries_sent _ _ _ _ _ L) as (Hin & tr1 & Htr1 & Hs1).
  assert (Hflush : exists b2 pre,
             (if buf_size_remain b <? 100
              then write_socket (filled b) ;;; ret (cbuf_new BUF_SIZE)
              else ret b) c1
             = (Ret b2, mk_conn (input c1) (trace c1 ++ pre))
             /\ sent pre ++ filled b2 = filled b).
  { destruct (buf_size_remain b <? 100).
    - exists (cbuf_new BUF_SIZE), [Write (filled b)]. split; [reflexivity|].
      cbn. now rewrite !append_nil_r.
    - exists b, []. rewrite app_nil_r. destruct c1. split; reflexivity. }
  destruct Hflush as (b2 & pre & Hrun & Hpre).
  unfold bind at 1 in H. rewrite Hrun in H.
  destruct (cbuf_write b2 listing_tail) as [b3|] eqn:W; [|discriminate].
  cbn in H. inversion H; subst c'; clear H. cbn [trace].
  exists (tr1 ++ pre ++ [Write (filled b3)])%list.
  split; [reflexivity|]. split.
  { rewrite Htr1, !app_trace_assoc. reflexivity. }
  split.
  { rewrite !sent_app. cbn [sent]. rewrite append_nil_r.
    rewrite (cbuf_write_filled _ _ _ W).
    rewrite <- (append_assoc (sent pre)), Hpre.
    rewrite <- append_assoc, Hs1, append_assoc. reflexivity. }
  split.
  - exact (NameSort.Sorted_sort entries).
  - exact (NameSort.Permuted_sort entries).
Qed.

(** C7 on the code: in the directory /srv/www/d with the sixteen entries
    of [boundary_names], none of them hidden, the head of the page and the
    first fifteen lines leave 135 bytes in the buffer, exactly the length
    of the last name and its CRLF.  The buffer is not written out, since
    the line seems to fit; [write_buffer] needs one more byte for the NUL
    and fails, and the listing returns -1 having sent no line at all. *)
Theorem listing_fails_when_a_line_fills_the_buffer :
  let o := ExampleFs.make 0 1700000000
             [ExampleFs.directory "/srv/www" ["d"];
              ExampleFs.directory "/srv/www/d" boundary_names]
             "inode/directory" "" in
  let rq := Request.set_path "/srv/www/d" init_request in
  forallb visible boundary_names = true
  /\ option_map (filter visible) (scandir o "/srv/www/d")
     = Some boundary_names
  /\ send_directory_listing o rq (mk_conn [] []) = (Ret (-1), mk_conn [] []).
Proof.
  vm_compute. repeat split.
Qed.

(* ================================================================== *)
(** * The header block *)
(* ================================================================== *)

Lemma length_fmt_u : forall fuel n acc,
  (String.length (fmt_u fuel n acc) <= fuel + String.length acc)%nat.
Proof.
  induction fuel as [|fuel IH]; intros n acc; cbn [fmt_u].
  - lia.
  - destruct (n / 10 =? 0).
    + cbn. lia.
    + specialize (IH (n / 10) (String (digit_char (n mod 10)) acc)).
      cbn in IH. lia.
Qed.

Lemma strlen_fmt_d : forall z, strlen (fmt_d z) <= 21.
Proof.
  intros z. unfold fmt_d, strlen.
  destruct (z <? 0).
  - pose proof (length_fmt_u 20 (- z) ""). cbn [String.length] in *. lia.
  - pose proof (length_fmt_u 20 z ""). cbn [String.length] in *. lia.
Qed.

Lemma time_to_http_date_fits : forall t dst_len date,
  time_to_http_date t dst_len = Some date -> strlen date < dst_len.
Proof.
  intros t n date. unfold time_to_http_date, strftime_rfc1123.
  destruct (gmtime_r t); [|discriminate].
  match goal with |- context [if ?b then _ else _] => destruct b eqn:E end;
    [|discriminate].
  intros H; inversion H; subst. now apply Z.ltb_lt in E.
Qed.

Lemma cbuf_filled_mk : forall a n, filled (mk_cbuf a n) = a.
Proof. reflexivity. Qed.

Lemma cbuf_remain_mk : forall a n, buf_size_remain (mk_cbuf a n) = n.
Proof. reflexivity. Qed.

Lemma cbuf_write_fits : forall b s,
  strlen s < buf_size_remain b ->
  cbuf_write b s
  = Some (mk_cbuf (filled b ++ s) (buf_size_remain b - strlen s)).
Proof.
  intros b s H. unfold cbuf_write, write_buffer.
  pose proof (strlen_nonneg s).
  destruct (strlen s <? 0) eqn:E1; [apply Z.ltb_lt in E1; lia|].
  destruct (buf_size_remain b <=? strlen s) eqn:E2;
    [apply Z.leb_le in E2; lia|].
  cbn [orb]. rewrite E1. reflexivity.
Qed.

Lemma cbuf_write_some : forall b s b',
  cbuf_write b s = Some b' ->
  strlen s < buf_size_remain b
  /\ b' = mk_cbuf (filled b ++ s) (buf_size_remain b - strlen s).
Proof.
  intros b s b' H. unfold cbuf_write, write_buffer in H.
  pose proof (strlen_nonneg s).
  destruct (strlen s <? 0) eqn:E0; [apply Z.ltb_lt in E0; lia|].
  destruct (buf_size_remain b <=? strlen s) eqn:E1; cbn [orb] in H.
  - cbn in H. discriminate.
  - apply Z.leb_gt in E1.
    destruct (strlen s <? 0) eqn:E2; [discriminate|].
    inversion H. auto.
Qed.

(** The header block of a response that carries a modification time and
    a content length, when the clock and the modification time can be
    written as HTTP dates; the content type has its line when it is not
    empty. *)
Lemma coderesp_headers_text_entity : forall o r now modified,
  time_to_http_date (os_time o) 128 = Some now ->
  time_to_http_date (Response.last_modified r) 128 = Some modified ->
  Response.last_modified r <> -1 ->
  strlen (Response.content_type r) < 64 ->
  0 <= Response.content_length r ->
  coderesp_headers_text o r
  = Some ("Date: " ++ now ++ CRLF
          ++ "Server: sws/1.0" ++ CRLF
          ++ "Last-Modified: " ++ modified ++ CRLF
          ++ (if 0 <? strlen (Response.content_type r)
              then "Content-Type: " ++ Response.content_type r ++ CRLF
              else "")
          ++ "Content-Length: " ++ fmt_d (Response.content_length r) ++ CRLF
          ++ CRLF).
Proof.
  intros o r now modified Hnow Hmod Hne Hct Hcl.
  pose proof (time_to_http_date_fits _ _ _ Hnow) as Ln.
  pose proof (time_to_http_date_fits _ _ _ Hmod) as Lm.
  pose proof (strlen_fmt_d (Response.content_length r)) as Ld.
  pose proof (strlen_nonneg now). pose proof (strlen_nonneg modified).
  pose proof (strlen_nonneg (fmt_d (Response.content_length r))).
  pose proof (strlen_nonneg (Response.content_type r)).
  unfold coderesp_headers_text, cbuf_write_if. rewrite Hnow.
  apply Z.eqb_neq in Hne. rewrite Hne, Hmod.
  assert (E2 : (0 <=? Response.content_length r) = true)
    by (apply Z.leb_le; lia).
  rewrite E2.
  lazy beta iota delta [obind].
  unfold cbuf_new.
  destruct (0 <? strlen (Response.content_type r));
    repeat (rewrite cbuf_write_fits;
            [|rewrite ?cbuf_remain_mk, ?strlen_append;
              try change (strlen "Date: ") with 6;
              try change (strlen "Server: ") with 8;
              try change (strlen SERVER_ID) with 7;
              try change (strlen "Last-Modified: ") with 15;
              try change (strlen "Content-Type: ") with 14;
              try change (strlen "Content-Length: ") with 16;
              try change (strlen CRLF) with 2;
              unfold BUF_SIZE; lia]);
    rewrite !cbuf_filled_mk;
    change ("" ++ "Date: " ++ now ++ CRLF) with ("Date: " ++ now ++ CRLF);
    rewrite !append_assoc; reflexivity.
Qed.

(* ================================================================== *)
(** * GET and HEAD *)
(* ================================================================== *)

Lemma dispatch_method_head : forall o flag newreq m uri v,
  strncasecmp v HTTP_VERSION_1 8 = 0 ->
  strcasecmp m "HEAD" = 0 ->
  dispatch o flag newreq false [m; uri; v]
  = dispatch_get_head o flag (Request.set_version 1 0 newreq)
      REQUEST_METHOD_HEAD uri.
Proof.
  intros o flag newreq m uri v Hv Hm. unfold dispatch.
  cbn [List.length Nat.max Nat.eqb negb orb andb nth Nat.sub].
  rewrite Hv, Hm. cbn [Z.eqb negb andb].
  assert (Hg : strcasecmp m "GET" <> 0)
    by (eapply strcasecmp_distinct; [| |exact Hm]; vm_compute; discriminate).
  apply Z.eqb_neq in Hg. rewrite Hg. reflexivity.
Qed.

Lemma dispatch_method_get : forall o flag newreq m uri v,
  strncasecmp v HTTP_VERSION_1 8 = 0 ->
  strcasecmp m "GET" = 0 ->
  dispatch o flag newreq false [m; uri; v]
  = dispatch_get_head o flag (Request.set_version 1 0 newreq)
      REQUEST_METHOD_GET uri.
Proof.
  intros o flag newreq m uri v Hv Hm. unfold dispatch.
  cbn [List.length Nat.max Nat.eqb negb orb andb nth Nat.sub].
  rewrite Hv, Hm. reflexivity.
Qed.

(** A simple request (two tokens) is a GET or nothing. *)
Lemma dispatch_simple_get : forall o flag newreq m uri,
  strcasecmp m "GET" = 0 ->
  dispatch o flag newreq false [m; uri]
  = dispatch_get_head o flag (Request.set_version 0 9 newreq)
      REQUEST_METHOD_GET uri.
Proof.
  intros o flag newreq m uri Hm. unfold dispatch.
  cbn [List.length Nat.max Nat.eqb negb orb andb nth Nat.sub].
  rewrite Hm, andb_false_r. reflexivity.
Qed.

Lemma dispatch_get_head_run : forall o flag newreq method uri c res target,
  resolve o flag method uri = Some res ->
  cu_status res = RESPONSE_STATUS_OK ->
  cu_realpath res = Some target ->
  exists d,
    dispatch_get_head o flag newreq method uri c
    = (Ret d, mk_conn (input c) (trace c ++ [Checkuri uri]))
    /\ d_response d = init_response RESPONSE_STATUS_OK
    /\ Request.method (d_newreq d) = method
    /\ Request.path (d_newreq d) = target
    /\ Request.if_modified_since_date (d_newreq d)
       = Request.if_modified_since_date newreq
    /\ d_realpath_str d = Some target
    /\ d_cgi_request d = cu_cgi res.
Proof.
  intros o flag newreq method uri c res target Hres Hok Hreal.
  unfold dispatch_get_head.
  set (rq := Request.set_path uri _).
  destruct (call_checkuri_resolve o flag rq c res)
    as (res' & Hcall & Hv & Hm & Hi & _).
  { subst rq. destruct newreq. exact Hres. }
  unfold verdict in Hv. inversion Hv as [[Hr Hs Hp Hc]].
  rewrite (bind_run _ _ _ _ _ _ _ Hcall).
  rewrite Hs, Hok, Hp, Hreal. cbn [Z.eqb RESPONSE_STATUS_OK Pos.eqb].
  eexists. split; [reflexivity|].
  cbn [d_response d_newreq d_realpath_str d_cgi_request].
  split; [reflexivity|].
  split; [destruct (cu_request res'); cbn in *; rewrite Hm; subst rq;
          now destruct newreq|].
  split; [now destruct (cu_request res')|].
  split; [destruct (cu_request res'); cbn in *; rewrite Hi; subst rq;
          now destruct newreq|].
  split; [reflexivity | congruence].
Qed.

Lemma set_entity_body_headers_ok : forall o target sb,
  stat o target = Some sb ->
  set_entity_body_headers o (init_response RESPONSE_STATUS_OK) target
  = (0, entity_response o target sb).
Proof.
  intros o target sb H. unfold set_entity_body_headers. now rewrite H.
Qed.

Lemma some_inj : forall (A : Type) (a b : A), Some a = Some b -> a = b.
Proof. intros A a b H. now inversion H. Qed.

(** The header block that was composed, field by field. *)
Lemma coderesp_headers_text_some : forall o r text,
  coderesp_headers_text o r = Some text ->
  exists now,
    time_to_http_date (os_time o) 128 = Some now
    /\ text
       = "Date: " ++ now ++ CRLF
         ++ "Server: sws/1.0" ++ CRLF
         ++ (if Response.last_modified r =? -1 then ""
             else match time_to_http_date (Response.last_modified r) 128 with
                  | Some modified => "Last-Modified: " ++ modified ++ CRLF
                  | None => ""
                  end)
         ++ (if 0 <? strlen (Response.content_type r)
             then "Content-Type: " ++ Response.content_type r ++ CRLF
             else "")
         ++ (if 0 <=? Response.content_length r
             then "Content-Length: " ++ fmt_d (Response.content_length r)
                  ++ CRLF
             else "")
         ++ CRLF.
Proof.
  intros o r text H. unfold coderesp_headers_text, obind, cbuf_write_if in H.
  destruct (time_to_http_date (os_time o) 128) as [now|]; [|discriminate].
  exists now. split; [reflexivity|].
  destruct (cbuf_write (cbuf_new BUF_SIZE) _) as [b1|] eqn:W1; [|discriminate].
  apply cbuf_write_some in W1 as [_ ->].
  destruct (cbuf_write _ ("Server: " ++ SERVER_ID ++ CRLF)) as [b2|] eqn:W2;
    [|discriminate].
  apply cbuf_write_some in W2 as [_ ->].
  cbn [filled buf_size_remain cbuf_new] in H.
  assert (K : forall b3 : cbuf,
            match
              (if 0 <? strlen (Response.content_type r)
               then cbuf_write b3
                      ("Content-Type: " ++ Response.content_type r ++ CRLF)
               else Some b3)
            with
            | Some a =>
                match
                  (if 0 <=? Response.content_length r
                   then cbuf_write a
                          ("Content-Length: "
                           ++ fmt_d (Response.content_length r) ++ CRLF)
                   else Some a)
                with
                | Some a0 =>
                    match cbuf_write a0 CRLF with
                    | Some b => Some (filled b)
                    | None => None
                    end
                | None => None
                end
            | None => None
            end = Some text ->
            text
            = filled b3
              ++ (if 0 <? strlen (Response.content_type r)
                  then "Content-Type: " ++ Response.content_type r ++ CRLF
                  else "")
              ++ (if 0 <=? Response.content_length r
                  then "Content-Length: "
                       ++ fmt_d (Response.content_length r) ++ CRLF
                  else "")
              ++ CRLF).
  { clear H. intros b3 K.
    destruct (0 <? strlen (Response.content_type r)).
    - destruct (cbuf_write b3 _) as [b4|] eqn:W4; [|discriminate].
      apply cbuf_write_some in W4 as [_ ->].
      destruct (0 <=? Response.content_length r).
      + destruct (cbuf_write _ _) as [b5|] eqn:W5 in K; [|discriminate].
        apply cbuf_write_some in W5 as [_ ->].
        destruct (cbuf_write _ CRLF) as [b6|] eqn:W6; [|discriminate].
        apply cbuf_write_some in W6 as [_ ->].
        apply some_inj in K. rewrite <- K. cbn [filled].
        now rewrite !append_assoc.
      + destruct (cbuf_write _ CRLF) as [b6|] eqn:W6; [|discriminate].
        apply cbuf_write_some in W6 as [_ ->].
        apply some_inj in K. rewrite <- K. cbn [filled].
        now rewrite !append_assoc.
    - destruct (0 <=? Response.content_length r).
      + destruct (cbuf_write _ _) as [b5|] eqn:W5 in K; [|discriminate].
        apply cbuf_write_some in W5 as [_ ->].
        destruct (cbuf_write _ CRLF) as [b6|] eqn:W6; [|discriminate].
        apply cbuf_write_some in W6 as [_ ->].
        apply some_inj in K. rewrite <- K. cbn [filled].
        now rewrite !append_assoc.
      + destruct (cbuf_write _ CRLF) as [b6|] eqn:W6; [|discriminate].
        apply cbuf_write_some in W6 as [_ ->].
        apply some_inj in K. rewrite <- K. cbn [filled].
        now rewrite ?append_assoc. }
  destruct (Response.last_modified r =? -1).
  - apply K in H. rewrite H. cbn [filled]. now rewrite !append_assoc.
  - destruct (time_to_http_date (Response.last_modified r) 128) as [m|];
      [|discriminate].
    destruct (cbuf_write _ ("Last-Modified: " ++ m ++ CRLF)) as [b3|] eqn:W3;
      [|discriminate].
    apply cbuf_write_some in W3 as [_ ->].
    apply K in H. rewrite H. cbn [filled]. now rewrite !append_assoc.
Qed.

(** C10 (as amended): a HEAD request that resolves with status OK to a
    target that is not a CGI target is answered with the status line and
    at most one header block, and with nothing after it: no byte of an
    entity body is written.  The block, when it is sent, carries from
    [stat] and libmagic: the Last-Modified field unless the modification
    time is -1, the value that stands for "no date"; the Content-Type
    field when libmagic names a type of 1 to 63 characters; and the
    Content-Length field with the size as an [int] holds it, unless that
    is negative.  The last part spells the block out for a target whose
    size fits an [int], whose type libmagic names and whose modification
    time is not -1: it carries the three values of the file. *)
Theorem head_sends_entity_headers_and_no_body :
  forall o flag script tr buf rest method uri version res target sb,
    request_received script buf rest ->
    request_tokens buf = [method; uri; version] ->
    header_parsing_failed (os_zone o) buf = false ->
    strncasecmp version HTTP_VERSION_1 8 = 0 ->
    strcasecmp method "HEAD" = 0 ->
    resolve o flag REQUEST_METHOD_HEAD uri = Some res ->
    cu_status res = RESPONSE_STATUS_OK ->
    cu_cgi res = false ->
    cu_realpath res = Some target ->
    stat o target = Some sb ->
    let r := entity_response o target sb in
    fst (httpd o flag (mk_conn script tr)) = Ret (headers_rc o r, Some r)
    /\ snd (httpd o flag (mk_conn script tr))
       = mk_conn rest
           (tr ++ Checkuri uri :: Write ("HTTP/1.0 200 OK" ++ CRLF)
               :: headers_writes o r)
    /\ (headers_writes o r = []
        \/ exists now,
             time_to_http_date (os_time o) 128 = Some now
             /\ headers_writes o r
                = [Write (entity_header_block o target sb now)])
    /\ (forall now modified mime,
          time_to_http_date (os_time o) 128 = Some now ->
          time_to_http_date (st_mtime sb) 128 = Some modified ->
          st_mtime sb <> -1 ->
          magic_file o target = Some mime ->
          0 < strlen mime < 64 ->
          0 <= st_size sb <= INT_MAX ->
          headers_writes o r
          = [Write ("Date: " ++ now ++ CRLF
                    ++ "Server: sws/1.0" ++ CRLF
                    ++ "Last-Modified: " ++ modified ++ CRLF
                    ++ "Content-Type: " ++ mime ++ CRLF
                    ++ "Content-Length: " ++ fmt_d (st_size sb) ++ CRLF
                    ++ CRLF)]).
Proof.
  intros o flag script tr buf rest m uri v res target sb
    Hrecv Htok Hhdr Hver Hm Hres Hok Hcgi Hreal Hstat r.
  rewrite (httpd_request_received _ _ _ _ _ _ Hrecv).
  rewrite (httpd_process_three _ _ _ _ _ _ Htok), Hhdr.
  rewrite dispatch_method_head by assumption.
  destruct (dispatch_get_head_run o flag
              (Request.set_version 1 0 (parsed_request (os_zone o) buf))
              REQUEST_METHOD_HEAD uri (mk_conn rest tr) res target
              Hres Hok Hreal)
    as (d & Hd & Hresp & Hmeth & Hpath & _ & Hrs & Hdcgi).
  rewrite (bind_bind_run _ _ _ _ _ _ _ _ _ Hd).
  assert (Hrun : respond o flag false d
                   (mk_conn rest (tr ++ [Checkuri uri]))
                 = (Ret (headers_rc o r, r),
                    mk_conn rest
                      (tr ++ Checkuri uri :: Write ("HTTP/1.0 200 OK" ++ CRLF)
                          :: headers_writes o r))).
  { unfold respond. rewrite Hresp, Hmeth, Hdcgi, Hcgi, Hrs.
    cbn [init_response Response.code Z.eqb RESPONSE_STATUS_OK Pos.eqb
         REQUEST_METHOD_HEAD REQUEST_METHOD_GET andb orb negb].
    rewrite (set_entity_body_headers_ok _ _ _ Hstat). cbn [snd].
    unfold bind at 1, ret at 1. unfold bind at 1.
    rewrite coderesp_full by (cbn; discriminate).
    cbn [input trace]. rewrite app_trace_assoc. reflexivity. }
  cbn [input trace]. rewrite (bind_run _ _ _ _ _ _ _ Hrun).
  split; [reflexivity|]. split; [reflexivity|]. split.
  { unfold headers_writes.
    destruct (coderesp_headers_text o r) as [text|] eqn:T; [right|now left].
    destruct (coderesp_headers_text_some _ _ _ T) as (now & Hnow & ->).
    exists now. split; [exact Hnow|]. reflexivity. }
  intros now modified mime Hnow Hmod Hne Hmime Hlen Hsize.
  unfold headers_writes.
  assert (Hct : Response.content_type r = mime).
  { subst r. unfold entity_response, mime_type. cbn [Response.content_type].
    rewrite Hmime.
    destruct (64 <? strlen mime + 1) eqn:E;
      [apply Z.ltb_lt in E; lia | reflexivity]. }
  assert (Hcl : Response.content_length r = st_size sb).
  { subst r. unfold entity_response, to_int. cbn [Response.content_length].
    unfold INT_MAX in Hsize.
    rewrite Z.mod_small by lia. lia. }
  rewrite (coderesp_headers_text_entity o r now modified); try assumption.
  - rewrite Hct, Hcl.
    destruct (0 <? strlen mime) eqn:E;
      [now rewrite !append_assoc | apply Z.ltb_ge in E; lia].
  - rewrite Hct. lia.
  - rewrite Hcl. lia.
Qed.

(* ================================================================== *)
(** * Calendar arithmetic *)
(* ================================================================== *)

Lemma all_from_spec : forall n z f,
  all_from n z f = true ->
  forall k, z <= k < z + Z.of_nat n -> f k = true.
Proof.
  induction n as [|n IH]; intros z f H k Hk.
  - lia.
  - cbn [all_from] in H. apply andb_prop in H as [H0 H1].
    destruct (Z.eq_dec k z) as [->|Hne]; [exact H0|].
    apply (IH (z + 1) f H1). lia.
Qed.

Lemma doe_round_trip_era : all_from (Z.to_nat 146097) 0 doe_round_trip = true.
Proof. vm_compute. reflexivity. Qed.

Lemma civil_of_doe_inverse : forall doe yoe m d,
  0 <= doe < 146097 ->
  civil_of_doe doe = (yoe, m, d) ->
  0 <= yoe < 400 /\ 1 <= m <= 12 /\ 1 <= d <= 31
  /\ doe_of_civil yoe m d = doe
  /\ (72989 <= doe -> 200 <= yoe + (if m <=? 2 then 1 else 0))
  /\ (doe < 146037 -> yoe + (if m <=? 2 then 1 else 0) <= 399).
Proof.
  intros doe yoe m d Hd E.
  pose proof (all_from_spec _ _ _ doe_round_trip_era doe ltac:(lia)) as K.
  unfold doe_round_trip in K. rewrite E in K.
  repeat (apply andb_prop in K as [K ?]).
  repeat match goal with
         | H : (_ <=? _) = true |- _ => apply Z.leb_le in H
         | H : (_ <? _) = true |- _ => apply Z.ltb_lt in H
         | H : (_ =? _) = true |- _ => apply Z.eqb_eq in H
         end.
  repeat split; lia.
Qed.

Lemma days_round_trip : forall z y m d,
  civil_from_days z = (y, m, d) ->
  1 <= m <= 12 /\ 1 <= d <= 31 /\ days_from_civil y m d = z.
Proof.
  intros z y m d. unfold civil_from_days.
  destruct (civil_of_doe ((z + 719468) mod 146097)) as [[yoe m'] d'] eqn:E.
  intros H; inversion H; subst; clear H.
  pose proof (Z.mod_pos_bound (z + 719468) 146097 ltac:(lia)) as Hb.
  destruct (civil_of_doe_inverse _ _ _ _ Hb E) as (Hy & Hm & Hd & Hdoe & _).
  split; [exact Hm|]. split; [exact Hd|].
  unfold days_from_civil.
  set (era := (z + 719468) / 146097) in *.
  assert (Hyear : (if m <=? 2
                   then yoe + era * 400 + (if m <=? 2 then 1 else 0) - 1
                   else yoe + era * 400 + (if m <=? 2 then 1 else 0))
                  = yoe + era * 400)
    by (destruct (m <=? 2); lia).
  rewrite Hyear.
  rewrite Z.div_add by lia. rewrite Z.mod_add by lia.
  rewrite Z.div_small, Z.mod_small by lia.
  rewrite Hdoe. subst era.
  pose proof (Z.div_mod (z + 719468) 146097 ltac:(lia)). lia.
Qed.

(** [timegm] undoes [gmtime_r]. *)
Lemma timegm_gmtime_r : forall t date,
  gmtime_r t = Some date -> timegm date = t.
Proof.
  intros t date. unfold gmtime_r.
  destruct (civil_from_days (t / 86400)) as [[y m] d] eqn:E.
  destruct (_ && _); [|discriminate].
  intros H; inversion H; subst; clear H.
  destruct (days_round_trip _ _ _ _ E) as (Hm & Hd & Hdays).
  unfold timegm.
  cbn [tm_year tm_mon tm_mday tm_hour tm_min tm_sec].
  rewrite Z.div_small, Z.mod_small by lia.
  replace (y - 1900 + 1900 + 0) with y by lia.
  replace (m - 1 + 1) with m by lia.
  rewrite Hdays.
  pose proof (Z.mod_pos_bound t 86400 ltac:(lia)).
  pose proof (Z.div_mod t 86400 ltac:(lia)).
  set (rem := t mod 86400) in *.
  pose proof (Z.div_mod rem 3600 ltac:(lia)).
  pose proof (Z.div_mod rem 60 ltac:(lia)).
  pose proof (Z.div_mod (rem / 60) 60 ltac:(lia)).
  pose proof (Z.mod_pos_bound rem 60 ltac:(lia)).
  pose proof (Z.mod_pos_bound (rem / 60) 60 ltac:(lia)).
  assert (rem / 3600 = rem / 60 / 60)
    by (rewrite Z.div_div by lia; reflexivity).
  lia.
Qed.

(** Where local time keeps one offset from UTC, a time is shifted by that
    offset on the server's scale. *)
Lemma local_to_gmtime_shift : forall tz t,
  gmtime_r t <> None -> local_to_gmtime (fixed_zone tz) t = t - tz.
Proof.
  intros tz t H. unfold local_to_gmtime, mktime, fixed_zone.
  destruct (gmtime_r t) as [date|] eqn:E; [|contradiction].
  rewrite <- (timegm_gmtime_r _ _ E). reflexivity.
Qed.

(* ================================================================== *)
(** * Printing and reading numbers *)
(* ================================================================== *)

Lemma digit_cases : forall k, 0 <= k <= 9 ->
  k = 0 \/ k = 1 \/ k = 2 \/ k = 3 \/ k = 4 \/ k = 5 \/ k = 6 \/ k = 7
  \/ k = 8 \/ k = 9.
Proof. intros; lia. Qed.

Lemma digit_char_facts : forall k, 0 <= k <= 9 ->
  isdigit (digit_char k) = true
  /\ isspace (digit_char k) = false
  /\ zchar (digit_char k) - 48 = k.
Proof.
  intros k H.
  destruct (digit_cases k H) as [E|[E|[E|[E|[E|[E|[E|[E|[E|E]]]]]]]]];
    subst k; repeat split.
Qed.

Lemma div_bounds : forall a b lo hi,
  0 < b -> lo * b <= a < (hi + 1) * b -> lo <= a / b <= hi.
Proof.
  intros a b lo hi Hb [H1 H2]. split.
  - apply Z.div_le_lower_bound; lia.
  - assert (a / b < hi + 1) by (apply Z.div_lt_upper_bound; lia). lia.
Qed.

Lemma fmt_u_step : forall fuel n acc,
  fmt_u (S fuel) n acc
  = if n / 10 =? 0 then String (digit_char (n mod 10)) acc
    else fmt_u fuel (n / 10) (String (digit_char (n mod 10)) acc).
Proof. reflexivity. Qed.

(** Two digits, as [%02d] prints them. *)
Lemma fmt_02d_digits : forall n, 0 <= n < 100 ->
  fmt_02d n
  = String (digit_char (n / 10)) (String (digit_char (n mod 10)) "").
Proof.
  intros n H. unfold fmt_02d, fmt_d.
  destruct (n <? 0) eqn:E0; [apply Z.ltb_lt in E0; lia|].
  change 20%nat with (S (S 18)). rewrite !fmt_u_step.
  destruct (n <? 10) eqn:E.
  - apply Z.ltb_lt in E.
    rewrite (Z.div_small n 10) by lia. cbn [Z.eqb].
    change (digit_char 0) with "0"%char. reflexivity.
  - apply Z.ltb_ge in E.
    assert (H1 : n / 10 <> 0) by (intros Hz; apply Z.div_small_iff in Hz; lia).
    apply Z.eqb_neq in H1. rewrite H1.
    assert (H2 : n / 10 / 10 = 0)
      by (rewrite Z.div_div by lia; apply Z.div_small; lia).
    rewrite H2. cbn [Z.eqb]. rewrite (Z.mod_small (n / 10)); [reflexivity|].
    assert (0 <= n / 10 <= 9) by (apply div_bounds; lia). lia.
Qed.

(** Four digits, as [%d] prints a year from 1000 to 9999. *)
Lemma fmt_d_four_digits : forall y, 1000 <= y <= 9999 ->
  fmt_d y
  = String (digit_char (y / 10 / 10 / 10))
      (String (digit_char (y / 10 / 10 mod 10))
         (String (digit_char (y / 10 mod 10))
            (String (digit_char (y mod 10)) ""))).
Proof.
  intros y H. unfold fmt_d.
  destruct (y <? 0) eqn:E0; [apply Z.ltb_lt in E0; lia|].
  change 20%nat with (S (S (S (S 16)))). rewrite !fmt_u_step.
  assert (H1 : y / 10 <> 0) by (intros Hz; apply Z.div_small_iff in Hz; lia).
  assert (B1 : 100 <= y / 10 <= 999)
    by (apply div_bounds; lia).
  assert (H2 : y / 10 / 10 <> 0)
    by (intros Hz; apply Z.div_small_iff in Hz; lia).
  assert (B2 : 10 <= y / 10 / 10 <= 99)
    by (apply div_bounds; lia).
  assert (H3 : y / 10 / 10 / 10 <> 0)
    by (intros Hz; apply Z.div_small_iff in Hz; lia).
  assert (B3 : 1 <= y / 10 / 10 / 10 <= 9)
    by (apply div_bounds; lia).
  assert (H4 : y / 10 / 10 / 10 / 10 = 0) by (apply Z.div_small; lia).
  apply Z.eqb_neq in H1, H2, H3. rewrite H1, H2, H3, H4. cbn [Z.eqb].
  rewrite (Z.mod_small (y / 10 / 10 / 10)) by lia. reflexivity.
Qed.

Lemma fmt_d_two_digits : forall n, 10 <= n < 100 ->
  fmt_d n = String (digit_char (n / 10)) (String (digit_char (n mod 10)) "").
Proof.
  intros n H. rewrite <- fmt_02d_digits by lia. unfold fmt_02d.
  replace (n <? 10) with false by (symmetry; apply Z.ltb_ge; lia).
  reflexivity.
Qed.

Lemma fmt_d_one_digit : forall n, 0 <= n <= 9 ->
  fmt_d n = String (digit_char n) "".
Proof.
  intros n H. unfold fmt_d.
  replace (n <? 0) with false by (symmetry; apply Z.ltb_ge; lia).
  rewrite fmt_u_step. rewrite Z.div_small, Z.mod_small by lia. reflexivity.
Qed.

(** [get_number] reads back the two digits of a number within its
    range. *)
Lemma get_number_two_digits : forall from to n rest,
  0 <= n < 100 -> from <= n <= to ->
  get_number from to 2
    (String (digit_char (n / 10)) (String (digit_char (n mod 10)) rest))
  = Some (n, rest).
Proof.
  intros from to n rest Hn Hr.
  assert (B1 : 0 <= n / 10 <= 9) by (apply div_bounds; lia).
  pose proof (Z.mod_pos_bound n 10 ltac:(lia)) as B0.
  destruct (digit_char_facts (n / 10) B1) as (D1 & S1 & V1).
  destruct (digit_char_facts (n mod 10) ltac:(lia)) as (D0 & _ & V0).
  pose proof (Z.div_mod n 10 ltac:(lia)) as E.
  unfold get_number. cbn [skip_spaces]. rewrite S1, D1.
  cbn [Nat.pred get_digits]. rewrite D0, V1, V0.
  assert (L : (n / 10 * 10 <=? to) = true) by (apply Z.leb_le; lia).
  rewrite L. cbn [andb].
  replace (n / 10 * 10 + n mod 10) with n by lia.
  destruct (n <? from) eqn:E1; [apply Z.ltb_lt in E1; lia|].
  destruct (to <? n) eqn:E2; [apply Z.ltb_lt in E2; lia|].
  reflexivity.
Qed.

(** [get_number] reads back the four digits of a year. *)
Lemma get_number_four_digits : forall y rest,
  1000 <= y <= 9999 ->
  get_number 0 9999 4
    (String (digit_char (y / 10 / 10 / 10))
       (String (digit_char (y / 10 / 10 mod 10))
          (String (digit_char (y / 10 mod 10))
             (String (digit_char (y mod 10)) rest))))
  = Some (y, rest).
Proof.
  intros y rest H.
  assert (B1 : 100 <= y / 10 <= 999)
    by (apply div_bounds; lia).
  assert (B2 : 10 <= y / 10 / 10 <= 99)
    by (apply div_bounds; lia).
  assert (B3 : 1 <= y / 10 / 10 / 10 <= 9)
    by (apply div_bounds; lia).
  pose proof (Z.mod_pos_bound y 10 ltac:(lia)) as M0.
  pose proof (Z.mod_pos_bound (y / 10) 10 ltac:(lia)) as M1.
  pose proof (Z.mod_pos_bound (y / 10 / 10) 10 ltac:(lia)) as M2.
  pose proof (Z.div_mod y 10 ltac:(lia)) as E0.
  pose proof (Z.div_mod (y / 10) 10 ltac:(lia)) as E1.
  pose proof (Z.div_mod (y / 10 / 10) 10 ltac:(lia)) as E2.
  destruct (digit_char_facts (y / 10 / 10 / 10) ltac:(lia)) as (D3 & S3 & V3).
  destruct (digit_char_facts (y / 10 / 10 mod 10) ltac:(lia)) as (D2 & _ & V2).
  destruct (digit_char_facts (y / 10 mod 10) ltac:(lia)) as (D1 & _ & V1).
  destruct (digit_char_facts (y mod 10) ltac:(lia)) as (D0 & _ & V0).
  unfold get_number. cbn [skip_spaces]. rewrite S3, D3.
  cbn [Nat.pred get_digits]. rewrite D2, D1, D0, V3, V2, V1, V0.
  set (a := y / 10 / 10 / 10) in *.
  set (b := y / 10 / 10 mod 10) in *.
  set (c := y / 10 mod 10) in *.
  set (d := y mod 10) in *.
  assert (L1 : (a * 10 <=? 9999) = true) by (apply Z.leb_le; lia).
  assert (L2 : ((a * 10 + b) * 10 <=? 9999) = true) by (apply Z.leb_le; lia).
  assert (L3 : (((a * 10 + b) * 10 + c) * 10 <=? 9999) = true)
    by (apply Z.leb_le; lia).
  rewrite L1, L2, L3. cbn [andb].
  replace (((a * 10 + b) * 10 + c) * 10 + d) with y by lia.
  destruct (y <? 0) eqn:F1; [apply Z.ltb_lt in F1; lia|].
  destruct (9999 <? y) eqn:F2; [apply Z.ltb_lt in F2; lia|].
  reflexivity.
Qed.

Lemma fmt_d_three_digits : forall y, 100 <= y <= 999 ->
  fmt_d y
  = String (digit_char (y / 10 / 10))
      (String (digit_char (y / 10 mod 10))
         (String (digit_char (y mod 10)) "")).
Proof.
  intros y H. unfold fmt_d.
  destruct (y <? 0) eqn:E0; [apply Z.ltb_lt in E0; lia|].
  change 20%nat with (S (S (S 17))). rewrite !fmt_u_step.
  assert (H1 : y / 10 <> 0) by (intros Hz; apply Z.div_small_iff in Hz; lia).
  assert (B1 : 10 <= y / 10 <= 99) by (apply div_bounds; lia).
  assert (H2 : y / 10 / 10 <> 0)
    by (intros Hz; apply Z.div_small_iff in Hz; lia).
  assert (B2 : 1 <= y / 10 / 10 <= 9) by (apply div_bounds; lia).
  assert (H3 : y / 10 / 10 / 10 = 0) by (apply Z.div_small; lia).
  apply Z.eqb_neq in H1, H2. rewrite H1, H2, H3. cbn [Z.eqb].
  rewrite (Z.mod_small (y / 10 / 10)) by lia. reflexivity.
Qed.

Lemma to_int_small : forall z, INT_MIN <= z <= INT_MAX -> to_int z = z.
Proof.
  intros z H. unfold to_int. unfold INT_MIN, INT_MAX in H.
  rewrite Z.mod_small by lia. lia.
Qed.

(** [get_digits] stops at the space that follows the digits. *)
Lemma get_digits_space : forall n to val rest,
  get_digits n to val (String " " rest) = (val, String " " rest).
Proof. intros [|n] to val rest; reflexivity. Qed.

(** [%Y] reads back a year of up to four digits that a space follows. *)
Lemma get_number_year : forall y rest,
  0 <= y <= 9999 ->
  get_number 0 9999 4 (fmt_d y ++ String " " rest)
  = Some (y, String " " rest).
Proof.
  intros y rest H.
  assert (R : (y <? 0) || (9999 <? y) = false).
  { apply orb_false_intro; [apply Z.ltb_ge | apply Z.ltb_ge]; lia. }
  destruct (Z_lt_le_dec y 10) as [C1|C1];
    [|destruct (Z_lt_le_dec y 100) as [C2|C2];
      [|destruct (Z_lt_le_dec y 1000) as [C3|C3]]].
  - rewrite fmt_d_one_digit by lia. cbn [append].
    destruct (digit_char_facts y ltac:(lia)) as (D & S & V).
    unfold get_number. cbn [skip_spaces]. rewrite S, D, V.
    rewrite get_digits_space, R. reflexivity.
  - rewrite fmt_d_two_digits by lia. cbn [append].
    assert (B1 : 1 <= y / 10 <= 9) by (apply div_bounds; lia).
    pose proof (Z.mod_pos_bound y 10 ltac:(lia)) as B0.
    pose proof (Z.div_mod y 10 ltac:(lia)) as E.
    destruct (digit_char_facts (y / 10) ltac:(lia)) as (D1 & S1 & V1).
    destruct (digit_char_facts (y mod 10) ltac:(lia)) as (D0 & _ & V0).
    unfold get_number. cbn [skip_spaces]. rewrite S1, D1.
    cbn [Nat.pred get_digits]. rewrite D0, V1, V0.
    assert (L : (y / 10 * 10 <=? 9999) = true) by (apply Z.leb_le; lia).
    rewrite L. change (isdigit " ") with false. cbn [andb].
    replace (y / 10 * 10 + y mod 10) with y by lia.
    rewrite R. reflexivity.
  - rewrite fmt_d_three_digits by lia. cbn [append].
    assert (B1 : 10 <= y / 10 <= 99) by (apply div_bounds; lia).
    assert (B2 : 1 <= y / 10 / 10 <= 9) by (apply div_bounds; lia).
    pose proof (Z.mod_pos_bound y 10 ltac:(lia)) as M0.
    pose proof (Z.mod_pos_bound (y / 10) 10 ltac:(lia)) as M1.
    pose proof (Z.div_mod y 10 ltac:(lia)) as E0.
    pose proof (Z.div_mod (y / 10) 10 ltac:(lia)) as E1.
    destruct (digit_char_facts (y / 10 / 10) ltac:(lia)) as (D2 & S2 & V2).
    destruct (digit_char_facts (y / 10 mod 10) ltac:(lia)) as (D1 & _ & V1).
    destruct (digit_char_facts (y mod 10) ltac:(lia)) as (D0 & _ & V0).
    unfold get_number. cbn [skip_spaces]. rewrite S2, D2.
    cbn [Nat.pred get_digits]. rewrite D1, D0, V2, V1, V0.
    set (a := y / 10 / 10) in *. set (b := y / 10 mod 10) in *.
    set (c := y mod 10) in *.
    assert (L1 : (a * 10 <=? 9999) = true) by (apply Z.leb_le; lia).
    assert (L2 : ((a * 10 + b) * 10 <=? 9999) = true) by (apply Z.leb_le; lia).
    rewrite L1, L2. change (isdigit " ") with false. cbn [andb].
    replace ((a * 10 + b) * 10 + c) with y by lia.
    rewrite R. reflexivity.
  - rewrite fmt_d_four_digits by lia. cbn [append].
    apply get_number_four_digits. lia.
Qed.

(** A year of up to four digits starts with a digit and has no more than
    four characters. *)
Lemma fmt_d_year : forall y, 0 <= y <= 9999 ->
  strlen (fmt_d y) <= 4
  /\ exists k s, 0 <= k <= 9 /\ fmt_d y = String (digit_char k) s.
Proof.
  intros y H.
  destruct (Z_lt_le_dec y 10) as [C1|C1];
    [|destruct (Z_lt_le_dec y 100) as [C2|C2];
      [|destruct (Z_lt_le_dec y 1000) as [C3|C3]]].
  - rewrite fmt_d_one_digit by lia. split; [cbn; lia|].
    exists y, "". split; [lia | reflexivity].
  - rewrite fmt_d_two_digits by lia. split; [cbn; lia|].
    assert (B1 : 1 <= y / 10 <= 9) by (apply div_bounds; lia).
    eexists _, _. split; [|reflexivity]. lia.
  - rewrite fmt_d_three_digits by lia. split; [cbn; lia|].
    assert (B1 : 10 <= y / 10 <= 99) by (apply div_bounds; lia).
    assert (B2 : 1 <= y / 10 / 10 <= 9) by (apply div_bounds; lia).
    eexists _, _. split; [|reflexivity]. lia.
  - rewrite fmt_d_four_digits by lia. split; [cbn; lia|].
    assert (B1 : 100 <= y / 10 <= 999) by (apply div_bounds; lia).
    assert (B2 : 10 <= y / 10 / 10 <= 99) by (apply div_bounds; lia).
    assert (B3 : 1 <= y / 10 / 10 / 10 <= 9) by (apply div_bounds; lia).
    eexists _, _. split; [|reflexivity]. lia.
Qed.

(* ================================================================== *)
(** * Reading back an RFC 1123 date *)
(* ================================================================== *)

Lemma weekday_cases : forall w, 0 <= w <= 6 ->
  w = 0 \/ w = 1 \/ w = 2 \/ w = 3 \/ w = 4 \/ w = 5 \/ w = 6.
Proof. intros; lia. Qed.

Lemma month_cases : forall m, 0 <= m <= 11 ->
  m = 0 \/ m = 1 \/ m = 2 \/ m = 3 \/ m = 4 \/ m = 5 \/ m = 6 \/ m = 7
  \/ m = 8 \/ m = 9 \/ m = 10 \/ m = 11.
Proof. intros; lia. Qed.

(** [%a] reads an abbreviated weekday name that a comma follows. *)
Lemma strptime_conv_weekday : forall w rest t,
  0 <= w <= 6 ->
  strptime_conv "a"
    (nth (Z.to_nat w) ab_weekday_name "?" ++ String "," rest) t
  = Some (String "," rest, set_wday w t).
Proof.
  intros w rest t H.
  destruct (weekday_cases w H) as [E|[E|[E|[E|[E|[E|E]]]]]]; subst w;
    vm_compute; reflexivity.
Qed.

(** [%b] reads an abbreviated month name that a space follows. *)
Lemma strptime_conv_month : forall m rest t,
  0 <= m <= 11 ->
  strptime_conv "b"
    (nth (Z.to_nat m) ab_month_name "?" ++ String " " rest) t
  = Some (String " " rest, set_mon m t).
Proof.
  intros m rest t H.
  destruct (month_cases m H)
    as [E|[E|[E|[E|[E|[E|[E|[E|[E|[E|[E|E]]]]]]]]]]]; subst m;
    try (vm_compute; reflexivity).
  (* "May" is both the full and the abbreviated name *)
  cbv -[Nat.ltb]. rewrite Nat.ltb_irrefl. reflexivity.
Qed.

(** The comma of an RFC 1123 date comes after three letters. *)
Lemma strchr_weekday : forall w rest,
  0 <= w <= 6 ->
  strchr (nth (Z.to_nat w) ab_weekday_name "?" ++ String "," rest) ","
  = Some 3%nat.
Proof.
  intros w rest H.
  destruct (weekday_cases w H) as [E|[E|[E|[E|[E|[E|E]]]]]]; subst w;
    vm_compute; reflexivity.
Qed.

Lemma strptime_go_conv : forall c fmt rp t,
  strptime_go (String "%" (String c fmt)) rp t
  = match strptime_conv c rp t with
    | Some (rp', t') => strptime_go fmt rp' t'
    | None => None
    end.
Proof. reflexivity. Qed.

Lemma strptime_go_space : forall fmt rp t,
  strptime_go (String " " fmt) rp t = strptime_go fmt (skip_spaces rp) t.
Proof. reflexivity. Qed.

Lemma strptime_go_literal : forall c fmt rp t,
  isspace c = false -> Ascii.eqb c "%" = false ->
  strptime_go (String c fmt) (String c rp) t = strptime_go fmt rp t.
Proof.
  intros c fmt rp t Hs Hp. cbn [strptime_go].
  now rewrite Hs, Hp, Ascii.eqb_refl.
Qed.

Lemma skip_spaces_digit : forall k rest, 0 <= k <= 9 ->
  skip_spaces (String " " (String (digit_char k) rest))
  = String (digit_char k) rest.
Proof.
  intros k rest H. destruct (digit_char_facts k H) as (_ & S & _).
  cbn [skip_spaces]. change (isspace " ") with true. cbv iota.
  now rewrite S.
Qed.

Lemma conv_number_two_digits : forall from to store n rest t,
  0 <= n < 100 -> from <= n <= to ->
  conv_number from to 2 store
    (String (digit_char (n / 10)) (String (digit_char (n mod 10)) rest)) t
  = Some (rest, store n t).
Proof.
  intros. unfold conv_number. now rewrite get_number_two_digits.
Qed.

(** [strptime] reads back what [strftime] prints in the RFC 1123 format. *)
Lemma strptime_rfc1123 : forall ss mi hh mday mon year wday,
  0 <= ss <= 59 -> 0 <= mi <= 59 -> 0 <= hh <= 23 ->
  1 <= mday <= 31 -> 0 <= mon <= 11 -> 0 <= year <= 9999 ->
  0 <= wday <= 6 ->
  strptime
    (nth (Z.to_nat wday) ab_weekday_name "?" ++ ", " ++
     fmt_02d mday ++ " " ++
     nth (Z.to_nat mon) ab_month_name "?" ++ " " ++
     fmt_d year ++ " " ++
     fmt_02d hh ++ ":" ++ fmt_02d mi ++ ":" ++ fmt_02d ss ++ " GMT")
    "%a, %d %b %Y %H:%M:%S GMT" tm_zero
  = Some (mk_tm ss mi hh mday mon (year - 1900) wday 0 0).
Proof.
  intros ss mi hh mday mon year wday Hs Hmi Hh Hd Hmo Hy Hw.
  assert (Bd : 0 <= mday / 10 <= 9) by (apply div_bounds; lia).
  assert (Bh : 0 <= hh / 10 <= 9) by (apply div_bounds; lia).
  destruct (fmt_d_year year Hy) as (_ & k & s & Hk & Hf).
  pose proof (get_number_year year) as Hget. rewrite Hf in Hget.
  rewrite !fmt_02d_digits by lia. rewrite Hf.
  cbn [append] in *. unfold strptime.
  rewrite strptime_go_conv.
  rewrite strptime_conv_weekday by lia.
  rewrite strptime_go_literal by reflexivity.
  rewrite strptime_go_space, skip_spaces_digit
    by lia.
  rewrite strptime_go_conv. unfold strptime_conv at 1.
  cbn [Ascii.eqb Bool.eqb orb].
  rewrite conv_number_two_digits by lia.
  rewrite strptime_go_space. cbn [skip_spaces].
  change (isspace " ") with true. cbv iota.
  assert (Hskip : forall rest,
             skip_spaces (nth (Z.to_nat mon) ab_month_name "?"
                          ++ String " " rest)
             = nth (Z.to_nat mon) ab_month_name "?" ++ String " " rest).
  { intros rest.
    destruct (month_cases mon Hmo)
      as [E|[E|[E|[E|[E|[E|[E|[E|[E|[E|[E|E]]]]]]]]]]]; subst mon;
      reflexivity. }
  rewrite Hskip.
  rewrite strptime_go_conv, strptime_conv_month by lia.
  rewrite strptime_go_space, skip_spaces_digit
    by lia.
  rewrite strptime_go_conv. unfold strptime_conv at 1.
  cbn [Ascii.eqb Bool.eqb orb]. unfold conv_number.
  rewrite (Hget (String (digit_char (hh / 10)) _)) by lia.
  rewrite strptime_go_space, skip_spaces_digit
    by lia.
  rewrite strptime_go_conv. unfold strptime_conv at 1.
  cbn [Ascii.eqb Bool.eqb orb].
  rewrite conv_number_two_digits by lia.
  rewrite strptime_go_literal by reflexivity.
  rewrite strptime_go_conv. unfold strptime_conv at 1.
  cbn [Ascii.eqb Bool.eqb orb].
  rewrite conv_number_two_digits by lia.
  rewrite strptime_go_literal by reflexivity.
  rewrite strptime_go_conv. unfold strptime_conv at 1.
  cbn [Ascii.eqb Bool.eqb orb].
  rewrite conv_number_two_digits by lia.
  reflexivity.
Qed.

(* ================================================================== *)
(** * HTTP dates *)
(* ================================================================== *)

Lemma civil_year_range : forall z y m d,
  -354285 <= z < 2932897 ->
  civil_from_days z = (y, m, d) ->
  1000 <= y <= 9999.
Proof.
  intros z y m d Hz. unfold civil_from_days.
  destruct (civil_of_doe ((z + 719468) mod 146097)) as [[yoe m'] d'] eqn:E.
  intros H; inversion H; subst; clear H.
  pose proof (Z.mod_pos_bound (z + 719468) 146097 ltac:(lia)) as Hb.
  destruct (civil_of_doe_inverse _ _ _ _ Hb E) as (Hy & Hm & Hd & _ & Lo & Hi).
  pose proof (Z.div_mod (z + 719468) 146097 ltac:(lia)) as Hdm.
  set (era := (z + 719468) / 146097) in *.
  set (doe := (z + 719468) mod 146097) in *.
  assert (2 <= era <= 24) by lia.
  destruct (m <=? 2); lia.
Qed.

Lemma doe_year_end_days : all_from 60 146037 doe_year_end = true.
Proof. vm_compute. reflexivity. Qed.

(** From 1 January of the year 0 on, and before the year 10000. *)
Lemma civil_year_range_0 : forall z y m d,
  -719528 <= z < 2932897 ->
  civil_from_days z = (y, m, d) ->
  0 <= y <= 9999.
Proof.
  intros z y m d Hz. unfold civil_from_days.
  destruct (civil_of_doe ((z + 719468) mod 146097)) as [[yoe m'] d'] eqn:E.
  intros H; inversion H; subst; clear H.
  pose proof (Z.mod_pos_bound (z + 719468) 146097 ltac:(lia)) as Hb.
  destruct (civil_of_doe_inverse _ _ _ _ Hb E) as (Hy & Hm & Hd & _ & Lo & Hi).
  pose proof (Z.div_mod (z + 719468) 146097 ltac:(lia)) as Hdm.
  set (era := (z + 719468) / 146097) in *.
  set (doe := (z + 719468) mod 146097) in *.
  assert (He : -1 <= era <= 24) by lia.
  assert (K : era = -1 -> 400 <= yoe + (if m <=? 2 then 1 else 0)).
  { intros Hera.
    pose proof (all_from_spec _ _ _ doe_year_end_days doe ltac:(lia)) as K.
    unfold doe_year_end in K. rewrite E in K. apply Z.leb_le in K. exact K. }
  destruct (Z.eq_dec era (-1)) as [Hera|Hera].
  - specialize (K Hera). destruct (m <=? 2); lia.
  - destruct (m <=? 2); lia.
Qed.

(** The fields that [gmtime_r] fills. *)
Lemma gmtime_r_fields : forall t,
  YEAR_1000 <= t < YEAR_10000 ->
  exists date,
    gmtime_r t = Some date
    /\ 0 <= tm_sec date <= 59 /\ 0 <= tm_min date <= 59
    /\ 0 <= tm_hour date <= 23 /\ 1 <= tm_mday date <= 31
    /\ 0 <= tm_mon date <= 11 /\ 1000 <= tm_year date + 1900 <= 9999
    /\ 0 <= tm_wday date <= 6.
Proof.
  intros t Ht. unfold YEAR_1000, YEAR_10000 in Ht. unfold gmtime_r.
  destruct (civil_from_days (t / 86400)) as [[y m] d] eqn:E.
  assert (Hdays : -354285 <= t / 86400 < 2932897).
  { pose proof (Z.div_mod t 86400 ltac:(lia)).
    pose proof (Z.mod_pos_bound t 86400 ltac:(lia)). lia. }
  pose proof (civil_year_range _ _ _ _ Hdays E) as Hy.
  destruct (days_round_trip _ _ _ _ E) as (Hm & Hd & _).
  assert (Hint : (INT_MIN <=? y - 1900) && (y - 1900 <=? INT_MAX) = true).
  { unfold INT_MIN, INT_MAX. apply andb_true_intro.
    split; apply Z.leb_le; lia. }
  rewrite Hint. eexists. split; [reflexivity|].
  cbn [tm_sec tm_min tm_hour tm_mday tm_mon tm_year tm_wday].
  pose proof (Z.mod_pos_bound t 86400 ltac:(lia)) as Hr.
  set (rem := t mod 86400) in *.
  pose proof (Z.mod_pos_bound rem 60 ltac:(lia)).
  pose proof (Z.mod_pos_bound (rem / 60) 60 ltac:(lia)).
  pose proof (Z.mod_pos_bound (t / 86400 + 4) 7 ltac:(lia)).
  assert (0 <= rem / 3600 <= 23) by (apply div_bounds; lia).
  lia.
Qed.

(** The same from the year 0 on; [gmtime_r] clears [tm_isdst]. *)
Lemma gmtime_r_fields_0 : forall t,
  YEAR_0 <= t < YEAR_10000 ->
  exists date,
    gmtime_r t = Some date
    /\ 0 <= tm_sec date <= 59 /\ 0 <= tm_min date <= 59
    /\ 0 <= tm_hour date <= 23 /\ 1 <= tm_mday date <= 31
    /\ 0 <= tm_mon date <= 11 /\ 0 <= tm_year date + 1900 <= 9999
    /\ 0 <= tm_wday date <= 6 /\ tm_isdst date = 0.
Proof.
  intros t Ht. unfold YEAR_0, YEAR_10000 in Ht. unfold gmtime_r.
  destruct (civil_from_days (t / 86400)) as [[y m] d] eqn:E.
  assert (Hdays : -719528 <= t / 86400 < 2932897).
  { pose proof (Z.div_mod t 86400 ltac:(lia)).
    pose proof (Z.mod_pos_bound t 86400 ltac:(lia)). lia. }
  pose proof (civil_year_range_0 _ _ _ _ Hdays E) as Hy.
  destruct (days_round_trip _ _ _ _ E) as (Hm & Hd & _).
  assert (Hint : (INT_MIN <=? y - 1900) && (y - 1900 <=? INT_MAX) = true).
  { unfold INT_MIN, INT_MAX. apply andb_true_intro.
    split; apply Z.leb_le; lia. }
  rewrite Hint. eexists. split; [reflexivity|].
  cbn [tm_sec tm_min tm_hour tm_mday tm_mon tm_year tm_wday tm_isdst].
  pose proof (Z.mod_pos_bound t 86400 ltac:(lia)) as Hr.
  set (rem := t mod 86400) in *.
  pose proof (Z.mod_pos_bound rem 60 ltac:(lia)).
  pose proof (Z.mod_pos_bound (rem / 60) 60 ltac:(lia)).
  pose proof (Z.mod_pos_bound (t / 86400 + 4) 7 ltac:(lia)).
  assert (0 <= rem / 3600 <= 23) by (apply div_bounds; lia).
  lia.
Qed.

(** The date that [time_to_http_date] writes, and the structure that
    [http_date_to_time] reads from it: the fields that [gmtime_r] filled,
    [tm_yday] apart, which no conversion of the format sets. *)
Lemma http_date_round_trip_tm : forall t,
  YEAR_0 <= t < YEAR_10000 ->
  exists date g,
    time_to_http_date t 128 = Some date
    /\ gmtime_r t = Some g
    /\ http_date_tm date
       = Some (mk_tm (tm_sec g) (tm_min g) (tm_hour g) (tm_mday g)
                 (tm_mon g) (tm_year g) (tm_wday g) 0 0)
    /\ tm_isdst g = 0.
Proof.
  intros t Ht.
  destruct (gmtime_r_fields_0 t Ht)
    as (g & Hg & Hs & Hmi & Hh & Hd & Hmo & Hy & Hw & Hdst).
  set (date :=
         nth (Z.to_nat (tm_wday g)) ab_weekday_name "?" ++ ", " ++
         fmt_02d (tm_mday g) ++ " " ++
         nth (Z.to_nat (tm_mon g)) ab_month_name "?" ++ " " ++
         fmt_d (tm_year g + 1900) ++ " " ++
         fmt_02d (tm_hour g) ++ ":" ++ fmt_02d (tm_min g) ++ ":" ++
         fmt_02d (tm_sec g) ++ " GMT").
  exists date, g.
  split; [|split; [exact Hg|split; [|exact Hdst]]].
  - unfold time_to_http_date. rewrite Hg. unfold strftime_rfc1123.
    rewrite to_int_small by (unfold INT_MIN, INT_MAX; lia).
    fold date.
    assert (L : strlen date <= 29).
    { subst date. rewrite !fmt_02d_digits by lia. rewrite !strlen_append.
      destruct (fmt_d_year _ Hy) as [Ly _].
      assert (La : strlen (nth (Z.to_nat (tm_wday g)) ab_weekday_name "?")
                   = 3)
        by (destruct (weekday_cases _ Hw) as [E|[E|[E|[E|[E|[E|E]]]]]];
            rewrite E; reflexivity).
      assert (Lb : strlen (nth (Z.to_nat (tm_mon g)) ab_month_name "?") = 3)
        by (destruct (month_cases _ Hmo)
              as [F|[F|[F|[F|[F|[F|[F|[F|[F|[F|[F|F]]]]]]]]]]]; rewrite F;
            reflexivity).
      unfold strlen in *. cbn [String.length]. lia. }
    replace (strlen date <? 128) with true
      by (symmetry; apply Z.ltb_lt; lia).
    reflexivity.
  - unfold http_date_tm.
    assert (C : strchr date "," = Some 3%nat).
    { subst date. change (", " ++ ?x) with (String "," (" " ++ x)).
      apply strchr_weekday. exact Hw. }
    rewrite C. cbn [Z.of_nat Pos.of_succ_nat Pos.succ Z.eqb Pos.eqb].
    subst date.
    rewrite (strptime_rfc1123 (tm_sec g) (tm_min g) (tm_hour g) (tm_mday g)
               (tm_mon g) (tm_year g + 1900) (tm_wday g)) by assumption.
    replace (tm_year g + 1900 - 1900) with (tm_year g) by lia. reflexivity.
Qed.

(** What [http_date_to_time] makes of the date that [time_to_http_date]
    writes for a time is what [local_to_gmtime] makes of the time: [mktime]
    is handed the same fields. *)
Lemma http_date_to_time_round_trip : forall zone t,
  YEAR_0 <= t < YEAR_10000 ->
  exists date,
    time_to_http_date t 128 = Some date
    /\ http_date_to_time zone date
       = (if local_to_gmtime zone t =? -1 then None
          else Some (local_to_gmtime zone t)).
Proof.
  intros zone t Ht.
  destruct (http_date_round_trip_tm t Ht) as (date & g & Hd & Hg & Htm & Hdst).
  exists date. split; [exact Hd|].
  unfold http_date_to_time, local_to_gmtime. rewrite Htm, Hg.
  unfold mktime. cbn [tm_sec tm_min tm_hour tm_mday tm_mon tm_year tm_isdst].
  rewrite Hdst. reflexivity.
Qed.

(** C8 (as amended): for every time [t] from the year 0 to the year 9999,
    [time_to_http_date] succeeds, and [http_date_to_time] applied to its
    result yields what [mktime] answers for the GMT fields of [t] read as
    local time, which is the value of [local_to_gmtime] at [t]; when that
    value is -1 the parser reports a failure.  Where local time keeps one
    offset from UTC, the value is [t] less the offset, hence [t] itself
    under UTC. *)
Theorem http_date_round_trip_is_local_to_gmtime :
  forall zone t,
    YEAR_0 <= t < YEAR_10000 ->
    exists date,
      time_to_http_date t 128 = Some date
      /\ http_date_to_time zone date
         = (if local_to_gmtime zone t =? -1 then None
            else Some (local_to_gmtime zone t))
      /\ forall tz, local_to_gmtime (fixed_zone tz) t = t - tz.
Proof.
  intros zone t Ht.
  destruct (http_date_to_time_round_trip zone t Ht) as (date & Hd & Hp).
  exists date. split; [exact Hd|]. split; [exact Hp|].
  intros tz. apply local_to_gmtime_shift.
  destruct (gmtime_r_fields_0 t Ht) as (g & Hg & _). rewrite Hg. discriminate.
Qed.

Lemma http_date_round_trip_is_local_to_gmtime_witness :
  exists date,
    time_to_http_date 1325332800 128 = Some date
    /\ http_date_to_time apia_zone date
       = (if local_to_gmtime apia_zone 1325332800 =? -1 then None
          else Some (local_to_gmtime apia_zone 1325332800))
    /\ forall tz, local_to_gmtime (fixed_zone tz) 1325332800
                  = 1325332800 - tz.
Proof.
  apply (http_date_round_trip_is_local_to_gmtime apia_zone 1325332800).
  unfold YEAR_0, YEAR_10000. lia.
Defined.

(** C8 as stated fails on the code: where local time is five hours behind
    UTC the epoch comes back as 18000; one second before the epoch does
    not come back at all, even under UTC, nor do the last second before
    the year 0 and the first second of the year 10000. *)
Lemma http_date_round_trip_is_not_the_identity :
  (time_to_http_date 0 128 = Some "Thu, 01 Jan 1970 00:00:00 GMT"
   /\ http_date_to_time (fixed_zone (-18000)) "Thu, 01 Jan 1970 00:00:00 GMT"
      = Some 18000)
  /\ (time_to_http_date (-1) 128 = Some "Wed, 31 Dec 1969 23:59:59 GMT"
      /\ http_date_to_time (fixed_zone 0) "Wed, 31 Dec 1969 23:59:59 GMT"
         = None)
  /\ (time_to_http_date (YEAR_0 - 1) 128
      = Some "Fri, 31 Dec -1 23:59:59 GMT"
      /\ http_date_to_time (fixed_zone 0) "Fri, 31 Dec -1 23:59:59 GMT"
         = None)
  /\ (time_to_http_date YEAR_10000 128
      = Some "Sat, 01 Jan 10000 00:00:00 GMT"
      /\ http_date_to_time (fixed_zone 0) "Sat, 01 Jan 10000 00:00:00 GMT"
         = None).
Proof. vm_compute. repeat split. Qed.

(* ================================================================== *)
(** * Conditional GET *)
(* ================================================================== *)

(** Where local time keeps one offset from UTC, what [http_date_to_time]
    stores is the instant of the date shifted by that offset, and never
    -1. *)
Lemma http_date_to_time_instant : forall tz date stored instant,
  http_date_to_time (fixed_zone tz) date = Some stored ->
  http_date_instant date = Some instant ->
  stored = instant - tz /\ stored <> -1.
Proof.
  intros tz date stored instant. unfold http_date_to_time, http_date_instant.
  destruct (http_date_tm date) as [tm|]; [|discriminate].
  unfold mktime, fixed_zone. cbn [option_map].
  change (timegm (mk_tm (tm_sec tm) (tm_min tm) (tm_hour tm) (tm_mday tm)
                    (tm_mon tm) (tm_year tm) 0 0 (tm_isdst tm)))
    with (timegm tm).
  destruct (timegm tm - tz =? -1) eqn:E; [discriminate|].
  intros H1 H2. inversion H1; inversion H2; subst.
  apply Z.eqb_neq in E. split; [reflexivity | exact E].
Qed.

Lemma bind_outer : forall A B (m : M A) (k : A -> M B) c,
  bind m k c
  = match m c with
    | (Ret a, c') => k a c'
    | (Exit, c') => (Exit, c')
    | (Killed, c') => (Killed, c')
    | (Blocked, c') => (Blocked, c')
    | (Undef, c') => (Undef, c')
    end.
Proof. reflexivity. Qed.

Lemma httpd_process_two : forall o flag buf t0 t1,
  request_tokens buf = [t0; t1] ->
  httpd_process o flag buf
  = bind (dispatch o flag (parsed_request (os_zone o) buf)
            (header_parsing_failed (os_zone o) buf) [t0; t1])
         (respond o flag true).
Proof.
  intros o flag buf t0 t1 H. unfold httpd_process.
  unfold request_tokens in H.
  pose proof (parse_headers_pair (os_zone o) buf) as P.
  unfold header_lines in P.
  destruct (strtok_all buf CRLF) as [|rl hl]; [discriminate|].
  cbn [tl] in P. rewrite P, H. reflexivity.
Qed.

(** [respond] on a GET that resolved to a target outside CGI: the entity
    headers are taken from [stat] and [fileserver] does the rest. *)
Lemma respond_get_ok : forall o flag simple d target sb,
  d_response d = init_response RESPONSE_STATUS_OK ->
  Request.method (d_newreq d) = REQUEST_METHOD_GET ->
  d_cgi_request d = false ->
  d_realpath_str d = Some target ->
  stat o target = Some sb ->
  respond o flag simple d
  = fileserver o (d_newreq d) (entity_response o target sb) simple.
Proof.
  intros o flag simple d target sb Hresp Hmeth Hcgi Hrs Hstat.
  unfold respond. rewrite Hresp, Hmeth, Hcgi, Hrs.
  cbn [init_response Response.code Z.eqb RESPONSE_STATUS_OK Pos.eqb
       REQUEST_METHOD_HEAD REQUEST_METHOD_GET andb orb negb].
  rewrite (set_entity_body_headers_ok _ _ _ Hstat). cbn [snd].
  reflexivity.
Qed.

(** [fileserver] when the file is not newer than the date of the
    request: the response loses its content type, its content length
    becomes 0, and only [coderesp] writes. *)
Lemma fileserver_not_modified : forall o rq r simple sb,
  stat o (Request.path rq) = Some sb ->
  Request.if_modified_since_date rq <> -1 ->
  local_to_gmtime (os_zone o) (st_mtime sb)
  <= Request.if_modified_since_date rq ->
  fileserver o rq r simple
  = let r' := Response.mk (Response.code r) (Response.last_modified r) "" 0 in
    bind (coderesp o r' (negb simple)) (fun rc => ret (rc, r')).
Proof.
  intros o rq r simple sb Hstat Hset Hle. unfold fileserver. rewrite Hstat.
  apply Z.eqb_neq in Hset. apply Z.leb_le in Hle. rewrite Hset, Hle.
  reflexivity.
Qed.

(** C4 (as amended): a GET for a file, with an If-Modified-Since value
    that is set and at or after the file's modification time as
    [fileserver] compares the two, both being what [mktime] answers for
    GMT fields read as local time, is answered with status 200 and content
    length 0, and no byte of an entity body is written: a full request
    gets the status line and the header block, a simple request (no
    version token) gets nothing at all.  Where local time keeps one offset
    from UTC, that is so for every date that is at or after the
    modification time and for which [mktime] does not answer -1.  The last
    part spells the header block out. *)
Theorem not_modified_get_is_200_without_body :
  forall o flag script tr buf rest method uri versions res target sb,
    request_received script buf rest ->
    request_tokens buf = method :: uri :: versions ->
    (versions = []
     \/ exists version,
          versions = [version] /\ strncasecmp version HTTP_VERSION_1 8 = 0) ->
    header_parsing_failed (os_zone o) buf = false ->
    strcasecmp method "GET" = 0 ->
    resolve o flag REQUEST_METHOD_GET uri = Some res ->
    cu_status res = RESPONSE_STATUS_OK ->
    cu_cgi res = false ->
    cu_realpath res = Some target ->
    stat o target = Some sb ->
    (Request.if_modified_since_date (parsed_request (os_zone o) buf) <> -1
     /\ local_to_gmtime (os_zone o) (st_mtime sb)
        <= Request.if_modified_since_date (parsed_request (os_zone o) buf))
    \/ (exists tz date instant,
          os_zone o = fixed_zone tz
          /\ http_date_to_time (os_zone o) date
             = Some (Request.if_modified_since_date
                       (parsed_request (os_zone o) buf))
          /\ http_date_instant date = Some instant
          /\ gmtime_r (st_mtime sb) <> None
          /\ st_mtime sb <= instant) ->
    let r := not_modified_response sb in
    let full := match versions with [] => false | _ => true end in
    fst (httpd o flag (mk_conn script tr))
    = Ret ((if full then headers_rc o r else 0), Some r)
    /\ snd (httpd o flag (mk_conn script tr))
       = mk_conn rest
           (tr ++ Checkuri uri
               :: (if full
                   then Write ("HTTP/1.0 200 OK" ++ CRLF) :: headers_writes o r
                   else []))
    /\ (forall now modified,
          time_to_http_date (os_time o) 128 = Some now ->
          time_to_http_date (st_mtime sb) 128 = Some modified ->
          st_mtime sb <> -1 ->
          headers_writes o r
          = [Write ("Date: " ++ now ++ CRLF
                    ++ "Server: sws/1.0" ++ CRLF
                    ++ "Last-Modified: " ++ modified ++ CRLF
                    ++ "Content-Length: 0" ++ CRLF
                    ++ CRLF)]).
Proof.
  intros o flag script tr buf rest m uri vs res target sb
    Hrecv Htok Hvs Hhdr Hm Hres Hok Hcgi Hreal Hstat Hcmp r full.
  assert (Hset : Request.if_modified_since_date
                   (parsed_request (os_zone o) buf) <> -1
                 /\ local_to_gmtime (os_zone o) (st_mtime sb)
                    <= Request.if_modified_since_date
                         (parsed_request (os_zone o) buf)).
  { destruct Hcmp
      as [H|(tz & date & instant & Hz & Hims & Hinst & Hgm & Hord)];
      [exact H|].
    rewrite Hz in *.
    destruct (http_date_to_time_instant _ _ _ _ Hims Hinst) as [Hst Hne].
    split; [exact Hne|].
    rewrite local_to_gmtime_shift by exact Hgm. lia. }
  destruct Hset as [Hset Hle].
  rewrite (httpd_request_received _ _ _ _ _ _ Hrecv).
  assert (Hrun : forall newreq simple,
             Request.if_modified_since_date newreq
             = Request.if_modified_since_date
                 (parsed_request (os_zone o) buf) ->
             bind (dispatch_get_head o flag newreq REQUEST_METHOD_GET uri)
               (respond o flag simple) (mk_conn rest tr)
             = bind (coderesp o r (negb simple)) (fun rc => ret (rc, r))
                 (mk_conn rest (tr ++ [Checkuri uri]))).
  { intros newreq simple Hnew.
    destruct (dispatch_get_head_run o flag newreq REQUEST_METHOD_GET uri
                (mk_conn rest tr) res target Hres Hok Hreal)
      as (d & Hd & Hresp & Hmeth & Hpath & Hdims & Hrs & Hdcgi).
    rewrite (bind_run _ _ _ _ _ _ _ Hd). cbn [input trace].
    rewrite (respond_get_ok o flag simple d target sb Hresp Hmeth
               ltac:(congruence) Hrs Hstat).
    rewrite (fileserver_not_modified o (d_newreq d) _ simple sb).
    - reflexivity.
    - now rewrite Hpath.
    - rewrite Hdims, Hnew. exact Hset.
    - rewrite Hdims, Hnew. exact Hle. }
  assert (Htext : forall now modified,
             time_to_http_date (os_time o) 128 = Some now ->
             time_to_http_date (st_mtime sb) 128 = Some modified ->
             st_mtime sb <> -1 ->
             headers_writes o r
             = [Write ("Date: " ++ now ++ CRLF
                       ++ "Server: sws/1.0" ++ CRLF
                       ++ "Last-Modified: " ++ modified ++ CRLF
                       ++ "Content-Length: 0" ++ CRLF
                       ++ CRLF)]).
  { intros now modified Hnow Hmod Hne. unfold headers_writes.
    rewrite (coderesp_headers_text_entity o r now modified);
      try assumption; try reflexivity; cbn; lia. }
  destruct Hvs as [->|(v & -> & Hver)].
  - (* a simple request *)
    rewrite (httpd_process_two _ _ _ _ _ Htok), Hhdr.
    rewrite dispatch_simple_get by assumption.
    rewrite bind_outer, Hrun by (now destruct (parsed_request (os_zone o) buf)).
    cbn [negb]. rewrite bind_outer, coderesp_simple.
    subst full. cbn. repeat split. exact Htext.
  - (* a full request *)
    rewrite (httpd_process_three _ _ _ _ _ _ Htok), Hhdr.
    rewrite dispatch_method_get by assumption.
    rewrite bind_outer, Hrun by (now destruct (parsed_request (os_zone o) buf)).
    cbn [negb]. rewrite bind_outer, coderesp_full by (cbn; discriminate).
    subst full. cbn [input trace ret fst snd Response.code r
                     not_modified_response].
    rewrite app_trace_assoc. repeat split. exact Htext.
Qed.

Lemma not_modified_get_is_200_without_body_witness :
  let o := ExampleFs.make (-18000) 1700000000
             [ExampleFs.directory "/srv/www" ["a.txt"];
              ExampleFs.file "/srv/www/a.txt" "hello" 1600000000]
             "text/plain" "" in
  let flag := mk_flags None "/srv/www" in
  let buf := "GET /a.txt HTTP/1.0" ++ CRLF
             ++ "If-Modified-Since: Sun, 13 Sep 2020 12:26:40 GMT" ++ CRLF
             ++ CRLF in
  trace (snd (httpd o flag (mk_conn [Data buf] [])))
  = [Checkuri "/a.txt";
     Write ("HTTP/1.0 200 OK" ++ CRLF);
     Write ("Date: Tue, 14 Nov 2023 22:13:20 GMT" ++ CRLF
            ++ "Server: sws/1.0" ++ CRLF
            ++ "Last-Modified: Sun, 13 Sep 2020 12:26:40 GMT" ++ CRLF
            ++ "Content-Length: 0" ++ CRLF ++ CRLF)].
Proof.
  intros o flag buf.
  destruct (not_modified_get_is_200_without_body o flag [Data buf] [] buf []
              "GET" "/a.txt" ["HTTP/1.0"]
              (mk_checkuri 0
                 (Request.set_path "/a.txt"
                    (Request.set_method REQUEST_METHOD_GET init_request))
                 RESPONSE_STATUS_OK (Some "/srv/www/a.txt") false)
              "/srv/www/a.txt" (mk_stat 5 1600000000 false))
    as (_ & Htrace & Htext).
  - exists buf. repeat split; vm_compute; congruence.
  - reflexivity.
  - right. exists "HTTP/1.0". split; reflexivity.
  - reflexivity.
  - reflexivity.
  - reflexivity.
  - reflexivity.
  - reflexivity.
  - reflexivity.
  - reflexivity.
  - right.
    exists (-18000), "Sun, 13 Sep 2020 12:26:40 GMT", 1600000000.
    split; [reflexivity|]. split; [reflexivity|]. split; [reflexivity|].
    split; vm_compute; discriminate.
  - rewrite Htrace.
    rewrite (Htext "Tue, 14 Nov 2023 22:13:20 GMT"
               "Sun, 13 Sep 2020 12:26:40 GMT" eq_refl eq_refl
               ltac:(vm_compute; discriminate)).
    reflexivity.
Defined.

(** C4 as stated fails on the code, in two ways.  Under UTC, the date of
    the second before the epoch is at or after the modification time of a
    file last changed on 31 December 1969, but [mktime] answers -1 for it,
    which [http_date_to_time] takes for a failure: the request gets the
    status 400.  Under the rules of Pacific/Apia, the date 1 January 2012
    00:00:00 GMT is twelve hours after the modification time 31 December
    2011 12:00:00 GMT, but [mktime] answers 1325329200 for the former and
    1325372400 for the latter: the whole file is sent. *)
Lemma later_if_modified_since_without_the_empty_200 :
  (let o := ExampleFs.make 0 1700000000
              [ExampleFs.directory "/srv/www" ["a.txt"];
               ExampleFs.file "/srv/www/a.txt" "hello" (-86400)]
              "text/plain" "" in
   let date := "Wed, 31 Dec 1969 23:59:59 GMT" in
   let buf := "GET /a.txt HTTP/1.0" ++ CRLF
              ++ "If-Modified-Since: " ++ date ++ CRLF ++ CRLF in
   http_date_instant date = Some (-1)
   /\ option_map st_mtime (stat o "/srv/www/a.txt") = Some (-86400)
   /\ take 24 (sent (trace (snd (httpd o (mk_flags None "/srv/www")
                                   (mk_conn [Data buf] [])))))
      = "HTTP/1.0 400 Bad Request")
  /\ (let o := ExampleFs.in_zone apia_zone
                 (ExampleFs.make 0 1700000000
                    [ExampleFs.directory "/srv/www" ["a.txt"];
                     ExampleFs.file "/srv/www/a.txt" "hello" 1325332800]
                    "text/plain" "") in
      let date := "Sun, 01 Jan 2012 00:00:00 GMT" in
      let buf := "GET /a.txt HTTP/1.0" ++ CRLF
                 ++ "If-Modified-Since: " ++ date ++ CRLF ++ CRLF in
      http_date_instant date = Some 1325376000
      /\ option_map st_mtime (stat o "/srv/www/a.txt") = Some 1325332800
      /\ http_date_to_time (os_zone o) date = Some 1325329200
      /\ local_to_gmtime (os_zone o) 1325332800 = 1325372400
      /\ trace (snd (httpd o (mk_flags None "/srv/www")
                       (mk_conn [Data buf] [])))
         = [Checkuri "/a.txt";
            Write ("HTTP/1.0 200 OK" ++ CRLF);
            Write ("Date: Tue, 14 Nov 2023 22:13:20 GMT" ++ CRLF
                   ++ "Server: sws/1.0" ++ CRLF
                   ++ "Last-Modified: Sat, 31 Dec 2011 12:00:00 GMT" ++ CRLF
                   ++ "Content-Type: text/plain" ++ CRLF
                   ++ "Content-Length: 5" ++ CRLF ++ CRLF);
            Write "hello"]).
Proof. vm_compute. repeat split. Qed.

Lemma head_sends_entity_headers_and_no_body_witness :
  let o := ExampleFs.make 0 1700000000
             [ExampleFs.directory "/srv/www" ["a.txt"];
              ExampleFs.file "/srv/www/a.txt" "hello" 1600000000]
             "text/plain" "" in
  let flag := mk_flags None "/srv/www" in
  let buf := "HEAD /a.txt HTTP/1.0" ++ CRLF ++ CRLF in
  trace (snd (httpd o flag (mk_conn [Data buf] [])))
  = [Checkuri "/a.txt";
     Write ("HTTP/1.0 200 OK" ++ CRLF);
     Write ("Date: Tue, 14 Nov 2023 22:13:20 GMT" ++ CRLF
            ++ "Server: sws/1.0" ++ CRLF
            ++ "Last-Modified: Sun, 13 Sep 2020 12:26:40 GMT" ++ CRLF
            ++ "Content-Type: text/plain" ++ CRLF
            ++ "Content-Length: 5" ++ CRLF ++ CRLF)].
Proof.
  intros o flag buf.
  destruct (head_sends_entity_headers_and_no_body o flag [Data buf] [] buf []
              "HEAD" "/a.txt" "HTTP/1.0"
              (mk_checkuri 0
                 (Request.set_path "/a.txt"
                    (Request.set_method REQUEST_METHOD_HEAD init_request))
                 RESPONSE_STATUS_OK (Some "/srv/www/a.txt") false)
              "/srv/www/a.txt" (mk_stat 5 1600000000 false))
    as (_ & Htrace & _ & Htext).
  - exists buf. repeat split; vm_compute; congruence.
  - reflexivity.
  - reflexivity.
  - reflexivity.
  - reflexivity.
  - reflexivity.
  - reflexivity.
  - reflexivity.
  - reflexivity.
  - reflexivity.
  - rewrite Htrace.
    rewrite (Htext "Tue, 14 Nov 2023 22:13:20 GMT"
               "Sun, 13 Sep 2020 12:26:40 GMT" "text/plain" eq_refl eq_refl
               ltac:(vm_compute; discriminate) eq_refl
               ltac:(vm_compute; split; reflexivity)
               ltac:(vm_compute; split; discriminate)).
    reflexivity.
Defined.

(** C10 as stated fails on the code: the header block of a HEAD request
    does not carry the file's modification time when that is -1, it
    carries the Content-Length 5 for a file of 4294967301 bytes, and no
    Content-Length at all for a file of 2147483648 bytes. *)
Lemma head_headers_without_the_values_of_the_file :
  let o := ExampleFs.make 0 1700000000
             [ExampleFs.directory "/srv/www" ["old"; "big"; "half"];
              ExampleFs.file "/srv/www/old" "hello" (-1);
              ExampleFs.mk_node "/srv/www/big"
                (mk_stat 4294967301 1600000000 false) false "" [];
              ExampleFs.mk_node "/srv/www/half"
                (mk_stat 2147483648 1600000000 false) false "" []]
             "text/plain" "" in
  let flag := mk_flags None "/srv/www" in
  let head uri :=
    trace (snd (httpd o flag
                  (mk_conn [Data ("HEAD " ++ uri ++ " HTTP/1.0" ++ CRLF
                                  ++ CRLF)] []))) in
  head "/old"
  = [Checkuri "/old";
     Write ("HTTP/1.0 200 OK" ++ CRLF);
     Write ("Date: Tue, 14 Nov 2023 22:13:20 GMT" ++ CRLF
            ++ "Server: sws/1.0" ++ CRLF
            ++ "Content-Type: text/plain" ++ CRLF
            ++ "Content-Length: 5" ++ CRLF ++ CRLF)]
  /\ head "/big"
     = [Checkuri "/big";
        Write ("HTTP/1.0 200 OK" ++ CRLF);
        Write ("Date: Tue, 14 Nov 2023 22:13:20 GMT" ++ CRLF
               ++ "Server: sws/1.0" ++ CRLF
               ++ "Last-Modified: Sun, 13 Sep 2020 12:26:40 GMT" ++ CRLF
               ++ "Content-Type: text/plain" ++ CRLF
               ++ "Content-Length: 5" ++ CRLF ++ CRLF)]
  /\ head "/half"
     = [Checkuri "/half";
        Write ("HTTP/1.0 200 OK" ++ CRLF);
        Write ("Date: Tue, 14 Nov 2023 22:13:20 GMT" ++ CRLF
               ++ "Server: sws/1.0" ++ CRLF
               ++ "Last-Modified: Sun, 13 Sep 2020 12:26:40 GMT" ++ CRLF
               ++ "Content-Type: text/plain" ++ CRLF ++ CRLF)].
Proof. vm_compute. repeat split. Qed.

(* ================================================================== *)
(** * Path resolution: outcomes *)
(* ================================================================== *)

Lemma build_candidate_early_status : forall o flag rq cgi status rq' cgi',
  build_candidate o flag rq cgi = Early status rq' cgi' ->
  status = RESPONSE_STATUS_BAD_REQUEST
  \/ status = RESPONSE_STATUS_NOT_FOUND
  \/ status = RESPONSE_STATUS_INTERNAL_SERVER_ERROR.
Proof.
  intros o flag rq cgi status rq' cgi'. unfold build_candidate.
  repeat match goal with
  | |- context [if ?b then _ else _] => destruct b
  | |- context [match ?x with _ => _ end] => destruct x
  end; intro H; inversion H; auto.
Qed.

Lemma access_status_cases : forall e,
  access_status e = RESPONSE_STATUS_BAD_REQUEST
  \/ access_status e = RESPONSE_STATUS_FORBIDDEN
  \/ access_status e = RESPONSE_STATUS_NOT_FOUND
  \/ access_status e = RESPONSE_STATUS_INTERNAL_SERVER_ERROR.
Proof. destruct e; simpl; auto. Qed.

Lemma checkuri_cases : forall o flag rq cgi res,
  checkuri o flag rq cgi = Some res ->
  (cu_ret res = 0 /\ cu_status res = RESPONSE_STATUS_OK
   /\ exists p, cu_realpath res = Some p)
  \/ (cu_ret res = -1 /\ cu_realpath res = None
      /\ (cu_status res = RESPONSE_STATUS_BAD_REQUEST
          \/ cu_status res = RESPONSE_STATUS_FORBIDDEN
          \/ cu_status res = RESPONSE_STATUS_NOT_FOUND
          \/ cu_status res = RESPONSE_STATUS_INTERNAL_SERVER_ERROR)).
Proof.
  intros o flag rq cgi res. unfold checkuri.
  destruct (build_candidate o flag rq cgi) as [up srp rq' cgi'|st rq' cgi'] eqn:B.
  - destruct (access_mode rq' cgi'); [|discriminate].
    destruct (access o up z) as [e|].
    + intro H; inversion H; subst; clear H. right; cbn.
      pose proof (access_status_cases e). intuition.
    + destruct (realpath o up) as [urp|].
      * destruct (strstr urp srp).
        -- intro H; inversion H; subst; clear H. left; cbn. eauto 10.
        -- intro H; inversion H; subst; clear H. right; cbn. auto 10.
      * intro H; inversion H; subst; clear H. right; cbn. auto 10.
  - intro H; inversion H; subst; clear H. right; cbn.
    pose proof (build_candidate_early_status _ _ _ _ _ _ _ B). intuition.
Qed.

(** X1: whenever [checkuri] is called with an assigned access mode, it
    returns 0 exactly when it reports the status 200, and exactly then a
    path is written to [realpath_str]; otherwise it returns -1, and the
    status is one of 400, 403, 404 and 500. *)
Theorem checkuri_returns_zero_exactly_for_ok : forall o flag rq cgi res,
  checkuri o flag rq cgi = Some res ->
  (cu_ret res = 0 <-> cu_status res = RESPONSE_STATUS_OK)
  /\ (cu_ret res = 0 <-> exists p, cu_realpath res = Some p)
  /\ (cu_ret res = 0 \/ cu_ret res = -1)
  /\ (cu_status res = RESPONSE_STATUS_OK
      \/ cu_status res = RESPONSE_STATUS_BAD_REQUEST
      \/ cu_status res = RESPONSE_STATUS_FORBIDDEN
      \/ cu_status res = RESPONSE_STATUS_NOT_FOUND
      \/ cu_status res = RESPONSE_STATUS_INTERNAL_SERVER_ERROR).
Proof.
  intros o flag rq cgi res H.
  destruct (checkuri_cases _ _ _ _ _ H) as [(R & S & p & P)|(R & P & S)].
  - rewrite R, S, P. split; [tauto|]. split; [|auto].
    split; [eauto|reflexivity].
  - rewrite R, P.
    assert (N : cu_status res <> RESPONSE_STATUS_OK)
      by (destruct S as [E|[E|[E|E]]]; rewrite E; discriminate).
    split; [split; [discriminate|contradiction]|].
    split; [split; [discriminate|intros [p Q]; discriminate]|].
    split; [auto|]. right. exact S.
Qed.

Lemma checkuri_returns_zero_exactly_for_ok_witness :
  let rq := example_request REQUEST_METHOD_GET "/a.txt" in
  let res := mk_checkuri 0 rq RESPONSE_STATUS_OK (Some "/srv/www/a.txt")
               false in
  checkuri example_os example_flags rq false = Some res
  /\ (cu_ret res = 0 <-> cu_status res = RESPONSE_STATUS_OK)
  /\ (cu_ret res = 0 <-> exists p, cu_realpath res = Some p)
  /\ (cu_ret res = 0 \/ cu_ret res = -1)
  /\ (cu_status res = RESPONSE_STATUS_OK
      \/ cu_status res = RESPONSE_STATUS_BAD_REQUEST
      \/ cu_status res = RESPONSE_STATUS_FORBIDDEN
      \/ cu_status res = RESPONSE_STATUS_NOT_FOUND
      \/ cu_status res = RESPONSE_STATUS_INTERNAL_SERVER_ERROR).
Proof.
  intros rq res. split; [reflexivity|].
  apply (checkuri_returns_zero_exactly_for_ok example_os example_flags rq
           false res).
  reflexivity.
Defined.

Lemma prefix_append : forall p x, String.prefix p (p ++ x) = true.
Proof.
  induction p as [|c p IH]; intro x.
  - destruct x; reflexivity.
  - change (String.prefix (String c p) (String c p ++ x))
      with (if Ascii.ascii_dec c c then String.prefix p (p ++ x) else false).
    destruct (Ascii.ascii_dec c c); [apply IH|congruence].
Qed.

Lemma slash_index_app : forall name rest,
  strchr name "/" = None ->
  rest = "" \/ (exists r, rest = "/" ++ r) ->
  slash_index (name ++ rest) = String.length name.
Proof.
  induction name as [|c name IH]; intros rest Hn Hr.
  - cbn. destruct Hr as [->|Hr]; [reflexivity|].
    destruct Hr as [r ->]. reflexivity.
  - cbn in Hn |- *. destruct (Ascii.eqb c "/"); [discriminate|].
    f_equal. apply IH; [|exact Hr].
    destruct (strchr name "/"); [discriminate|reflexivity].
Qed.

Lemma take_length_app : forall a b, take (String.length a) (a ++ b) = a.
Proof. induction a; intros; cbn; [destruct b|rewrite IHa]; reflexivity. Qed.

Lemma drop_length_app : forall a b, drop (String.length a) (a ++ b) = b.
Proof. induction a; intros; cbn; auto. Qed.

Lemma split_query_app : forall p q,
  strchr p "?" = None ->
  split_query (p ++ String "?" q) = (p, Some q).
Proof.
  induction p as [|c p IH]; intros q H; cbn.
  - reflexivity.
  - cbn in H. destruct (Ascii.eqb c "?"); [discriminate|].
    rewrite IH; [reflexivity|].
    destruct (strchr p "?"); [discriminate|reflexivity].
Qed.

Lemma strchr_app_none : forall a b c,
  strchr a c = None -> strchr b c = None -> strchr (a ++ b) c = None.
Proof.
  induction a as [|x a IH]; intros b c Ha Hb; cbn; [exact Hb|].
  cbn in Ha. destruct (Ascii.eqb x c); [discriminate|].
  rewrite IH; auto. destruct (strchr a c); [discriminate|reflexivity].
Qed.

(** X2: when [check_index_html] leaves anything but the path itself in
    [index_html], the path is a directory and the result is the path with
    "index.html" appended (after a "/" unless the path ends with one), a
    file that [stat] finds, that is not a directory, that [access] grants
    for reading, and whose name fits [PATH_MAX]. *)
Theorem check_index_html_gives_a_readable_index : forall o path index_html,
  check_index_html o path = index_html ->
  index_html <> path ->
  (exists sb, stat o path = Some sb /\ S_ISDIR sb = true)
  /\ index_html
     = path ++ (match last_char path with
                | Some c => if Ascii.eqb c "/" then "" else "/"
                | None => "/"
                end) ++ INDEX_HTML
  /\ (exists st, stat o index_html = Some st /\ S_ISDIR st = false)
  /\ access o index_html R_OK = None
  /\ strlen index_html <= PATH_MAX.
Proof.
  intros o path idx H N. unfold check_index_html in H.
  destruct (stat o path) as [sb|] eqn:S; [|congruence].
  destruct (S_ISDIR sb) eqn:D; cbn [negb] in H; [|congruence].
  destruct (strlen path + strlen INDEX_HTML <? PATH_MAX) eqn:L; [|congruence].
  apply Z.ltb_lt in L.
  set (cand := match last_char path with
               | Some c => if Ascii.eqb c "/" then path ++ INDEX_HTML
                           else path ++ "/" ++ INDEX_HTML
               | None => path ++ "/" ++ INDEX_HTML
               end) in *.
  assert (C : cand = path ++ (match last_char path with
                | Some c => if Ascii.eqb c "/" then "" else "/"
                | None => "/"
                end) ++ INDEX_HTML).
  { unfold cand. destruct (last_char path) as [c|]; [destruct (Ascii.eqb c "/")|];
      reflexivity. }
  destruct (stat o cand) as [st|] eqn:S2; [|congruence].
  destruct (S_ISDIR st) eqn:D2; cbn [negb] in H; [congruence|].
  destruct (access o cand R_OK) eqn:A; [congruence|].
  subst idx. split; [eauto|]. split; [exact C|]. split; [eauto|].
  split; [exact A|].
  rewrite C. rewrite !strlen_append.
  assert (strlen (match last_char path with
                | Some c => if Ascii.eqb c "/" then "" else "/"
                | None => "/"
                end) <= 1).
  { destruct (last_char path) as [c|]; [destruct (Ascii.eqb c "/")|];
      cbn; lia. }
  lia.
Qed.

Lemma check_index_html_gives_a_readable_index_witness :
  let path := "/srv/www/site" in
  let index_html := "/srv/www/site/index.html" in
  check_index_html example_os path = index_html
  /\ index_html <> path
  /\ (exists sb, stat example_os path = Some sb /\ S_ISDIR sb = true)
  /\ index_html
     = path ++ (match last_char path with
                | Some c => if Ascii.eqb c "/" then "" else "/"
                | None => "/"
                end) ++ INDEX_HTML
  /\ (exists st, stat example_os index_html = Some st /\ S_ISDIR st = false)
  /\ access example_os index_html R_OK = None
  /\ strlen index_html <= PATH_MAX.
Proof.
  intros path index_html.
  split; [reflexivity|]. split; [discriminate|].
  apply (check_index_html_gives_a_readable_index example_os path index_html).
  - reflexivity.
  - discriminate.
Defined.

(** X3: for a request path "/~name" or "/~name/...", [checkuri] answers
    400 when the name is longer than [LOGIN_NAME_MAX] and 404 when
    [getpwnam] does not know the user, whatever the flags, the method and
    the file system; for a known user the candidate path is the canonical
    home directory followed by the rest of the path, and that home
    directory is the root of the containment test. *)
Theorem home_directory_request_checks_the_user : forall o flag rq cgi name rest,
  Request.path rq = "/~" ++ name ++ rest ->
  strchr name "/" = None ->
  rest = "" \/ (exists r, rest = "/" ++ r) ->
  (LOGIN_NAME_MAX < strlen name ->
   checkuri o flag rq cgi
   = Some (mk_checkuri (-1) rq RESPONSE_STATUS_BAD_REQUEST None cgi))
  /\ (strlen name <= LOGIN_NAME_MAX -> getpwnam o name = None ->
      checkuri o flag rq cgi
      = Some (mk_checkuri (-1) rq RESPONSE_STATUS_NOT_FOUND None cgi))
  /\ (forall pw_dir home,
        strlen name <= LOGIN_NAME_MAX -> getpwnam o name = Some pw_dir ->
        realpath o pw_dir = Some home ->
        strlen home + strlen rest <= PATH_MAX ->
        build_candidate o flag rq cgi = Candidate (home ++ rest) home rq cgi).
Proof.
  intros o flag rq cgi name rest P Hn Hr.
  assert (B : build_candidate o flag rq cgi
    = if LOGIN_NAME_MAX <? strlen name
      then Early RESPONSE_STATUS_BAD_REQUEST rq cgi
      else match getpwnam o name with
           | None => Early RESPONSE_STATUS_NOT_FOUND rq cgi
           | Some pw_dir =>
               match realpath o pw_dir with
               | None => Early RESPONSE_STATUS_NOT_FOUND rq cgi
               | Some server_real_path =>
                   if PATH_MAX <? strlen server_real_path + strlen rest
                   then Early RESPONSE_STATUS_BAD_REQUEST rq cgi
                   else Candidate (server_real_path ++ rest) server_real_path
                          rq cgi
               end
           end).
  { unfold build_candidate. cbv zeta. rewrite P.
    rewrite prefix_append.
    change (drop 2 ("/~" ++ name ++ rest)) with (name ++ rest).
    rewrite slash_index_app by assumption.
    rewrite take_length_app, drop_length_app. reflexivity. }
  split; [|split].
  - intro L. unfold checkuri. rewrite B.
    apply Z.ltb_lt in L. rewrite L. reflexivity.
  - intros L G. unfold checkuri. rewrite B.
    apply Z.ltb_ge in L. rewrite L, G. reflexivity.
  - intros pw_dir home L G R Len. rewrite B.
    apply Z.ltb_ge in L. rewrite L, G, R.
    apply Z.ltb_ge in Len. rewrite Len. reflexivity.
Qed.

Lemma home_directory_request_checks_the_user_witness :
  let rq := example_request REQUEST_METHOD_GET "/~nobody/notes.txt" in
  (LOGIN_NAME_MAX < strlen "nobody" ->
   checkuri example_os example_flags rq false
   = Some (mk_checkuri (-1) rq RESPONSE_STATUS_BAD_REQUEST None false))
  /\ (strlen "nobody" <= LOGIN_NAME_MAX ->
      getpwnam example_os "nobody" = None ->
      checkuri example_os example_flags rq false
      = Some (mk_checkuri (-1) rq RESPONSE_STATUS_NOT_FOUND None false))
  /\ (forall pw_dir home,
        strlen "nobody" <= LOGIN_NAME_MAX ->
        getpwnam example_os "nobody" = Some pw_dir ->
        realpath example_os pw_dir = Some home ->
        strlen home + strlen "/notes.txt" <= PATH_MAX ->
        build_candidate example_os example_flags rq false
        = Candidate (home ++ "/notes.txt") home rq false).
Proof.
  intros rq.
  apply (home_directory_request_checks_the_user example_os example_flags rq
           false "nobody" "/notes.txt").
  - reflexivity.
  - reflexivity.
  - right. exists "notes.txt". reflexivity.
Defined.

Lemma checkuri_candidate_cgi : forall o flag rq cgi uri_path root rq',
  build_candidate o flag rq cgi = Candidate uri_path root rq' true ->
  exists res,
    checkuri o flag rq cgi = Some res
    /\ cu_cgi res = true
    /\ cu_request res = rq'
    /\ (forall e, access o uri_path (Z.lor R_OK X_OK) = Some e ->
        cu_status res = access_status e)
    /\ (forall real, access o uri_path (Z.lor R_OK X_OK) = None ->
        realpath o uri_path = Some real ->
        cu_status res
        = match strstr real root with
          | Some _ => RESPONSE_STATUS_OK
          | None => RESPONSE_STATUS_FORBIDDEN
          end).
Proof.
  intros o flag rq cgi up root rq' B. unfold checkuri. rewrite B.
  unfold access_mode.
  destruct (access o up (Z.lor R_OK X_OK)) as [e|] eqn:A.
  - eexists; split; [reflexivity|]. cbn.
    repeat split; intros; congruence.
  - destruct (realpath o up) as [real|] eqn:R.
    + destruct (strstr real root) eqn:S; eexists; (split; [reflexivity|]); cbn;
        repeat split; intros; try congruence;
        match goal with H : Some _ = Some _ |- _ => inversion H; subst end;
        rewrite S; reflexivity.
    + eexists; split; [reflexivity|]. cbn.
      repeat split; intros; congruence.
Qed.

(** X4: with a CGI directory configured, a path "/cgi-bin/p?q" makes
    [checkuri] flag a CGI request, store the first 242 characters of [q]
    as the query string and look for the program at the CGI directory
    followed by [p] (joined without a separator), with read and execute
    access and with the canonical CGI directory as the root of the
    containment test; the path of the request keeps its query. *)
Theorem cgi_bin_request_splits_the_query_string :
  forall o flag rq cgi cdir root p q,
    c_dir flag = Some cdir ->
    Request.path rq = "/cgi-bin/" ++ p ++ "?" ++ q ->
    strchr cdir "?" = None -> strchr p "?" = None ->
    strlen cdir + strlen p + strlen q + 2 <= PATH_MAX ->
    realpath o cdir = Some root ->
    exists res,
      checkuri o flag rq cgi = Some res
      /\ cu_cgi res = true
      /\ cu_request res = Request.set_querystring (take 242 q) rq
      /\ strlen (Request.querystring (cu_request res)) <= 242
      /\ (forall e, access o (cdir ++ p) (Z.lor R_OK X_OK) = Some e ->
          cu_status res = access_status e)
      /\ (forall real, access o (cdir ++ p) (Z.lor R_OK X_OK) = None ->
          realpath o (cdir ++ p) = Some real ->
          cu_status res
          = match strstr real root with
            | Some _ => RESPONSE_STATUS_OK
            | None => RESPONSE_STATUS_FORBIDDEN
            end).
Proof.
  intros o flag rq cgi cdir root p q C P Hc Hp L R.
  assert (B : build_candidate o flag rq cgi
              = Candidate (cdir ++ p) root
                  (Request.set_querystring (take 242 q) rq) true).
  { unfold build_candidate. cbv zeta. rewrite P, C.
    replace (String.prefix "/~" ("/cgi-bin/" ++ p ++ "?" ++ q)) with false
      by reflexivity.
    rewrite prefix_append.
    change (drop 8 ("/cgi-bin/" ++ p ++ "?" ++ q)) with ("/" ++ p ++ "?" ++ q).
    change (drop (String.length CGI_PREFIX) ("/cgi-bin/" ++ p ++ "?" ++ q))
      with (p ++ "?" ++ q).
    replace (PATH_MAX <? strlen cdir + strlen ("/" ++ p ++ "?" ++ q))
      with false.
    2:{ symmetry. apply Z.ltb_ge. rewrite !strlen_append.
        change (strlen "/") with 1. change (strlen "?") with 1. lia. }
    rewrite R. rewrite <- append_assoc.
    change ("?" ++ q) with (String "?" q).
    rewrite split_query_app by (apply strchr_app_none; assumption).
    reflexivity. }
  destruct (checkuri_candidate_cgi _ _ _ _ _ _ _ B)
    as (res & E & G & Q & A1 & A2).
  exists res. repeat split; auto.
  rewrite Q. unfold Request.set_querystring. cbn [Request.querystring].
  pose proof (length_take 242 q). unfold strlen. lia.
Qed.

Lemma cgi_bin_request_splits_the_query_string_witness :
  let rq := example_request REQUEST_METHOD_GET "/cgi-bin/hello?x=1" in
  exists res,
    checkuri example_os example_flags rq false = Some res
    /\ cu_cgi res = true
    /\ cu_request res = Request.set_querystring (take 242 "x=1") rq
    /\ strlen (Request.querystring (cu_request res)) <= 242
    /\ (forall e,
          access example_os ("/srv/cgi/" ++ "hello") (Z.lor R_OK X_OK)
          = Some e ->
          cu_status res = access_status e)
    /\ (forall real,
          access example_os ("/srv/cgi/" ++ "hello") (Z.lor R_OK X_OK) = None ->
          realpath example_os ("/srv/cgi/" ++ "hello") = Some real ->
          cu_status res
          = match strstr real "/srv/cgi" with
            | Some _ => RESPONSE_STATUS_OK
            | None => RESPONSE_STATUS_FORBIDDEN
            end).
Proof.
  intros rq.
  apply (cgi_bin_request_splits_the_query_string example_os example_flags rq
           false "/srv/cgi/" "/srv/cgi" "hello" "x=1").
  - reflexivity.
  - reflexivity.
  - reflexivity.
  - reflexivity.
  - vm_compute. discriminate.
  - reflexivity.
Defined.

(** X5: with a CGI directory configured, any other path "p?q" is taken
    for a CGI request as well: the path of the request is cut at the
    question mark, the query is not stored in the request, the program is
    looked for at the CGI directory followed by [p], and the containment
    test uses the canonical served root. *)
Theorem query_outside_cgi_bin_is_run_from_the_cgi_directory :
  forall o flag rq cgi cdir root p q,
    c_dir flag = Some cdir ->
    Request.path rq = p ++ "?" ++ q ->
    String.prefix "/~" (Request.path rq) = false ->
    String.prefix "/cgi-bin/" (Request.path rq) = false ->
    strchr p "?" = None ->
    strlen cdir + strlen p <= PATH_MAX -> strlen q <= PATH_MAX ->
    realpath o (dir flag) = Some root ->
    exists res,
      checkuri o flag rq cgi = Some res
      /\ cu_cgi res = true
      /\ cu_request res = Request.set_path p rq
      /\ (forall e, access o (cdir ++ p) (Z.lor R_OK X_OK) = Some e ->
          cu_status res = access_status e)
      /\ (forall real, access o (cdir ++ p) (Z.lor R_OK X_OK) = None ->
          realpath o (cdir ++ p) = Some real ->
          cu_status res
          = match strstr real root with
            | Some _ => RESPONSE_STATUS_OK
            | None => RESPONSE_STATUS_FORBIDDEN
            end).
Proof.
  intros o flag rq cgi cdir root p q C P N1 N2 Hp L1 L2 R.
  apply checkuri_candidate_cgi.
  unfold build_candidate. cbv zeta. rewrite N1, C, N2, P.
  change ("?" ++ q) with (String "?" q).
  rewrite split_query_app by assumption.
  apply Z.ltb_ge in L1, L2. rewrite L1, L2, R. reflexivity.
Qed.

Lemma query_outside_cgi_bin_is_run_from_the_cgi_directory_witness :
  let rq := example_request REQUEST_METHOD_GET "/a.txt?x=1" in
  exists res,
    checkuri example_os example_flags rq false = Some res
    /\ cu_cgi res = true
    /\ cu_request res = Request.set_path "/a.txt" rq
    /\ (forall e,
          access example_os ("/srv/cgi/" ++ "/a.txt") (Z.lor R_OK X_OK)
          = Some e ->
          cu_status res = access_status e)
    /\ (forall real,
          access example_os ("/srv/cgi/" ++ "/a.txt") (Z.lor R_OK X_OK)
          = None ->
          realpath example_os ("/srv/cgi/" ++ "/a.txt") = Some real ->
          cu_status res
          = match strstr real "/srv/www" with
            | Some _ => RESPONSE_STATUS_OK
            | None => RESPONSE_STATUS_FORBIDDEN
            end).
Proof.
  intros rq.
  apply (query_outside_cgi_bin_is_run_from_the_cgi_directory example_os
           example_flags rq false "/srv/cgi/" "/srv/www" "/a.txt" "x=1").
  - reflexivity.
  - reflexivity.
  - reflexivity.
  - reflexivity.
  - reflexivity.
  - vm_compute. discriminate.
  - vm_compute. discriminate.
  - reflexivity.
Defined.

(* ================================================================== *)
(** * Buffers and directory listings *)
(* ================================================================== *)

Lemma complete_listing_is_sorted_and_visible_witness :
  let rq := example_request REQUEST_METHOD_GET "/srv/www/d" in
  let c := mk_conn [] [] in
  let c' := snd (send_directory_listing example_os rq c) in
  let entries := ["."; ".."; "x"; ".y"] in
  exists head tr',
    listing_head (Request.path rq) = Some head
    /\ trace c' = (trace c ++ tr')%list
    /\ sent tr'
       = filled head ++ listing_lines (NameSort.sort entries)
         ++ listing_tail
    /\ Sorted.Sorted (fun a b => String.leb a b = true)
         (NameSort.sort entries)
    /\ Permutation entries (NameSort.sort entries).
Proof.
  intros rq c c' entries.
  apply (complete_listing_is_sorted_and_visible example_os rq c c' entries).
  - reflexivity.
  - vm_compute. reflexivity.
Defined.

Lemma cbuf_new_ok : cbuf_ok (cbuf_new BUF_SIZE).
Proof. unfold cbuf_ok, cbuf_new. cbn. unfold BUF_SIZE. lia. Qed.

Lemma cbuf_write_ok : forall b s b',
  cbuf_ok b -> cbuf_write b s = Some b' -> cbuf_ok b'.
Proof.
  intros b s b' [E P] H. apply cbuf_write_some in H. destruct H as [L ->].
  unfold cbuf_ok. cbn [filled buf_size_remain]. rewrite strlen_append. lia.
Qed.

Lemma cbuf_ok_filled : forall b, cbuf_ok b -> strlen (filled b) <= BUF_SIZE - 1.
Proof. intros b [E P]. lia. Qed.

Lemma listing_head_ok : forall path b, listing_head path = Some b -> cbuf_ok b.
Proof.
  intros path b H. unfold listing_head, obind in H.
  destruct (cbuf_write (cbuf_new BUF_SIZE) _) as [b1|] eqn:E1; [|discriminate].
  destruct (cbuf_write b1 _) as [b2|] eqn:E2; [|discriminate].
  eapply cbuf_write_ok; [|exact H].
  eapply cbuf_write_ok; [|exact E2].
  eapply cbuf_write_ok; [|exact E1]. apply cbuf_new_ok.
Qed.

Lemma list_entries_bounded : forall names b c,
  cbuf_ok b ->
  exists ob tr,
    list_entries names b c = (Ret ob, mk_conn (input c) (trace c ++ tr))
    /\ forallb (write_upto (BUF_SIZE - 1)) tr = true
    /\ forall b', ob = Some b' -> cbuf_ok b'.
Proof.
  induction names as [|d names IH]; intros b c Hb.
  - exists (Some b), []. cbn. rewrite app_nil_r. destruct c.
    split; [reflexivity|]. split; [reflexivity|].
    intros b' E. inversion E; subst. exact Hb.
  - cbn [list_entries]. rewrite bind_outer.
    set (flush := buf_size_remain b <? strlen d + 2).
    assert (F : exists b1 tr1,
               (if flush
                then write_socket (filled b) ;;; ret (cbuf_new BUF_SIZE)
                else ret b) c
               = (Ret b1, mk_conn (input c) (trace c ++ tr1))
               /\ forallb (write_upto (BUF_SIZE - 1)) tr1 = true
               /\ cbuf_ok b1).
    { destruct flush.
      - exists (cbuf_new BUF_SIZE), [Write (filled b)].
        split; [reflexivity|]. split; [|apply cbuf_new_ok].
        cbn. rewrite andb_true_r. apply Z.leb_le. now apply cbuf_ok_filled.
      - exists b, []. rewrite app_nil_r. destruct c. cbn. auto. }
    destruct F as (b1 & tr1 & E1 & F1 & Hb1). rewrite E1.
    assert (K : forall b2, cbuf_ok b2 ->
              exists ob tr,
                list_entries names b2 (mk_conn (input c) (trace c ++ tr1))
                = (Ret ob, mk_conn (input c) (trace c ++ tr))
                /\ forallb (write_upto (BUF_SIZE - 1)) tr = true
                /\ forall b', ob = Some b' -> cbuf_ok b').
    { intros b2 Hb2.
      destruct (IH b2 (mk_conn (input c) (trace c ++ tr1)) Hb2)
        as (ob & tr & E & F & G).
      exists ob, (tr1 ++ tr)%list. cbn [input trace] in E.
      rewrite app_trace_assoc in E. split; [exact E|].
      split; [|exact G]. rewrite forallb_app, F1, F. reflexivity. }
    destruct d as [|ch d]; [apply K; exact Hb1|].
    destruct (negb (Ascii.eqb ch ".")); [|apply K; exact Hb1].
    destruct (cbuf_write b1 (String ch d ++ CRLF)) as [b2|] eqn:W.
    + apply K. eapply cbuf_write_ok; eauto.
    + exists None, tr1. split; [reflexivity|]. split; [exact F1|].
      intros b' E. discriminate.
Qed.

(** X9: for a directory that can be scanned, [send_directory_listing]
    returns 0 or -1, and every write it makes carries at most
    [BUF_SIZE - 1] bytes, whatever the names and however many they are. *)
Theorem directory_listing_writes_stay_within_the_buffer :
  forall o rq c entries,
    dir_entries o (Request.path rq) = Some entries ->
    exists rc tr,
      send_directory_listing o rq c
      = (Ret rc, mk_conn (input c) (trace c ++ tr))
      /\ (rc = 0 \/ rc = -1)
      /\ forallb (write_upto (BUF_SIZE - 1)) tr = true.
Proof.
  intros o rq c entries D. unfold send_directory_listing, scandir.
  rewrite D. cbn [option_map].
  destruct (listing_head (Request.path rq)) as [h|] eqn:H.
  2:{ exists (-1), []. rewrite app_nil_r. destruct c. cbn. auto. }
  destruct (list_entries_bounded (NameSort.sort entries) h c
              (listing_head_ok _ _ H)) as (ob & tr & E & F & G).
  rewrite bind_outer, E.
  destruct ob as [b|]; [|exists (-1), tr; auto].
  specialize (G b eq_refl).
  rewrite bind_outer.
  destruct (buf_size_remain b <? 100).
  - cbn [bind write_socket emit ret input trace].
    destruct (cbuf_write (cbuf_new BUF_SIZE) listing_tail) as [b2|] eqn:W.
    + exists 0, (tr ++ [Write (filled b); Write (filled b2)])%list.
      cbn [bind write_socket emit ret input trace].
      rewrite !app_trace_assoc. split; [reflexivity|]. split; [auto|].
      rewrite forallb_app, F. cbn [forallb write_upto andb].
      pose proof (cbuf_ok_filled b G).
      pose proof (cbuf_ok_filled b2 (cbuf_write_ok _ _ _ cbuf_new_ok W)).
      rewrite andb_true_r. apply andb_true_iff. split; apply Z.leb_le; unfold BUF_SIZE in *; lia.
    + exists (-1), (tr ++ [Write (filled b)])%list.
      rewrite !app_trace_assoc. split; [reflexivity|]. split; [auto|].
      rewrite forallb_app, F. cbn [forallb write_upto andb].
      pose proof (cbuf_ok_filled b G).
      rewrite andb_true_r. apply Z.leb_le; unfold BUF_SIZE in *; lia.
  - cbn [ret].
    destruct (cbuf_write b listing_tail) as [b2|] eqn:W.
    + exists 0, (tr ++ [Write (filled b2)])%list.
      cbn [bind write_socket emit ret input trace].
      rewrite !app_trace_assoc. split; [reflexivity|]. split; [auto|].
      rewrite forallb_app, F. cbn [forallb write_upto andb].
      pose proof (cbuf_ok_filled b2 (cbuf_write_ok _ _ _ G W)).
      rewrite andb_true_r. apply Z.leb_le; unfold BUF_SIZE in *; lia.
    + exists (-1), tr. auto.
Qed.

Lemma directory_listing_writes_stay_within_the_buffer_witness :
  let rq := example_request REQUEST_METHOD_GET "/srv/www/d" in
  let c := mk_conn [] [] in
  exists rc tr,
    send_directory_listing example_os rq c
    = (Ret rc, mk_conn (input c) (trace c ++ tr))
    /\ (rc = 0 \/ rc = -1)
    /\ forallb (write_upto (BUF_SIZE - 1)) tr = true.
Proof.
  intros rq c.
  apply (directory_listing_writes_stay_within_the_buffer example_os rq c
           ["."; ".."; "x"; ".y"]).
  reflexivity.
Defined.

Lemma listing_lines_cons : forall d names,
  listing_lines (d :: names)
  = (if visible d then d ++ CRLF else "") ++ listing_lines names.
Proof.
  intros d names. unfold listing_lines. cbn [filter].
  destruct (visible d); reflexivity.
Qed.

Lemma list_entries_no_flush : forall names b c,
  Forall (fun d_name => strlen d_name <= 255) names ->
  strlen (listing_lines names) + 257 <= buf_size_remain b ->
  list_entries names b c
  = (Ret (Some (mk_cbuf (filled b ++ listing_lines names)
                  (buf_size_remain b - strlen (listing_lines names)))), c).
Proof.
  induction names as [|d names IH]; intros b c Hn Hl.
  - cbn. rewrite append_nil_r, Z.sub_0_r. now destruct b.
  - inversion Hn as [|? ? Hd Hn']; subst.
    rewrite listing_lines_cons, strlen_append in Hl.
    pose proof (strlen_nonneg (listing_lines names)).
    pose proof (strlen_nonneg (if visible d then d ++ CRLF else "")).
    cbn [list_entries].
    replace (buf_size_remain b <? strlen d + 2) with false
      by (symmetry; apply Z.ltb_ge; lia).
    rewrite bind_outer. cbn [ret].
    rewrite listing_lines_cons.
    destruct d as [|ch d].
    + cbn [visible]. cbn [append]. apply IH; [exact Hn'|].
      cbn [visible] in Hl. change (strlen "") with 0 in Hl. lia.
    + cbn [visible] in Hl |- *.
      destruct (negb (Ascii.eqb ch ".")).
      * rewrite strlen_append in Hl. change (strlen CRLF) with 2 in Hl.
        rewrite cbuf_write_fits
          by (rewrite strlen_append; change (strlen CRLF) with 2; lia).
        rewrite IH; [|exact Hn'|].
        -- cbn [filled buf_size_remain].
           rewrite !append_assoc, !strlen_append.
           rewrite <- Z.sub_add_distr, <- Z.add_assoc. reflexivity.
        -- cbn [buf_size_remain]. rewrite strlen_append.
           change (strlen CRLF) with 2. lia.
      * cbn [append]. apply IH; [exact Hn'|].
        change (strlen "") with 0 in Hl. lia.
Qed.

(** X10: when the names are at most 255 characters long and the head of
    the page, the lines of the visible names and 257 bytes more fit the
    buffer, [send_directory_listing] returns 0 after a single write: the
    head, one line per visible name in sorted order, and the tail. *)
Theorem short_directory_listing_goes_out_in_one_write :
  forall o rq c names head,
    scandir o (Request.path rq) = Some names ->
    listing_head (Request.path rq) = Some head ->
    Forall (fun d_name => strlen d_name <= 255) names ->
    strlen (filled head) + strlen (listing_lines names) + 257 <= BUF_SIZE ->
    send_directory_listing o rq c
    = (Ret 0,
       mk_conn (input c)
         (trace c
          ++ [Write (filled head ++ listing_lines names ++ listing_tail)])).
Proof.
  intros o rq c names head S H Hn Hl.
  unfold send_directory_listing. rewrite S, H.
  destruct (listing_head_ok _ _ H) as [E P].
  rewrite bind_outer, list_entries_no_flush by (auto; lia).
  rewrite bind_outer. cbn [buf_size_remain filled].
  replace (buf_size_remain head - strlen (listing_lines names) <? 100)
    with false by (symmetry; apply Z.ltb_ge; lia).
  cbn [ret].
  rewrite cbuf_write_fits
    by (cbn [buf_size_remain]; change (strlen listing_tail) with 24; lia).
  cbn [filled]. rewrite append_assoc. reflexivity.
Qed.

Lemma short_directory_listing_goes_out_in_one_write_witness :
  let rq := example_request REQUEST_METHOD_GET "/srv/www/d" in
  let c := mk_conn [] [] in
  let names := ["."; ".."; ".y"; "x"] in
  let head := match listing_head "/srv/www/d" with
              | Some b => b
              | None => cbuf_new BUF_SIZE
              end in
  send_directory_listing example_os rq c
  = (Ret 0,
     mk_conn (input c)
       (trace c
        ++ [Write (filled head ++ listing_lines names ++ listing_tail)])).
Proof.
  intros rq c names head.
  apply (short_directory_listing_goes_out_in_one_write example_os rq c names
           head).
  - vm_compute. reflexivity.
  - vm_compute. reflexivity.
  - repeat constructor; vm_compute; discriminate.
  - vm_compute. discriminate.
Defined.

(* ================================================================== *)
(** * Generic pages and status lines *)
(* ================================================================== *)

Lemma generic_message_none : forall code,
  generic_message code = None -> code = RESPONSE_STATUS_CONNECTION_TIMED_OUT.
Proof.
  intros code. unfold generic_message.
  repeat match goal with
  | |- context [if ?b then _ else _] => destruct b eqn:?
  end; intro H; try discriminate.
  now apply Z.eqb_eq.
Qed.

Lemma generic_page_html_ok : forall message custom_msg b,
  generic_page_html message custom_msg = Some b -> cbuf_ok b.
Proof.
  intros message custom_msg b H. unfold generic_page_html, obind in H.
  destruct (cbuf_write (cbuf_new BUF_SIZE) _) as [b1|] eqn:E1; [|discriminate].
  destruct (cbuf_write b1 _) as [b2|] eqn:E2; [|discriminate].
  destruct (cbuf_write b2 _) as [b3|] eqn:E3; [|discriminate].
  assert (cbuf_ok b3).
  { eapply cbuf_write_ok; [|exact E3].
    eapply cbuf_write_ok; [|exact E2].
    eapply cbuf_write_ok; [|exact E1]. apply cbuf_new_ok. }
  destruct custom_msg; eapply cbuf_write_ok; eauto.
Qed.

(** X6: when [send_generic_page] returns 0 for a code other than 522, the
    last write is the HTML page, shorter than [BUF_SIZE]; the response is
    left with the content type "text/html" and with the length of that
    page as its content length, and for a full response the status line
    and the header block of that very response precede the page. *)
Theorem generic_page_announces_its_own_length :
  forall o r simple custom_msg c r' c',
    send_generic_page o r simple custom_msg c = (Ret (0, r'), c') ->
    Response.code r <> RESPONSE_STATUS_CONNECTION_TIMED_OUT ->
    exists body,
      c' = mk_conn (input c)
             (trace c
              ++ (if simple then []
                  else Write (status_line (Response.code r))
                       :: headers_writes o r')
              ++ [Write body])
      /\ r' = Response.mk (Response.code r) (Response.last_modified r)
                "text/html" (strlen body)
      /\ strlen body < BUF_SIZE.
Proof.
  intros o r simple custom_msg c r' c' H Hc. unfold send_generic_page in H.
  destruct (generic_message (Response.code r)) as [message|] eqn:M.
  2:{ apply generic_message_none in M. contradiction. }
  destruct (generic_page_html message custom_msg) as [b|] eqn:B;
    [|discriminate].
  pose proof (cbuf_ok_filled b (generic_page_html_ok _ _ _ B)) as L.
  rewrite bind_outer in H. exists (filled b).
  destruct simple; cbn [negb] in H.
  - rewrite coderesp_simple in H. cbn in H. inversion H; subst.
    repeat split. lia.
  - rewrite coderesp_full in H by exact Hc.
    destruct (headers_rc o _ =? 0) eqn:E; cbn [negb] in H.
    + cbn in H. inversion H; subst. cbn [Response.code].
      rewrite !app_trace_assoc. repeat split. lia.
    + cbn in H. inversion H.
Qed.

Lemma generic_page_announces_its_own_length_witness :
  let r := init_response RESPONSE_STATUS_NOT_FOUND in
  let r' := generic_page_response RESPONSE_STATUS_NOT_FOUND None in
  let c := mk_conn [] [] in
  let c' := mk_conn []
              (generic_page_writes example_os RESPONSE_STATUS_NOT_FOUND None) in
  send_generic_page example_os r false None c = (Ret (0, r'), c')
  /\ exists body,
       c' = mk_conn (input c)
              (trace c
               ++ (if false then []
                   else Write (status_line (Response.code r))
                        :: headers_writes example_os r')
               ++ [Write body])
       /\ r' = Response.mk (Response.code r) (Response.last_modified r)
                 "text/html" (strlen body)
       /\ strlen body < BUF_SIZE.
Proof.
  intros r r' c c'. split; [vm_compute; reflexivity|].
  apply (generic_page_announces_its_own_length example_os r false None c r'
           c').
  - vm_compute. reflexivity.
  - vm_compute. discriminate.
Defined.

Lemma error_status_cases : forall code,
  error_status code = true ->
  code = 400 \/ code = 403 \/ code = 404 \/ code = 500 \/ code = 501
  \/ code = 505.
Proof.
  unfold error_status. intros code H.
  repeat (apply orb_true_iff in H; destruct H as [H|H]);
    apply Z.eqb_eq in H; subst; cbv; auto 10.
Qed.

Lemma error_page_fits : forall code,
  error_status code = true ->
  exists message b,
    generic_message code = Some message
    /\ generic_page_html message None = Some b.
Proof.
  intros code H. apply error_status_cases in H.
  destruct H as [ -> | [ -> | [ -> | [ -> | [ -> | -> ]]]]];
    vm_compute; eexists; eexists; split; reflexivity.
Qed.

Lemma send_generic_page_run : forall o code simple custom_msg message b c,
  code <> RESPONSE_STATUS_CONNECTION_TIMED_OUT ->
  generic_message code = Some message ->
  generic_page_html message custom_msg = Some b ->
  send_generic_page o (init_response code) simple custom_msg c
  = (Ret (page_rc o simple code custom_msg,
          generic_page_response code custom_msg),
     mk_conn (input c) (trace c ++ page_writes o simple code custom_msg)).
Proof.
  intros o code simple custom_msg message b c Hc Hm Hb.
  destruct simple.
  - unfold send_generic_page, page_rc, page_writes, generic_page_response,
      generic_page_body.
    cbn [init_response Response.code Response.last_modified]. rewrite Hm, Hb.
    cbn [negb]. rewrite bind_outer, coderesp_simple. reflexivity.
  - apply (send_generic_page_full o code custom_msg message b c Hc Hm Hb).
Qed.

Lemma send_error_page : forall o code simple c,
  error_status code = true ->
  send_generic_page o (init_response code) simple None c
  = (Ret (page_rc o simple code None, generic_page_response code None),
     mk_conn (input c) (trace c ++ page_writes o simple code None)).
Proof.
  intros o code simple c H.
  destruct (error_page_fits code H) as (message & b & Hm & Hb).
  apply (send_generic_page_run o code simple None message b c); auto.
  apply error_status_cases in H. unfold RESPONSE_STATUS_CONNECTION_TIMED_OUT.
  lia.
Qed.

Lemma httpd_process_tokens : forall o flag buf,
  strtok_all buf CRLF <> [] ->
  httpd_process o flag buf
  = bind (dispatch o flag (parsed_request (os_zone o) buf)
            (header_parsing_failed (os_zone o) buf) (request_tokens buf))
         (respond o flag (is_simple (request_tokens buf))).
Proof.
  intros o flag buf H. unfold httpd_process, request_tokens.
  pose proof (parse_headers_pair (os_zone o) buf) as P.
  unfold header_lines in P.
  destruct (strtok_all buf CRLF) as [|rl hl]; [congruence|].
  cbn [tl] in P. rewrite P. reflexivity.
Qed.

Lemma dispatch_plain_bad_request : forall o flag newreq failed token c,
  failed = true \/ (List.length token <> 2 /\ List.length token <> 3)%nat ->
  exists d,
    dispatch o flag newreq failed token c = (Ret d, c)
    /\ d_response d = init_response RESPONSE_STATUS_BAD_REQUEST
    /\ Request.method (d_newreq d) = Request.method newreq.
Proof.
  intros o flag newreq failed token c H. unfold dispatch.
  assert (E : failed
              || negb (Nat.eqb (Nat.max 1 (List.length token)) 3)
                 && negb (Nat.eqb (Nat.max 1 (List.length token)) 2) = true).
  { destruct H as [->|[H2 H3]]; [reflexivity|].
    apply orb_true_iff. right.
    destruct token as [|t0 [|t1 [|t2 [|t3 token]]]]; cbn in *;
      try reflexivity; congruence. }
  rewrite E. eexists. split; [reflexivity|].
  cbn [d_response d_newreq]. split; [reflexivity|].
  destruct (Nat.eqb (Nat.max 1 (List.length token)) 2); now destruct newreq.
Qed.

Lemma strtok_all_line_ends : forall s,
  only_line_ends s = true -> strtok_all s CRLF = [].
Proof.
  unfold strtok_all. induction s as [|c s IH]; intro H; [reflexivity|].
  cbn [only_line_ends] in H. apply andb_true_iff in H. destruct H as [Hc Hs].
  cbn [strtok_go]. rewrite Hc. apply IH. exact Hs.
Qed.

(** X14: a request that consists of carriage returns and line feeds only
    (and holds the blank line) makes the first [strtok] return NULL, which
    [strncpy] then reads: the behaviour is undefined, and nothing has been
    written to the client. *)
Theorem request_of_line_ends_only_is_undefined :
  forall o flag script tr buf rest,
    request_received script buf rest ->
    only_line_ends buf = true ->
    httpd o flag (mk_conn script tr) = (Undef, mk_conn rest tr).
Proof.
  intros o flag script tr buf rest Hrecv Hb.
  rewrite (httpd_request_received _ _ _ _ _ _ Hrecv).
  unfold httpd_process.
  rewrite (strtok_all_line_ends buf Hb). reflexivity.
Qed.

Lemma request_of_line_ends_only_is_undefined_witness :
  let buf := CRLF ++ CRLF in
  httpd example_os example_flags (mk_conn [Data buf] [])
  = (Undef, mk_conn [] []).
Proof.
  intros buf.
  apply (request_of_line_ends_only_is_undefined example_os example_flags
           [Data buf] [] buf []).
  - exists buf. repeat split; vm_compute; congruence.
  - reflexivity.
Defined.

(** X7: for a response whose code is none of the eight that [coderesp]
    knows, a full response starts with the status line "HTTP/1.0 500
    Internal Server Error"; the header block is that of the response as
    it stands. *)
Theorem unknown_status_code_goes_out_as_500 : forall o r c,
  known_status (Response.code r) = false ->
  coderesp o r true c
  = (Ret (headers_rc o r),
     mk_conn (input c)
       (trace c ++ Write ("HTTP/1.0 500 Internal Server Error" ++ CRLF)
                :: headers_writes o r)).
Proof.
  intros o r c H. unfold known_status, error_status in H.
  repeat (apply orb_false_iff in H; destruct H as [H ?]).
  rewrite coderesp_full by (apply Z.eqb_neq; assumption).
  unfold status_line, reason_phrase.
  repeat match goal with E : (_ =? _) = false |- _ => rewrite E; clear E end.
  reflexivity.
Qed.

Lemma unknown_status_code_goes_out_as_500_witness :
  let r := init_response 999 in
  let c := mk_conn [] [] in
  coderesp example_os r true c
  = (Ret (headers_rc example_os r),
     mk_conn (input c)
       (trace c ++ Write ("HTTP/1.0 500 Internal Server Error" ++ CRLF)
                :: headers_writes example_os r)).
Proof.
  intros r c.
  apply (unknown_status_code_goes_out_as_500 example_os r c).
  reflexivity.
Defined.

Lemma cgi_environment_entry_length : forall rq entry,
  strlen (Request.content_type rq) <= 63 ->
  In (Some entry) (cgi_environment rq) ->
  strlen entry <= 77.
Proof.
  intros rq entry Ht H. unfold cgi_environment in H.
  apply in_app_or in H. destruct H as [H|H].
  - destruct (_ || _); [destruct H as [H|[]]; discriminate|destruct H].
  - pose proof (strlen_fmt_d (Request.content_length rq)).
    pose proof (strlen_nonneg (fmt_d (Request.content_length rq))).
    pose proof (strlen_nonneg (Request.content_type rq)).
    destruct H as [H|[H|[H|[]]]].
    + assert (E : entry
                  = if Request.method rq =? REQUEST_METHOD_GET
                    then "REQUEST_METHOD =GET"
                    else if Request.method rq =? REQUEST_METHOD_HEAD
                    then "REQUEST_METHOD =HEAD" else "REQUEST_METHOD =POST")
        by congruence.
      rewrite E. destruct (_ =? _); [|destruct (_ =? _)]; cbn; lia.
    + assert (E : entry
                  = "CONTENT_LENGTH =" ++ fmt_d (Request.content_length rq))
        by congruence.
      rewrite E, strlen_append. change (strlen "CONTENT_LENGTH =") with 16.
      lia.
    + assert (E : entry = "CONTENT_TYPE =" ++ Request.content_type rq)
        by congruence.
      rewrite E, strlen_append. change (strlen "CONTENT_TYPE =") with 14. lia.
Qed.

(** The header block of a response as [init_response] leaves it: no
    modification time and no content type, and the content length 0. *)
Lemma headers_writes_initial : forall o code now,
  time_to_http_date (os_time o) 128 = Some now ->
  headers_writes o (init_response code)
  = [Write ("Date: " ++ now ++ CRLF
            ++ "Server: sws/1.0" ++ CRLF
            ++ "Content-Length: 0" ++ CRLF
            ++ CRLF)].
Proof.
  intros o code now Hnow.
  pose proof (time_to_http_date_fits _ _ _ Hnow) as Ln.
  pose proof (strlen_nonneg now).
  unfold headers_writes, coderesp_headers_text, cbuf_write_if, init_response.
  cbn [Response.last_modified Response.content_type Response.content_length].
  rewrite Hnow.
  change (-1 =? -1) with true. change (0 <? strlen "") with false.
  change (0 <=? 0) with true.
  lazy beta iota delta [obind].
  unfold cbuf_new.
  repeat (rewrite cbuf_write_fits;
          [|rewrite ?cbuf_remain_mk, ?strlen_append;
            try change (strlen "Date: ") with 6;
            try change (strlen "Server: ") with 8;
            try change (strlen SERVER_ID) with 7;
            try change (strlen "Content-Length: ") with 16;
            try change (strlen (fmt_d 0)) with 1;
            try change (strlen CRLF) with 2;
            unfold BUF_SIZE; lia]).
  rewrite !cbuf_filled_mk.
  change ("" ++ "Date: " ++ now ++ CRLF) with ("Date: " ++ now ++ CRLF).
  rewrite !append_assoc. reflexivity.
Qed.

(* ================================================================== *)
(** * The reading loop: silence, failure, bounds *)
(* ================================================================== *)

Lemma c_str_app : forall x y, exists r, c_str (x ++ y) = c_str x ++ r.
Proof.
  induction x as [|c x IH]; intro y.
  - exists (c_str y). reflexivity.
  - cbn [append c_str]. destruct (Ascii.eqb c NUL).
    + exists "". reflexivity.
    + destruct (IH y) as [r E]. exists r. rewrite E. reflexivity.
Qed.

Lemma strstr_c_str_app_none : forall x y needle,
  strstr (c_str (x ++ y)) needle = None -> strstr (c_str x) needle = None.
Proof.
  intros x y needle H. destruct (c_str_app x y) as [r E].
  rewrite E in H. eapply strstr_app_none; eauto.
Qed.

(** The reading loop on a client that stops before the blank line: every
    chunk is stored, and the event after the chunks decides. *)
Lemma read_request_chunks : forall chunks buf remain_buf ev rest,
  Forall (fun s => s <> "") chunks ->
  strlen (CString.concat chunks) <= remain_buf ->
  strstr (c_str (buf ++ CString.concat chunks)) (CRLF ++ CRLF) = None ->
  ev = Timeout \/ ev = ReadError ->
  read_request (map Data chunks ++ ev :: rest) buf remain_buf
  = (match ev with Timeout => ReadTimedOut | _ => ReadFailed end, rest).
Proof.
  induction chunks as [|s chunks IH]; intros buf remain ev rest Hne Hlen Hstr Hev.
  - destruct Hev as [->| ->]; reflexivity.
  - inversion Hne as [|? ? Hs Hne']; subst.
    cbn [map List.app read_request].
    cbn [CString.concat] in Hlen, Hstr. rewrite strlen_append in Hlen.
    pose proof (strlen_nonneg (CString.concat chunks)).
    assert (0 < strlen s).
    { destruct s; [congruence|]. unfold strlen. cbn. lia. }
    replace (strlen s =? 0) with false by (symmetry; apply Z.eqb_neq; lia).
    replace (remain =? 0) with false by (symmetry; apply Z.eqb_neq; lia).
    replace (remain <? strlen s) with false by (symmetry; apply Z.ltb_ge; lia).
    rewrite <- append_assoc in Hstr.
    rewrite (strstr_c_str_app_none _ _ _ Hstr).
    apply IH; auto. lia.
Qed.

Lemma coderesp_timed_out : forall o c,
  coderesp o (init_response RESPONSE_STATUS_CONNECTION_TIMED_OUT) true c
  = (Exit,
     mk_conn (input c)
       (trace c ++ Write ("HTTP/1.0 522 Connection Timed Out" ++ CRLF)
                :: headers_writes o
                     (init_response RESPONSE_STATUS_CONNECTION_TIMED_OUT))).
Proof.
  intros o c. unfold coderesp.
  cbn [negb init_response Response.code].
  rewrite status_line_fits.
  rewrite bind_outer. unfold write_socket, emit.
  rewrite bind_outer, coderesp_headers_run. cbn [input trace].
  rewrite app_trace_assoc. reflexivity.
Qed.

(** X12: when the client falls silent before the blank line has arrived,
    [wait_for_data] has the status line "522 Connection Timed Out" and
    the header block sent and [coderesp] ends the process; the header
    block announces the content length 0. *)
Theorem silent_client_gets_522_and_the_process_exits :
  forall o flag chunks rest tr,
    Forall (fun s => s <> "") chunks ->
    strlen (CString.concat chunks) <= BUF_SIZE - 1 ->
    strstr (CString.concat chunks) (CRLF ++ CRLF) = None ->
    httpd o flag (mk_conn (map Data chunks ++ Timeout :: rest) tr)
    = (Exit,
       mk_conn rest
         (tr ++ Write ("HTTP/1.0 522 Connection Timed Out" ++ CRLF)
             :: headers_writes o
                  (init_response RESPONSE_STATUS_CONNECTION_TIMED_OUT)))
    /\ (forall now,
          time_to_http_date (os_time o) 128 = Some now ->
          headers_writes o (init_response RESPONSE_STATUS_CONNECTION_TIMED_OUT)
          = [Write ("Date: " ++ now ++ CRLF
                    ++ "Server: sws/1.0" ++ CRLF
                    ++ "Content-Length: 0" ++ CRLF
                    ++ CRLF)]).
Proof.
  intros o flag chunks rest tr Hne Hlen Hstr.
  split; [|apply headers_writes_initial].
  unfold httpd. cbn [input trace].
  rewrite (read_request_chunks chunks "" (BUF_SIZE - 1) Timeout rest);
    auto; [|apply strstr_c_str_none; exact Hstr].
  rewrite bind_outer, coderesp_timed_out. reflexivity.
Qed.

Lemma silent_client_gets_522_and_the_process_exits_witness :
  let chunks := ["GET / HT"; "TP/1.0" ++ CRLF] in
  httpd example_os example_flags
    (mk_conn (map Data chunks ++ Timeout :: []) [])
  = (Exit,
     mk_conn []
       ([] ++ Write ("HTTP/1.0 522 Connection Timed Out" ++ CRLF)
           :: headers_writes example_os
                (init_response RESPONSE_STATUS_CONNECTION_TIMED_OUT)))
  /\ (forall now,
        time_to_http_date (os_time example_os) 128 = Some now ->
        headers_writes example_os
          (init_response RESPONSE_STATUS_CONNECTION_TIMED_OUT)
        = [Write ("Date: " ++ now ++ CRLF
                  ++ "Server: sws/1.0" ++ CRLF
                  ++ "Content-Length: 0" ++ CRLF
                  ++ CRLF)]).
Proof.
  intros chunks.
  apply (silent_client_gets_522_and_the_process_exits example_os
           example_flags chunks [] []).
  - repeat constructor; discriminate.
  - vm_compute. discriminate.
  - vm_compute. reflexivity.
Defined.

(** X13: when [read] fails before the blank line has arrived, [httpd]
    returns -1 and nothing is written to the client. *)
Theorem read_error_ends_the_connection_silently :
  forall o flag chunks rest tr,
    Forall (fun s => s <> "") chunks ->
    strlen (CString.concat chunks) <= BUF_SIZE - 1 ->
    strstr (CString.concat chunks) (CRLF ++ CRLF) = None ->
    httpd o flag (mk_conn (map Data chunks ++ ReadError :: rest) tr)
    = (Ret (-1, None), mk_conn rest tr).
Proof.
  intros o flag chunks rest tr Hne Hlen Hstr.
  unfold httpd. cbn [input trace].
  rewrite (read_request_chunks chunks "" (BUF_SIZE - 1) ReadError rest);
    auto. apply strstr_c_str_none; exact Hstr.
Qed.

Lemma read_error_ends_the_connection_silently_witness :
  let chunks := ["GET / HT"; "TP/1.0" ++ CRLF] in
  httpd example_os example_flags
    (mk_conn (map Data chunks ++ ReadError :: []) [])
  = (Ret (-1, None), mk_conn [] []).
Proof.
  intros chunks.
  apply (read_error_ends_the_connection_silently example_os example_flags
           chunks [] []).
  - repeat constructor; discriminate.
  - vm_compute. discriminate.
  - vm_compute. reflexivity.
Defined.

Lemma read_request_bound : forall script buf remain_buf buf' rest,
  0 <= remain_buf ->
  read_request script buf remain_buf = (ReadDone buf', rest) ->
  exists more,
    buf' = buf ++ more /\ strlen more <= remain_buf
    /\ forall bytes, received script = Some bytes ->
         option_map (append more) (received rest) = Some bytes.
Proof.
  induction script as [|ev script IH]; intros buf remain buf' rest Hr H.
  - cbn in H. inversion H; subst. exists "".
    rewrite append_nil_r. cbn. repeat split; auto.
  - destruct ev as [bytes| |]; cbn [read_request] in H; try discriminate.
    destruct (strlen bytes =? 0) eqn:E0.
    { inversion H; subst. exists "". rewrite append_nil_r.
      repeat split; [cbn; lia|].
      intros b Hb. cbn [received] in Hb.
      apply Z.eqb_eq in E0. destruct bytes; [|unfold strlen in E0; cbn in E0; lia].
      destruct (received rest); cbn in *; congruence. }
    destruct (remain =? 0) eqn:E1.
    { inversion H; subst. exists "". rewrite append_nil_r.
      repeat split; [cbn; lia|].
      intros b Hb. rewrite Hb. reflexivity. }
    apply Z.eqb_neq in E0, E1.
    destruct (remain <? strlen bytes) eqn:E2.
    { inversion H; subst. exists (take (Z.to_nat remain) bytes).
      repeat split.
      - pose proof (length_take (Z.to_nat remain) bytes). unfold strlen. lia.
      - intros b Hb. cbn [received] in Hb |- *.
        destruct (received script) as [r|]; [|discriminate].
        cbn in Hb |- *. inversion Hb; subst.
        rewrite <- append_assoc, take_drop. reflexivity. }
    apply Z.ltb_ge in E2.
    destruct (strstr (c_str (buf ++ bytes)) (CRLF ++ CRLF)) eqn:E3.
    { inversion H; subst. exists bytes. repeat split; [lia|].
      intros b Hb. exact Hb. }
    pose proof (strlen_nonneg bytes).
    destruct (IH (buf ++ bytes) (remain - strlen bytes) buf' rest
                ltac:(lia) H) as (more & Eb & Lm & Hc).
    exists (bytes ++ more). repeat split.
    + rewrite Eb. apply append_assoc.
    + rewrite strlen_append. lia.
    + intros b Hb. cbn [received] in Hb.
      destruct (received script) as [r|] eqn:Er; [|discriminate].
      cbn in Hb. inversion Hb; subst.
      specialize (Hc r eq_refl).
      destruct (received rest) as [rr|]; [|discriminate].
      cbn in Hc |- *. inversion Hc; subst. now rewrite append_assoc.
Qed.

(** X11: whatever the client sends, the reading loop of [httpd] stores
    at most [BUF_SIZE - 1] bytes, and no byte is lost: the bytes stored
    followed by the bytes still to be read are the bytes of the stream. *)
Theorem request_buffer_is_never_overrun :
  forall script buf rest,
    read_request script "" (BUF_SIZE - 1) = (ReadDone buf, rest) ->
    strlen buf <= BUF_SIZE - 1
    /\ forall bytes, received script = Some bytes ->
         option_map (append buf) (received rest) = Some bytes.
Proof.
  intros script buf rest H.
  destruct (read_request_bound script "" (BUF_SIZE - 1) buf rest
              ltac:(unfold BUF_SIZE; lia) H) as (more & E & L & C).
  cbn in E. subst more. auto.
Qed.

Lemma request_buffer_is_never_overrun_witness :
  let script := [Data "GET / HT";
                 Data ("TP/1.0" ++ CRLF ++ CRLF ++ "a=b"); Data "c=d"] in
  let buf := "GET / HTTP/1.0" ++ CRLF ++ CRLF ++ "a=b" in
  let rest := [Data "c=d"] in
  strlen buf <= BUF_SIZE - 1
  /\ forall bytes, received script = Some bytes ->
       option_map (append buf) (received rest) = Some bytes.
Proof.
  intros script buf rest.
  apply (request_buffer_is_never_overrun script buf rest).
  vm_compute. reflexivity.
Defined.

(* ================================================================== *)
(** * The request line and the header lines *)
(* ================================================================== *)

Lemma httpd_run : forall o flag script tr buf rest d c' rc r c'',
  request_received script buf rest ->
  strtok_all buf CRLF <> [] ->
  dispatch o flag (parsed_request (os_zone o) buf)
    (header_parsing_failed (os_zone o) buf) (request_tokens buf)
    (mk_conn rest tr) = (Ret d, c') ->
  respond o flag (is_simple (request_tokens buf)) d c' = (Ret (rc, r), c'') ->
  httpd o flag (mk_conn script tr) = (Ret (rc, Some r), c'').
Proof.
  intros o flag script tr buf rest d c' rc r c'' Hrecv Htok Hd Hr.
  rewrite (httpd_request_received _ _ _ _ _ _ Hrecv).
  rewrite httpd_process_tokens by exact Htok.
  rewrite (bind_bind_run _ _ _ _ _ _ _ _ _ Hd).
  rewrite (bind_run _ _ _ _ _ _ _ Hr). reflexivity.
Qed.

Lemma respond_plain_error : forall o flag simple d code c,
  d_response d = init_response code ->
  error_status code = true ->
  Request.method (d_newreq d) <> REQUEST_METHOD_POST ->
  respond o flag simple d c
  = (Ret (page_rc o simple code None, generic_page_response code None),
     mk_conn (input c) (trace c ++ page_writes o simple code None)).
Proof.
  intros o flag simple d code c Hd He Hm.
  rewrite respond_not_ok.
  - apply Z.eqb_neq in Hm. rewrite Hm, Hd. cbn [andb].
    apply send_error_page. exact He.
  - rewrite Hd. cbn. apply error_status_cases in He.
    unfold RESPONSE_STATUS_OK. lia.
Qed.

Lemma tokens_nonempty : forall buf,
  request_tokens buf <> [] -> strtok_all buf CRLF <> [].
Proof.
  intros buf H E. apply H. unfold request_tokens. now rewrite E.
Qed.

(** X15: a request line with neither two nor three tokens is answered
    with a full 400 page, and the URI is not resolved. *)
Theorem wrong_token_count_is_bad_request :
  forall o flag script tr buf rest,
    request_received script buf rest ->
    strtok_all buf CRLF <> [] ->
    List.length (request_tokens buf) <> 2%nat ->
    List.length (request_tokens buf) <> 3%nat ->
    httpd o flag (mk_conn script tr)
    = (Ret (headers_rc o (generic_page_response RESPONSE_STATUS_BAD_REQUEST
                            None),
            Some (generic_page_response RESPONSE_STATUS_BAD_REQUEST None)),
       mk_conn rest
         (tr ++ generic_page_writes o RESPONSE_STATUS_BAD_REQUEST None)).
Proof.
  intros o flag script tr buf rest Hrecv Hne H2 H3.
  destruct (dispatch_plain_bad_request o flag (parsed_request (os_zone o) buf)
              (header_parsing_failed (os_zone o) buf) (request_tokens buf)
              (mk_conn rest tr)) as (d & Hd & Hresp & Hmeth); [right; auto|].
  assert (S : is_simple (request_tokens buf) = false).
  { unfold is_simple.
    destruct (request_tokens buf) as [|t0 [|t1 [|t2 l]]]; cbn in *;
      try reflexivity; congruence. }
  eapply httpd_run; eauto.
  rewrite S.
  rewrite (respond_plain_error o flag false d RESPONSE_STATUS_BAD_REQUEST);
    [reflexivity|exact Hresp|reflexivity|].
  rewrite Hmeth, parsed_request_method. discriminate.
Qed.

Lemma wrong_token_count_is_bad_request_witness :
  let buf := "GET /a.txt HTTP/1.0 please" ++ CRLF ++ CRLF in
  httpd example_os example_flags (mk_conn [Data buf] [])
  = (Ret (headers_rc example_os
            (generic_page_response RESPONSE_STATUS_BAD_REQUEST None),
          Some (generic_page_response RESPONSE_STATUS_BAD_REQUEST None)),
     mk_conn []
       ([] ++ generic_page_writes example_os RESPONSE_STATUS_BAD_REQUEST
                None)).
Proof.
  intros buf.
  apply (wrong_token_count_is_bad_request example_os example_flags
           [Data buf] [] buf []).
  - exists buf. repeat split; vm_compute; congruence.
  - vm_compute. discriminate.
  - vm_compute. discriminate.
  - vm_compute. discriminate.
Defined.

Lemma header_if_modified_since_fails : forall zone h rq,
  18 < strlen h ->
  strncasecmp h IF_MODIFIED_SINCE_PREFIX 18 = 0 ->
  http_date_to_time zone (skip_spaces (drop 18 h)) = None ->
  parse_header_line zone h rq = None.
Proof.
  intros zone h rq L P D. unfold parse_header_line, header_if_modified_since.
  change (String.length IF_MODIFIED_SINCE_PREFIX) with 18%nat.
  change (Z.of_nat 18) with 18.
  apply Z.ltb_lt in L. rewrite L, P, D. reflexivity.
Qed.

Lemma parse_headers_fails : forall zone hl rq h,
  In h hl ->
  18 < strlen h ->
  strncasecmp h IF_MODIFIED_SINCE_PREFIX 18 = 0 ->
  http_date_to_time zone (skip_spaces (drop 18 h)) = None ->
  snd (parse_headers zone hl rq) = true.
Proof.
  induction hl as [|x hl IH]; intros rq h Hin L P D; [destruct Hin|].
  cbn [parse_headers].
  destruct (parse_header_line zone x rq) as [rq'|] eqn:E; [|reflexivity].
  destruct Hin as [->|Hin].
  - rewrite header_if_modified_since_fails in E by assumption. discriminate.
  - eapply IH; eauto.
Qed.

(** X16: when any header line has the If-Modified-Since prefix, more
    than 18 characters and a date that [http_date_to_time] rejects, the
    request is answered with the 400 page whatever its request line says
    (the page alone for a request line of two tokens), and the URI is not
    resolved. *)
Theorem unparsable_if_modified_since_is_bad_request :
  forall o flag script tr buf rest h,
    request_received script buf rest ->
    In h (header_lines buf) ->
    18 < strlen h ->
    strncasecmp h IF_MODIFIED_SINCE_PREFIX 18 = 0 ->
    http_date_to_time (os_zone o) (skip_spaces (drop 18 h)) = None ->
    let simple := is_simple (request_tokens buf) in
    httpd o flag (mk_conn script tr)
    = (Ret (page_rc o simple RESPONSE_STATUS_BAD_REQUEST None,
            Some (generic_page_response RESPONSE_STATUS_BAD_REQUEST None)),
       mk_conn rest
         (tr ++ page_writes o simple RESPONSE_STATUS_BAD_REQUEST None)).
Proof.
  intros o flag script tr buf rest h Hrecv Hin L P D simple.
  assert (F : header_parsing_failed (os_zone o) buf = true).
  { unfold header_parsing_failed. eapply parse_headers_fails; eauto. }
  assert (Hne : strtok_all buf CRLF <> []).
  { intro E. unfold header_lines in Hin. rewrite E in Hin. destruct Hin. }
  destruct (dispatch_plain_bad_request o flag (parsed_request (os_zone o) buf)
              (header_parsing_failed (os_zone o) buf) (request_tokens buf)
              (mk_conn rest tr)) as (d & Hd & Hresp & Hmeth); [left; auto|].
  eapply httpd_run; eauto.
  fold simple.
  rewrite (respond_plain_error o flag simple d RESPONSE_STATUS_BAD_REQUEST);
    [reflexivity|exact Hresp|reflexivity|].
  rewrite Hmeth, parsed_request_method. discriminate.
Qed.

Lemma unparsable_if_modified_since_is_bad_request_witness :
  let buf := "GET /a.txt HTTP/1.0" ++ CRLF
             ++ "If-Modified-Since: yesterday" ++ CRLF ++ CRLF in
  let simple := is_simple (request_tokens buf) in
  httpd example_os example_flags (mk_conn [Data buf] [])
  = (Ret (page_rc example_os simple RESPONSE_STATUS_BAD_REQUEST None,
          Some (generic_page_response RESPONSE_STATUS_BAD_REQUEST None)),
     mk_conn []
       ([] ++ page_writes example_os simple RESPONSE_STATUS_BAD_REQUEST
                None)).
Proof.
  intros buf.
  apply (unparsable_if_modified_since_is_bad_request example_os example_flags
           [Data buf] [] buf [] "If-Modified-Since: yesterday").
  - exists buf. repeat split; vm_compute; congruence.
  - vm_compute. left. reflexivity.
  - vm_compute. reflexivity.
  - vm_compute. reflexivity.
  - vm_compute. reflexivity.
Defined.

Lemma dispatch_not_implemented : forall o flag newreq method uri versions c,
  (versions = [] /\ strcasecmp method "GET" <> 0)
  \/ (exists version,
        versions = [version]
        /\ strncasecmp version HTTP_VERSION_1 8 = 0
        /\ strcasecmp method "GET" <> 0
        /\ strcasecmp method "HEAD" <> 0
        /\ strcasecmp method "POST" <> 0) ->
  exists d,
    dispatch o flag newreq false (method :: uri :: versions) c = (Ret d, c)
    /\ d_response d = init_response RESPONSE_STATUS_NOT_IMPLEMENTED
    /\ Request.method (d_newreq d) = Request.method newreq.
Proof.
  intros o flag newreq m uri vs c H. unfold dispatch.
  destruct H as [[-> Hg]|(v & -> & Hv & Hg & Hh & Hp)];
    cbn [List.length Nat.max Nat.eqb negb orb andb nth Nat.sub].
  - apply Z.eqb_neq in Hg. rewrite Hg, !andb_false_r.
    eexists. split; [reflexivity|]. cbn [d_response d_newreq].
    split; [reflexivity|now destruct newreq].
  - apply Z.eqb_neq in Hg, Hh, Hp. rewrite Hv, Hg, Hh, Hp.
    cbn [Z.eqb negb andb].
    eexists. split; [reflexivity|]. cbn [d_response d_newreq].
    split; [reflexivity|now destruct newreq].
Qed.

(** X17: a full request whose method is none of GET, HEAD and POST, and
    a simple request (two tokens) whose method is not GET, is answered
    with the 501 page; the URI is not resolved.  A simple HEAD or POST is
    among them. *)
Theorem other_method_is_not_implemented :
  forall o flag script tr buf rest method uri versions,
    request_received script buf rest ->
    request_tokens buf = method :: uri :: versions ->
    header_parsing_failed (os_zone o) buf = false ->
    (versions = [] /\ strcasecmp method "GET" <> 0)
    \/ (exists version,
          versions = [version]
          /\ strncasecmp version HTTP_VERSION_1 8 = 0
          /\ strcasecmp method "GET" <> 0
          /\ strcasecmp method "HEAD" <> 0
          /\ strcasecmp method "POST" <> 0) ->
    let simple := match versions with [] => true | _ => false end in
    httpd o flag (mk_conn script tr)
    = (Ret (page_rc o simple RESPONSE_STATUS_NOT_IMPLEMENTED None,
            Some (generic_page_response RESPONSE_STATUS_NOT_IMPLEMENTED None)),
       mk_conn rest
         (tr ++ page_writes o simple RESPONSE_STATUS_NOT_IMPLEMENTED None)).
Proof.
  intros o flag script tr buf rest m uri vs Hrecv Htok Hhdr Hm simple.
  destruct (dispatch_not_implemented o flag (parsed_request (os_zone o) buf)
              m uri vs (mk_conn rest tr) Hm) as (d & Hd & Hresp & Hmeth).
  assert (S : is_simple (request_tokens buf) = simple).
  { rewrite Htok. subst simple.
    destruct Hm as [[-> _]|(v & -> & _)]; reflexivity. }
  eapply httpd_run; eauto.
  - apply tokens_nonempty. rewrite Htok. discriminate.
  - rewrite Hhdr, Htok. exact Hd.
  - rewrite S.
    rewrite (respond_plain_error o flag simple d
               RESPONSE_STATUS_NOT_IMPLEMENTED);
      [reflexivity|exact Hresp|reflexivity|].
    rewrite Hmeth, parsed_request_method. discriminate.
Qed.

Lemma other_method_is_not_implemented_witness :
  let buf := "PUT /a.txt HTTP/1.0" ++ CRLF ++ CRLF in
  httpd example_os example_flags (mk_conn [Data buf] [])
  = (Ret (page_rc example_os false RESPONSE_STATUS_NOT_IMPLEMENTED None,
          Some (generic_page_response RESPONSE_STATUS_NOT_IMPLEMENTED None)),
     mk_conn []
       ([] ++ page_writes example_os false RESPONSE_STATUS_NOT_IMPLEMENTED
                None)).
Proof.
  intros buf.
  apply (other_method_is_not_implemented example_os example_flags
           [Data buf] [] buf [] "PUT" "/a.txt" ["HTTP/1.0"]).
  - exists buf. repeat split; vm_compute; congruence.
  - reflexivity.
  - reflexivity.
  - right. exists "HTTP/1.0".
    repeat split; vm_compute; congruence.
Defined.

Lemma dispatch_get_head_fails : forall o flag newreq method uri c res,
  resolve o flag method uri = Some res ->
  cu_status res <> RESPONSE_STATUS_OK ->
  exists d,
    dispatch_get_head o flag newreq method uri c
    = (Ret d, mk_conn (input c) (trace c ++ [Checkuri uri]))
    /\ d_response d = init_response (cu_status res)
    /\ Request.method (d_newreq d) = method.
Proof.
  intros o flag newreq method uri c res Hres Hne.
  unfold dispatch_get_head.
  set (rq := Request.set_path uri _).
  destruct (call_checkuri_resolve o flag rq c res)
    as (res' & Hcall & Hv & Hm & _).
  { subst rq. destruct newreq. exact Hres. }
  unfold verdict in Hv. inversion Hv as [[Hr Hs Hp Hc]].
  rewrite (bind_run _ _ _ _ _ _ _ Hcall).
  apply Z.eqb_neq in Hne. rewrite Hs, Hne.
  eexists. split; [reflexivity|].
  cbn [d_response d_newreq]. split; [reflexivity|].
  rewrite Hm. subst rq. now destruct newreq.
Qed.

Lemma resolve_error_status : forall o flag method uri res,
  resolve o flag method uri = Some res ->
  cu_status res <> RESPONSE_STATUS_OK ->
  error_status (cu_status res) = true.
Proof.
  intros o flag method uri res H N. unfold resolve in H.
  destruct (checkuri_cases _ _ _ _ _ H) as [(_ & E & _)|(_ & _ & E)];
    [congruence|].
  destruct E as [E|[E|[E|E]]]; rewrite E; reflexivity.
Qed.

(** X18: a GET (full or simple) or a full HEAD whose URI [checkuri]
    turns down is answered with the generic page of the status that
    [checkuri] reports: status line, header block and HTML page for a full
    request (for HEAD too), the page alone for a simple one. *)
Theorem unresolved_uri_is_answered_with_its_status :
  forall o flag script tr buf rest method uri versions m res,
    request_received script buf rest ->
    request_tokens buf = method :: uri :: versions ->
    header_parsing_failed (os_zone o) buf = false ->
    (versions = [] /\ m = REQUEST_METHOD_GET /\ strcasecmp method "GET" = 0)
    \/ (exists version,
          versions = [version]
          /\ strncasecmp version HTTP_VERSION_1 8 = 0
          /\ (m = REQUEST_METHOD_GET /\ strcasecmp method "GET" = 0
              \/ m = REQUEST_METHOD_HEAD /\ strcasecmp method "HEAD" = 0)) ->
    resolve o flag m uri = Some res ->
    cu_status res <> RESPONSE_STATUS_OK ->
    let simple := match versions with [] => true | _ => false end in
    httpd o flag (mk_conn script tr)
    = (Ret (page_rc o simple (cu_status res) None,
            Some (generic_page_response (cu_status res) None)),
       mk_conn rest
         (tr ++ Checkuri uri :: page_writes o simple (cu_status res) None)).
Proof.
  intros o flag script tr buf rest method uri vs m res Hrecv Htok Hhdr Hm
    Hres Hne simple.
  destruct (dispatch_get_head_fails o flag
              (Request.set_version (if simple then 0 else 1)
                 (if simple then 9 else 0) (parsed_request (os_zone o) buf))
              m uri (mk_conn rest tr) res Hres Hne)
    as (d & Hd & Hresp & Hmeth).
  assert (S : is_simple (request_tokens buf) = simple).
  { rewrite Htok. subst simple.
    destruct Hm as [[-> _]|(v & -> & _)]; reflexivity. }
  assert (Hmm : m <> REQUEST_METHOD_POST).
  { destruct Hm as [(_ & -> & _)|(v & _ & _ & [[-> _]|[-> _]])]; discriminate. }
  eapply httpd_run; eauto.
  - apply tokens_nonempty. rewrite Htok. discriminate.
  - rewrite Hhdr, Htok.
    destruct Hm as [(-> & -> & Hg)|(v & -> & Hv & [[-> Hg]|[-> Hh]])].
    + rewrite dispatch_simple_get by assumption. exact Hd.
    + rewrite dispatch_method_get by assumption. exact Hd.
    + rewrite dispatch_method_head by assumption. exact Hd.
  - rewrite S.
    rewrite (respond_plain_error o flag simple d (cu_status res));
      [|exact Hresp|eapply resolve_error_status; eauto|congruence].
    cbn [input trace]. rewrite app_trace_assoc. reflexivity.
Qed.

Lemma unresolved_uri_is_answered_with_its_status_witness :
  let buf := "HEAD /missing HTTP/1.0" ++ CRLF ++ CRLF in
  httpd example_os example_flags (mk_conn [Data buf] [])
  = (Ret (page_rc example_os false RESPONSE_STATUS_NOT_FOUND None,
          Some (generic_page_response RESPONSE_STATUS_NOT_FOUND None)),
     mk_conn []
       ([] ++ Checkuri "/missing"
           :: page_writes example_os false RESPONSE_STATUS_NOT_FOUND None)).
Proof.
  intros buf.
  apply (unresolved_uri_is_answered_with_its_status example_os example_flags
           [Data buf] [] buf [] "HEAD" "/missing" ["HTTP/1.0"]
           REQUEST_METHOD_HEAD
           (mk_checkuri (-1) (example_request REQUEST_METHOD_HEAD "/missing")
              RESPONSE_STATUS_NOT_FOUND None false)).
  - exists buf. repeat split; vm_compute; congruence.
  - reflexivity.
  - reflexivity.
  - right. exists "HTTP/1.0". split; [reflexivity|].
    split; [reflexivity|]. right. split; reflexivity.
  - reflexivity.
  - vm_compute. discriminate.
Defined.

(* ================================================================== *)
(** * Static files *)
(* ================================================================== *)

Lemma length_drop : forall n s,
  String.length (drop n s) = (String.length s - n)%nat.
Proof.
  induction n as [|n IH]; intros s; cbn.
  - lia.
  - destruct s; cbn; [reflexivity|apply IH].
Qed.

Lemma send_chunks_run : forall fuel bytes c,
  (String.length bytes <= fuel)%nat ->
  exists body,
    send_chunks fuel bytes c = (Ret tt, mk_conn (input c) (trace c ++ body))
    /\ sent body = bytes
    /\ forallb (write_upto BUF_SIZE) body = true.
Proof.
  induction fuel as [|fuel IH]; intros bytes c L.
  - destruct bytes; [|cbn in L; lia].
    exists []. cbn. rewrite app_nil_r. destruct c; auto.
  - destruct bytes as [|b bytes].
    + exists []. cbn. rewrite app_nil_r. destruct c; auto.
    + cbn [send_chunks]. set (s := String b bytes) in *.
      destruct (IH (drop (Z.to_nat BUF_SIZE) s)
                  (mk_conn (input c)
                     (trace c ++ [Write (take (Z.to_nat BUF_SIZE) s)])))
        as (body & E & S & F).
      { rewrite length_drop. subst s. cbn [String.length] in *.
        change (Z.to_nat BUF_SIZE) with 4096%nat. lia. }
      exists (Write (take (Z.to_nat BUF_SIZE) s) :: body).
      split; [|split].
      * rewrite bind_outer. unfold write_socket, emit.
        rewrite E. cbn [input trace]. rewrite app_trace_assoc. reflexivity.
      * cbn [sent]. rewrite S. apply take_drop.
      * cbn [forallb write_upto]. rewrite F, andb_true_r.
        apply Z.leb_le. pose proof (length_take (Z.to_nat BUF_SIZE) s).
        unfold strlen. change (Z.to_nat BUF_SIZE) with 4096%nat in *.
        change BUF_SIZE with 4096. lia.
Qed.

Lemma fileserver_sends_file : forall o rq r simple sb bytes c,
  stat o (Request.path rq) = Some sb ->
  Request.if_modified_since_date rq = -1
  \/ Request.if_modified_since_date rq
     < local_to_gmtime (os_zone o) (st_mtime sb) ->
  S_ISDIR sb = false ->
  file_bytes o (Request.path rq) = Some bytes ->
  Response.code r <> RESPONSE_STATUS_CONNECTION_TIMED_OUT ->
  (simple = false -> headers_rc o r = 0) ->
  exists body,
    fileserver o rq r simple c
    = (Ret (0, r),
       mk_conn (input c)
         (trace c
          ++ (if simple then []
              else Write (status_line (Response.code r)) :: headers_writes o r)
          ++ body))
    /\ sent body = bytes
    /\ forallb (write_upto BUF_SIZE) body = true.
Proof.
  intros o rq r simple sb bytes c Hstat Hims Hdir Hfile Hcode Hrc.
  unfold fileserver. rewrite Hstat.
  assert (E : negb (Request.if_modified_since_date rq =? -1)
              && (local_to_gmtime (os_zone o) (st_mtime sb)
                  <=? Request.if_modified_since_date rq) = false).
  { destruct Hims as [->|Hlt]; [reflexivity|].
    apply andb_false_iff. right. apply Z.leb_gt. exact Hlt. }
  rewrite E, Hdir, Hfile. cbn [negb].
  rewrite bind_outer.
  destruct simple; cbn [negb].
  - rewrite coderesp_simple. cbn [Z.eqb negb].
    destruct (send_chunks_run (String.length bytes) bytes c (le_n _))
      as (body & Eb & S & F).
    exists body. rewrite bind_outer, Eb. auto.
  - rewrite coderesp_full by exact Hcode. rewrite Hrc by reflexivity.
    cbn [Z.eqb negb].
    destruct (send_chunks_run (String.length bytes) bytes
                (mk_conn (input c)
                   (trace c ++ Write (status_line (Response.code r))
                            :: headers_writes o r)) (le_n _))
      as (body & Eb & S & F).
    exists body. rewrite bind_outer, Eb. cbn [input trace].
    rewrite app_trace_assoc. auto.
Qed.

(** X19: a GET that resolves to a regular file, without a usable
    If-Modified-Since date or with one older than the file, returns 0 and
    sends the file: after the status line and the header block of the
    response that [stat] filled (nothing for a simple request), the writes
    carry exactly the bytes of the file, at most [BUF_SIZE] bytes each. *)
Theorem get_sends_the_file :
  forall o flag script tr buf rest method uri versions res target sb bytes,
    request_received script buf rest ->
    request_tokens buf = method :: uri :: versions ->
    (versions = []
     \/ exists version,
          versions = [version] /\ strncasecmp version HTTP_VERSION_1 8 = 0) ->
    header_parsing_failed (os_zone o) buf = false ->
    strcasecmp method "GET" = 0 ->
    resolve o flag REQUEST_METHOD_GET uri = Some res ->
    cu_status res = RESPONSE_STATUS_OK ->
    cu_cgi res = false ->
    cu_realpath res = Some target ->
    stat o target = Some sb ->
    S_ISDIR sb = false ->
    file_bytes o target = Some bytes ->
    Request.if_modified_since_date (parsed_request (os_zone o) buf) = -1
    \/ Request.if_modified_since_date (parsed_request (os_zone o) buf)
       < local_to_gmtime (os_zone o) (st_mtime sb) ->
    let r := entity_response o target sb in
    let simple := match versions with [] => true | _ => false end in
    (simple = false -> headers_rc o r = 0) ->
    exists body,
      httpd o flag (mk_conn script tr)
      = (Ret (0, Some r),
         mk_conn rest
           (tr ++ Checkuri uri
               :: (if simple then []
                   else Write ("HTTP/1.0 200 OK" ++ CRLF)
                        :: headers_writes o r)
               ++ body))
      /\ sent body = bytes
      /\ forallb (write_upto BUF_SIZE) body = true.
Proof.
  intros o flag script tr buf rest method uri vs res target sb bytes
    Hrecv Htok Hvs Hhdr Hm Hres Hok Hcgi Hreal Hstat Hdir Hfile Hims r simple
    Hrc.
  assert (S : is_simple (request_tokens buf) = simple).
  { rewrite Htok. subst simple.
    destruct Hvs as [->|(v & -> & _)]; reflexivity. }
  destruct (dispatch_get_head_run o flag
              (Request.set_version (if simple then 0 else 1)
                 (if simple then 9 else 0) (parsed_request (os_zone o) buf))
              REQUEST_METHOD_GET uri (mk_conn rest tr) res target
              Hres Hok Hreal)
    as (d & Hd & Hresp & Hmeth & Hpath & Hdims & Hrs & Hdcgi).
  destruct (fileserver_sends_file o (d_newreq d) r simple sb bytes
              (mk_conn rest (tr ++ [Checkuri uri])))
    as (body & Hf & Hsent & Hall).
  { now rewrite Hpath. }
  { rewrite Hdims. now destruct (parsed_request (os_zone o) buf), simple. }
  { exact Hdir. }
  { now rewrite Hpath. }
  { cbn. discriminate. }
  { exact Hrc. }
  exists body. split; [|auto].
  eapply httpd_run; eauto.
  - apply tokens_nonempty. rewrite Htok. discriminate.
  - rewrite Hhdr, Htok.
    destruct Hvs as [->|(v & -> & Hv)].
    + rewrite dispatch_simple_get by assumption. exact Hd.
    + rewrite dispatch_method_get by assumption. exact Hd.
  - rewrite S.
    rewrite (respond_get_ok o flag simple d target sb Hresp Hmeth
               ltac:(congruence) Hrs Hstat).
    fold r. cbn [input trace]. rewrite Hf. cbn [input trace].
    rewrite app_trace_assoc. reflexivity.
Qed.

Lemma get_sends_the_file_witness :
  let buf := "GET /a.txt HTTP/1.0" ++ CRLF ++ CRLF in
  let r := entity_response example_os "/srv/www/a.txt"
             (mk_stat 5 1600000000 false) in
  exists body,
    httpd example_os example_flags (mk_conn [Data buf] [])
    = (Ret (0, Some r),
       mk_conn []
         ([] ++ Checkuri "/a.txt"
             :: (if false then []
                 else Write ("HTTP/1.0 200 OK" ++ CRLF)
                      :: headers_writes example_os r)
             ++ body))
    /\ sent body = "hello"
    /\ forallb (write_upto BUF_SIZE) body = true.
Proof.
  intros buf r.
  apply (get_sends_the_file example_os example_flags [Data buf] [] buf []
           "GET" "/a.txt" ["HTTP/1.0"]
           (mk_checkuri 0 (example_request REQUEST_METHOD_GET "/a.txt")
              RESPONSE_STATUS_OK (Some "/srv/www/a.txt") false)
           "/srv/www/a.txt" (mk_stat 5 1600000000 false) "hello").
  - exists buf. repeat split; vm_compute; congruence.
  - reflexivity.
  - right. exists "HTTP/1.0". split; reflexivity.
  - reflexivity.
  - reflexivity.
  - reflexivity.
  - reflexivity.
  - reflexivity.
  - reflexivity.
  - reflexivity.
  - reflexivity.
  - reflexivity.
  - left. reflexivity.
  - intros _. vm_compute. reflexivity.
Defined.

(* ================================================================== *)
(** * CGI programs *)
(* ================================================================== *)

Lemma sent_byte_writes : forall out, sent (byte_writes out) = out.
Proof.
  induction out as [|b out IH]; [reflexivity|].
  unfold byte_writes in *. cbn. now rewrite IH.
Qed.

Lemma recv_body_length : forall n c script,
  List.length (fst (recv_body n c script)) = n.
Proof.
  induction n as [|n IH]; intros c script; [reflexivity|].
  cbn [recv_body]. destruct (recv1 script) as [got script'].
  specialize (IH (match got with Some b => Some b | None => c end) script').
  destruct (recv_body n _ script') as [body script'']. cbn in *. now rewrite IH.
Qed.

Lemma recv_body_closed : forall n c,
  recv_body n c [] = (repeat c n, []).
Proof.
  induction n as [|n IH]; intros c; [reflexivity|].
  cbn [recv_body recv1]. rewrite IH. reflexivity.
Qed.

Lemma cgi_environment_fields : forall rq rq',
  Request.method rq' = Request.method rq ->
  Request.content_length rq' = Request.content_length rq ->
  Request.content_type rq' = Request.content_type rq ->
  cgi_environment rq' = cgi_environment rq.
Proof.
  intros rq rq' Hm Hl Ht. unfold cgi_environment. now rewrite Hm, Hl, Ht.
Qed.

Lemma execute_cgi_fields : forall o rq rq' uri_status cgi_path,
  Request.method rq' = Request.method rq ->
  Request.content_length rq' = Request.content_length rq ->
  Request.content_type rq' = Request.content_type rq ->
  execute_cgi o rq' uri_status cgi_path = execute_cgi o rq uri_status cgi_path.
Proof.
  intros o rq rq' us p Hm Hl Ht. unfold execute_cgi.
  rewrite (cgi_environment_fields rq rq' Hm Hl Ht), Hm, Hl. reflexivity.
Qed.

Lemma respond_cgi : forall o flag simple d target,
  d_response d = init_response RESPONSE_STATUS_OK ->
  d_cgi_request d = true ->
  d_realpath_str d = Some target ->
  respond o flag simple d
  = (coderesp o (init_response RESPONSE_STATUS_OK) (negb simple) ;;;
     ' (failure_status, _) <-
        execute_cgi o (d_newreq d) (d_http_status d) target ;;
     ret (failure_status, init_response RESPONSE_STATUS_OK)).
Proof.
  intros o flag simple d target Hresp Hcgi Hrs. unfold respond.
  rewrite Hresp, Hcgi, Hrs.
  cbn [init_response Response.code Z.eqb RESPONSE_STATUS_OK Pos.eqb
       andb orb negb].
  rewrite !andb_false_r. cbn [negb].
  reflexivity.
Qed.

(** What [httpd] hands on after a resolution, for any of the three
    methods: the request keeps the fields of the header lines. *)
Lemma dispatch_get_head_fields : forall o flag newreq method uri c res,
  resolve o flag method uri = Some res ->
  exists d,
    dispatch_get_head o flag newreq method uri c
    = (Ret d, mk_conn (input c) (trace c ++ [Checkuri uri]))
    /\ d_response d = init_response (cu_status res)
    /\ d_realpath_str d = cu_realpath res
    /\ d_cgi_request d = cu_cgi res
    /\ Request.method (d_newreq d) = method
    /\ Request.content_length (d_newreq d) = Request.content_length newreq
    /\ Request.content_type (d_newreq d) = Request.content_type newreq.
Proof.
  intros o flag newreq method uri c res Hres.
  unfold dispatch_get_head.
  set (rq := Request.set_path uri _).
  destruct (call_checkuri_resolve o flag rq c res)
    as (res' & Hcall & Hv & Hm & Hi & Hl & Ht & _).
  { subst rq. destruct newreq. exact Hres. }
  unfold verdict in Hv. inversion Hv as [[Hr Hs Hp Hc]].
  rewrite (bind_run _ _ _ _ _ _ _ Hcall).
  eexists. split; [reflexivity|].
  cbn [d_response d_newreq d_realpath_str d_cgi_request].
  split; [congruence|]. split; [congruence|]. split; [congruence|].
  assert (F : forall s : request,
            Request.method s = Request.method (cu_request res')
            /\ Request.content_length s
               = Request.content_length (cu_request res')
            /\ Request.content_type s = Request.content_type (cu_request res')
            -> Request.method s = method
               /\ Request.content_length s = Request.content_length newreq
               /\ Request.content_type s = Request.content_type newreq).
  { intros s (A & B & C). rewrite A, B, C, Hm, Hl, Ht. subst rq.
    now destruct newreq. }
  apply F.
  destruct (_ =? RESPONSE_STATUS_OK);
    [destruct (cu_realpath _)|]; destruct (cu_request res'); cbn; auto.
Qed.

Lemma dispatch_post_fields : forall o flag newreq uri c res cdir,
  c_dir flag = Some cdir ->
  resolve o flag REQUEST_METHOD_POST uri = Some res ->
  cu_cgi res = true ->
  exists d,
    dispatch_post o flag newreq uri c
    = (Ret d, mk_conn (input c) (trace c ++ [Checkuri uri]))
    /\ d_response d = init_response (cu_status res)
    /\ d_realpath_str d = cu_realpath res
    /\ d_cgi_request d = true
    /\ Request.method (d_newreq d) = REQUEST_METHOD_POST
    /\ Request.content_length (d_newreq d) = Request.content_length newreq
    /\ Request.content_type (d_newreq d) = Request.content_type newreq.
Proof.
  intros o flag newreq uri c res cdir Hcd Hres Hcgi.
  unfold dispatch_post. rewrite Hcd.
  set (rq := Request.set_path uri _).
  destruct (call_checkuri_resolve o flag rq c res)
    as (res' & Hcall & Hv & Hm & Hi & Hl & Ht & _).
  { subst rq. destruct newreq. exact Hres. }
  unfold verdict in Hv. inversion Hv as [[Hr Hs Hp Hc]].
  rewrite (bind_run _ _ _ _ _ _ _ Hcall).
  rewrite Hc, Hcgi. cbn [negb andb].
  eexists. split; [reflexivity|].
  cbn [d_response d_newreq d_realpath_str d_cgi_request].
  split; [congruence|]. split; [congruence|]. split; [reflexivity|].
  assert (F : forall s : request,
            Request.method s = Request.method (cu_request res')
            /\ Request.content_length s
               = Request.content_length (cu_request res')
            /\ Request.content_type s = Request.content_type (cu_request res')
            -> Request.method s = REQUEST_METHOD_POST
               /\ Request.content_length s = Request.content_length newreq
               /\ Request.content_type s = Request.content_type newreq).
  { intros s (A & B & C). rewrite A, B, C, Hm, Hl, Ht. subst rq.
    now destruct newreq. }
  apply F.
  destruct (cu_realpath _); destruct (cu_request res'); cbn; auto.
Qed.

(** X20: a POST to a CGI program whose Content-Length is missing, zero or
    negative starts no program and makes [httpd] return -1; by then the
    status line "200 OK" and the header block have been sent, and the
    response keeps the code 200. *)
Theorem post_without_content_length_runs_no_program :
  forall o flag script tr buf rest method uri version cdir res target,
    request_received script buf rest ->
    request_tokens buf = [method; uri; version] ->
    header_parsing_failed (os_zone o) buf = false ->
    strncasecmp version HTTP_VERSION_1 8 = 0 ->
    strcasecmp method "POST" = 0 ->
    c_dir flag = Some cdir ->
    resolve o flag REQUEST_METHOD_POST uri = Some res ->
    cu_status res = RESPONSE_STATUS_OK ->
    cu_cgi res = true ->
    cu_realpath res = Some target ->
    Request.content_length (parsed_request (os_zone o) buf) <= 0 ->
    httpd o flag (mk_conn script tr)
    = (Ret (-1, Some (init_response RESPONSE_STATUS_OK)),
       mk_conn rest
         (tr ++ Checkuri uri :: Write ("HTTP/1.0 200 OK" ++ CRLF)
             :: headers_writes o (init_response RESPONSE_STATUS_OK))).
Proof.
  intros o flag script tr buf rest method uri version cdir res target
    Hrecv Htok Hhdr Hver Hm Hcd Hres Hok Hcgi Hreal Hlen.
  destruct (dispatch_post_fields o flag
              (Request.set_version 1 0 (parsed_request (os_zone o) buf))
              uri (mk_conn rest tr) res cdir Hcd Hres Hcgi)
    as (d & Hd & Hresp & Hrs & Hdcgi & Hmeth & Hcl & Hct).
  eapply httpd_run; eauto.
  - apply tokens_nonempty. rewrite Htok. discriminate.
  - rewrite Hhdr, Htok. rewrite dispatch_method_post by assumption. exact Hd.
  - rewrite Htok. change (is_simple [method; uri; version]) with false.
    rewrite (respond_cgi o flag false d target);
      [|congruence|exact Hdcgi|congruence].
    cbn [negb input trace]. rewrite bind_outer.
    rewrite coderesp_full by (cbn; discriminate).
    rewrite bind_outer. unfold execute_cgi. rewrite Hmeth, Hcl.
    replace (Request.content_length
               (Request.set_version 1 0 (parsed_request (os_zone o) buf)))
      with (Request.content_length (parsed_request (os_zone o) buf))
      by (now destruct (parsed_request (os_zone o) buf)).
    apply Z.leb_le in Hlen. rewrite Hlen.
    cbn [REQUEST_METHOD_POST REQUEST_METHOD_GET REQUEST_METHOD_HEAD Z.eqb
         Pos.eqb orb andb negb ret input trace].
    rewrite app_trace_assoc. reflexivity.
Qed.

Lemma post_without_content_length_runs_no_program_witness :
  let buf := "POST /cgi-bin/hello HTTP/1.0" ++ CRLF ++ CRLF in
  httpd example_os example_flags (mk_conn [Data buf] [])
  = (Ret (-1, Some (init_response RESPONSE_STATUS_OK)),
     mk_conn []
       ([] ++ Checkuri "/cgi-bin/hello" :: Write ("HTTP/1.0 200 OK" ++ CRLF)
           :: headers_writes example_os (init_response RESPONSE_STATUS_OK))).
Proof.
  intros buf.
  apply (post_without_content_length_runs_no_program example_os example_flags
           [Data buf] [] buf [] "POST" "/cgi-bin/hello" "HTTP/1.0"
           "/srv/cgi/"
           (mk_checkuri 0
              (example_request REQUEST_METHOD_POST "/cgi-bin/hello")
              RESPONSE_STATUS_OK (Some "/srv/cgi/hello") true)
           "/srv/cgi/hello").
  - exists buf. repeat split; vm_compute; congruence.
  - reflexivity.
  - reflexivity.
  - reflexivity.
  - reflexivity.
  - reflexivity.
  - reflexivity.
  - reflexivity.
  - reflexivity.
  - reflexivity.
  - vm_compute. discriminate.
Defined.

(** When every write on the pipe is taken, the whole body reaches the
    child. *)
Lemma pipe_writes_taken : forall writes body i,
  (forall j, (i <= j < i + List.length body)%nat -> writes j = Taken) ->
  pipe_writes writes i body = (body, None).
Proof.
  intros writes body. induction body as [|b body IH]; intros i H.
  - reflexivity.
  - cbn [pipe_writes]. rewrite (H i) by (cbn [List.length]; lia).
    rewrite IH; [reflexivity|].
    intros j Hj. apply H. cbn [List.length]. lia.
Qed.

(** X21: a full GET, HEAD or POST (with a positive Content-Length) that
    resolves to a CGI program sends the status line "200 OK" and the
    header block of the initial response, which announces the content
    length 0, and then runs the program.  When the program takes every
    byte that is written to its standard input and its output ends,
    [httpd] relays that output byte by byte and returns 0.  The program's
    standard input receives exactly Content-Length bytes for a POST and
    none otherwise; when nothing is left on the socket after the request
    was read, each of them is the unassigned byte. *)
Theorem cgi_program_output_follows_the_ok_headers :
  forall o flag script tr buf rest method uri version m cdir res target run,
    request_received script buf rest ->
    request_tokens buf = [method; uri; version] ->
    header_parsing_failed (os_zone o) buf = false ->
    strncasecmp version HTTP_VERSION_1 8 = 0 ->
    (m = REQUEST_METHOD_GET /\ strcasecmp method "GET" = 0)
    \/ (m = REQUEST_METHOD_HEAD /\ strcasecmp method "HEAD" = 0)
    \/ (m = REQUEST_METHOD_POST /\ strcasecmp method "POST" = 0
        /\ c_dir flag = Some cdir
        /\ 0 < Request.content_length (parsed_request (os_zone o) buf)) ->
    resolve o flag m uri = Some res ->
    cu_status res = RESPONSE_STATUS_OK ->
    cu_cgi res = true ->
    cu_realpath res = Some target ->
    let rq := Request.set_method m (parsed_request (os_zone o) buf) in
    let n := if m =? REQUEST_METHOD_POST
             then Z.to_nat (Request.content_length rq) else 0%nat in
    let stdin := fst (recv_body n None rest) in
    cgi_child o target (cgi_environment rq) stdin = Some run ->
    (forall i, (i < n)%nat -> stdin_writes run i = Taken) ->
    stdout_end run = EndOfFile ->
    httpd o flag (mk_conn script tr)
    = (Ret (0, Some (init_response RESPONSE_STATUS_OK)),
       mk_conn (snd (recv_body n None rest))
         (tr ++ Checkuri uri :: Write ("HTTP/1.0 200 OK" ++ CRLF)
             :: headers_writes o (init_response RESPONSE_STATUS_OK)
             ++ Exec target (cgi_environment rq) stdin
             :: byte_writes (stdout_bytes run)))
    /\ (forall now,
          time_to_http_date (os_time o) 128 = Some now ->
          headers_writes o (init_response RESPONSE_STATUS_OK)
          = [Write ("Date: " ++ now ++ CRLF
                    ++ "Server: sws/1.0" ++ CRLF
                    ++ "Content-Length: 0" ++ CRLF
                    ++ CRLF)])
    /\ List.length stdin = n
    /\ (rest = [] -> stdin = repeat None n).
Proof.
  intros o flag script tr buf rest method uri version m cdir res target run
    Hrecv Htok Hhdr Hver Hm Hres Hok Hcgi Hreal rq n stdin Hchild Htaken
    Hend.
  split; [|split; [apply headers_writes_initial
                  |split; [apply recv_body_length
                          |intros ->; subst stdin;
                           now rewrite recv_body_closed]]].
  assert (D : exists d,
             dispatch o flag (parsed_request (os_zone o) buf) false
               [method; uri; version] (mk_conn rest tr)
             = (Ret d, mk_conn rest (tr ++ [Checkuri uri]))
             /\ d_response d = init_response RESPONSE_STATUS_OK
             /\ d_realpath_str d = Some target
             /\ d_cgi_request d = true
             /\ Request.method (d_newreq d) = m
             /\ Request.content_length (d_newreq d)
                = Request.content_length (parsed_request (os_zone o) buf)
             /\ Request.content_type (d_newreq d)
                = Request.content_type (parsed_request (os_zone o) buf)).
  { destruct Hm as [[-> Hg]|[[-> Hh]|(-> & Hp & Hcd & _)]].
    - rewrite dispatch_method_get by assumption.
      destruct (dispatch_get_head_fields o flag
                  (Request.set_version 1 0 (parsed_request (os_zone o) buf))
                  REQUEST_METHOD_GET uri (mk_conn rest tr) res Hres)
        as (d & Hd & Hresp & Hrs & Hdcgi & Hmeth & Hcl & Hct).
      exists d. rewrite Hd, Hresp, Hrs, Hdcgi, Hmeth, Hcl, Hct, Hok.
      repeat split; auto; now destruct (parsed_request (os_zone o) buf).
    - rewrite dispatch_method_head by assumption.
      destruct (dispatch_get_head_fields o flag
                  (Request.set_version 1 0 (parsed_request (os_zone o) buf))
                  REQUEST_METHOD_HEAD uri (mk_conn rest tr) res Hres)
        as (d & Hd & Hresp & Hrs & Hdcgi & Hmeth & Hcl & Hct).
      exists d. rewrite Hd, Hresp, Hrs, Hdcgi, Hmeth, Hcl, Hct, Hok.
      repeat split; auto; now destruct (parsed_request (os_zone o) buf).
    - rewrite dispatch_method_post by assumption.
      destruct (dispatch_post_fields o flag
                  (Request.set_version 1 0 (parsed_request (os_zone o) buf))
                  uri (mk_conn rest tr) res cdir Hcd Hres Hcgi)
        as (d & Hd & Hresp & Hrs & Hdcgi & Hmeth & Hcl & Hct).
      exists d. rewrite Hd, Hresp, Hrs, Hdcgi, Hmeth, Hcl, Hct, Hok.
      repeat split; auto; now destruct (parsed_request (os_zone o) buf). }
  destruct D as (d & Hd & Hresp & Hrs & Hdcgi & Hmeth & Hcl & Hct).
  eapply httpd_run; eauto.
  - apply tokens_nonempty. rewrite Htok. discriminate.
  - rewrite Hhdr, Htok. exact Hd.
  - rewrite Htok. change (is_simple [method; uri; version]) with false.
    rewrite (respond_cgi o flag false d target Hresp Hdcgi Hrs).
    cbn [negb]. rewrite bind_outer.
    rewrite coderesp_full by (cbn; discriminate).
    rewrite bind_outer.
    rewrite (execute_cgi_fields o rq (d_newreq d))
      by (subst rq; destruct (parsed_request (os_zone o) buf); cbn in *; auto).
    unfold execute_cgi.
    assert (Hrm : Request.method rq = m)
      by (subst rq; now destruct (parsed_request (os_zone o) buf)).
    assert (Hrl : Request.content_length rq
                  = Request.content_length (parsed_request (os_zone o) buf))
      by (subst rq; now destruct (parsed_request (os_zone o) buf)).
    rewrite Hrm.
    assert (G : negb ((m =? REQUEST_METHOD_GET) || (m =? REQUEST_METHOD_HEAD))
                && negb (m =? REQUEST_METHOD_POST) = false).
    { destruct Hm as [[-> _]|[[-> _]|(-> & _)]]; reflexivity. }
    assert (P : (m =? REQUEST_METHOD_POST)
                && (Request.content_length rq <=? 0) = false).
    { destruct Hm as [[-> _]|[[-> _]|(-> & _ & _ & L)]]; try reflexivity.
      rewrite Hrl. apply andb_false_iff. right. apply Z.leb_gt. exact L. }
    rewrite G, P. cbn [input trace]. cbv zeta. fold n. fold stdin.
    rewrite Hchild.
    rewrite pipe_writes_taken
      by (intros j Hj; apply Htaken; subst stdin;
          rewrite recv_body_length in Hj; lia).
    rewrite Hend.
    cbn [input trace Response.code init_response].
    rewrite !app_trace_assoc. reflexivity.
Qed.

Lemma cgi_program_output_follows_the_ok_headers_witness :
  let buf := "POST /cgi-bin/hello HTTP/1.0" ++ CRLF
             ++ "Content-Length: 12" ++ CRLF ++ CRLF in
  let rest := [Data "a=1&b=2&c=34"] in
  let rq := Request.set_method REQUEST_METHOD_POST
              (parsed_request (os_zone example_os) buf) in
  let n := if REQUEST_METHOD_POST =? REQUEST_METHOD_POST
           then Z.to_nat (Request.content_length rq) else 0%nat in
  let stdin := fst (recv_body n None rest) in
  httpd example_os example_flags (mk_conn (Data buf :: rest) [])
  = (Ret (0, Some (init_response RESPONSE_STATUS_OK)),
     mk_conn (snd (recv_body n None rest))
       ([] ++ Checkuri "/cgi-bin/hello" :: Write ("HTTP/1.0 200 OK" ++ CRLF)
           :: headers_writes example_os (init_response RESPONSE_STATUS_OK)
           ++ Exec "/srv/cgi/hello" (cgi_environment rq) stdin
           :: byte_writes "Hi"))
  /\ (forall now,
        time_to_http_date (os_time example_os) 128 = Some now ->
        headers_writes example_os (init_response RESPONSE_STATUS_OK)
        = [Write ("Date: " ++ now ++ CRLF
                  ++ "Server: sws/1.0" ++ CRLF
                  ++ "Content-Length: 0" ++ CRLF
                  ++ CRLF)])
  /\ List.length stdin = n
  /\ (rest = [] -> stdin = repeat None n).
Proof.
  intros buf rest rq n stdin.
  apply (cgi_program_output_follows_the_ok_headers example_os example_flags
           (Data buf :: rest) [] buf rest "POST" "/cgi-bin/hello" "HTTP/1.0"
           REQUEST_METHOD_POST "/srv/cgi/"
           (mk_checkuri 0
              (example_request REQUEST_METHOD_POST "/cgi-bin/hello")
              RESPONSE_STATUS_OK (Some "/srv/cgi/hello") true)
           "/srv/cgi/hello" (mk_cgi_run (fun _ => Taken) "Hi" EndOfFile)).
  - exists buf. repeat split; vm_compute; congruence.
  - reflexivity.
  - reflexivity.
  - reflexivity.
  - right. right. repeat split; vm_compute; congruence.
  - reflexivity.
  - reflexivity.
  - reflexivity.
  - reflexivity.
  - reflexivity.
  - reflexivity.
  - reflexivity.
Defined.

(* ================================================================== *)
(** * Numbers in header lines *)
(* ================================================================== *)

Lemma digits_value_fmt_u : forall fuel n acc,
  0 <= n < 10 ^ Z.of_nat fuel ->
  digits_value (fmt_u fuel n acc) 0 = digits_value acc n.
Proof.
  induction fuel as [|fuel IH]; intros n acc Hn.
  - cbn in Hn. cbn [fmt_u]. replace n with 0 by lia. reflexivity.
  - rewrite fmt_u_step.
    rewrite Nat2Z.inj_succ, Z.pow_succ_r in Hn by lia.
    assert (D : 0 <= n mod 10 <= 9) by (pose proof (Z.mod_pos_bound n 10); lia).
    destruct (digit_char_facts _ D) as (Hd & _ & Hz).
    destruct (n / 10 =? 0) eqn:E.
    + apply Z.eqb_eq in E. cbn [digits_value]. rewrite Hd, Hz.
      f_equal. pose proof (Z.div_mod n 10). lia.
    + rewrite IH.
      * cbn [digits_value]. rewrite Hd, Hz. f_equal.
        pose proof (Z.div_mod n 10). lia.
      * split; [apply Z.div_pos; lia|].
        apply Z.div_lt_upper_bound; lia.
Qed.

Lemma fmt_u_head : forall fuel n acc,
  0 <= n ->
  exists k rest,
    0 <= k <= 9 /\ fmt_u (S fuel) n acc = String (digit_char k) rest
    /\ (String.length acc <= String.length rest)%nat.
Proof.
  induction fuel as [|fuel IH]; intros n acc Hn.
  - exists (n mod 10), acc. cbn [fmt_u].
    split; [pose proof (Z.mod_pos_bound n 10); lia|].
    split; [destruct (n / 10 =? 0); reflexivity|lia].
  - rewrite fmt_u_step. destruct (n / 10 =? 0).
    + exists (n mod 10), acc.
      split; [pose proof (Z.mod_pos_bound n 10); lia|]. split; [reflexivity|lia].
    + destruct (IH (n / 10) (String (digit_char (n mod 10)) acc))
        as (k & rest & Hk & E & L); [apply Z.div_pos; lia|].
      exists k, rest. split; [exact Hk|]. split; [exact E|].
      cbn [String.length] in L. lia.
Qed.

Lemma digit_char_not_sign : forall k, 0 <= k <= 9 ->
  Ascii.eqb (digit_char k) "-" = false /\ Ascii.eqb (digit_char k) "+" = false.
Proof.
  intros k Hk.
  destruct (digit_cases k Hk) as [->|[->|[->|[->|[->|[->|[->|[->|[->| ->]]]]]]]]];
    split; reflexivity.
Qed.

Lemma strtol_digits : forall k rest, 0 <= k <= 9 ->
  strtol (String (digit_char k) rest)
  = Z.max LONG_MIN (Z.min LONG_MAX (digits_value (String (digit_char k) rest) 0)).
Proof.
  intros k rest Hk. unfold strtol.
  destruct (digit_char_facts k Hk) as (_ & Hs & _).
  destruct (digit_char_not_sign k Hk) as (Hm & Hp).
  cbn [skip_spaces]. rewrite Hs, Hm, Hp. reflexivity.
Qed.

(** [atoi] reads back what [printf("%d")] wrote. *)
Lemma atoi_fmt_d : forall n, INT_MIN <= n <= INT_MAX -> atoi (fmt_d n) = n.
Proof.
  intros n Hn. unfold INT_MIN, INT_MAX in Hn. unfold atoi, fmt_d.
  destruct (n <? 0) eqn:E.
  - apply Z.ltb_lt in E. unfold strtol. cbn [skip_spaces].
    change (isspace "-") with false. cbv iota.
    change (Ascii.eqb "-" "-") with true. cbv iota.
    rewrite digits_value_fmt_u
      by (change (10 ^ Z.of_nat 20) with 100000000000000000000; lia).
    cbn [digits_value]. unfold to_int, LONG_MIN, LONG_MAX.
    rewrite Z.min_r, Z.max_r by lia.
    rewrite Z.mod_small by lia. lia.
  - apply Z.ltb_ge in E.
    destruct (fmt_u_head 19 n "" E) as (k & rest & Hk & Ef & _).
    rewrite Ef, strtol_digits by exact Hk. rewrite <- Ef.
    rewrite digits_value_fmt_u
      by (change (10 ^ Z.of_nat 20) with 100000000000000000000; lia).
    cbn [digits_value]. unfold to_int, LONG_MIN, LONG_MAX.
    rewrite Z.min_r, Z.max_r by lia.
    rewrite Z.mod_small by lia. lia.
Qed.

Lemma strlen_fmt_d_small : forall n, 0 <= n <= 9 -> strlen (fmt_d n) = 1.
Proof.
  intros n Hn. unfold fmt_d.
  replace (n <? 0) with false by (symmetry; apply Z.ltb_ge; lia).
  rewrite fmt_u_step. rewrite Z.div_small by lia. reflexivity.
Qed.

Lemma strlen_fmt_d_large : forall n, n < 0 \/ 10 <= n -> 2 <= strlen (fmt_d n).
Proof.
  intros n Hn. unfold fmt_d. destruct (n <? 0) eqn:E.
  - apply Z.ltb_lt in E.
    destruct (fmt_u_head 19 (- n) "" ltac:(lia)) as (k & rest & _ & Ef & _).
    rewrite Ef. unfold strlen. cbn [String.length]. lia.
  - apply Z.ltb_ge in E. rewrite fmt_u_step.
    replace (n / 10 =? 0) with false.
    2:{ symmetry. apply Z.eqb_neq. intro Q.
        pose proof (Z.div_mod n 10). pose proof (Z.mod_pos_bound n 10). lia. }
    destruct (fmt_u_head 18 (n / 10) (String (digit_char (n mod 10)) ""))
      as (k & rest & _ & Ef & L); [apply Z.div_pos; lia|].
    rewrite Ef. unfold strlen. cbn [String.length] in *. lia.
Qed.

(** X23: the header line "Content-Length: n" stores [n] as the content
    length of the request for every [int] value except the one-digit
    values 0 to 9, for which the line is too short for the length test
    and the request is left as it was. *)
Theorem content_length_of_one_digit_is_ignored : forall zone rq n,
  INT_MIN <= n <= INT_MAX ->
  parse_header_line zone ("Content-Length: " ++ fmt_d n) rq
  = Some (if (0 <=? n) && (n <=? 9) then rq
          else Request.set_content_length n rq).
Proof.
  intros zone rq n Hn.
  unfold parse_header_line, header_if_modified_since, header_content_length,
    header_content_type.
  change (String.length IF_MODIFIED_SINCE_PREFIX) with 18%nat.
  change (String.length CONTENT_LENGTH_PREFIX) with 15%nat.
  change (String.length CONTENT_TYPE_PREFIX) with 13%nat.
  replace (strncasecmp ("Content-Length: " ++ fmt_d n)
             IF_MODIFIED_SINCE_PREFIX 18 =? 0) with false
    by (vm_compute; reflexivity).
  replace (strncasecmp ("Content-Length: " ++ fmt_d n)
             CONTENT_TYPE_PREFIX 13 =? 0) with false
    by (vm_compute; reflexivity).
  replace (strncasecmp ("Content-Length: " ++ fmt_d n)
             CONTENT_LENGTH_PREFIX 15 =? 0) with true
    by (vm_compute; reflexivity).
  rewrite !andb_false_r, andb_true_r.
  change (drop (15 + 1) ("Content-Length: " ++ fmt_d n)) with (fmt_d n).
  rewrite atoi_fmt_d by exact Hn.
  rewrite strlen_append. change (strlen "Content-Length: ") with 16.
  change (Z.of_nat 15 + 2) with 17.
  destruct ((0 <=? n) && (n <=? 9)) eqn:E.
  - apply andb_true_iff in E. destruct E as [E1 E2].
    apply Z.leb_le in E1, E2. rewrite strlen_fmt_d_small by lia.
    reflexivity.
  - assert (n < 0 \/ 10 <= n).
    { apply andb_false_iff in E. destruct E as [E|E];
        [apply Z.leb_gt in E|apply Z.leb_gt in E]; lia. }
    pose proof (strlen_fmt_d_large n H).
    replace (17 <? 16 + strlen (fmt_d n)) with true
      by (symmetry; apply Z.ltb_lt; lia).
    reflexivity.
Qed.

Lemma content_length_of_one_digit_is_ignored_witness :
  parse_header_line (fixed_zone 0) ("Content-Length: " ++ fmt_d 7)
    init_request
  = Some (if (0 <=? 7) && (7 <=? 9) then init_request
          else Request.set_content_length 7 init_request).
Proof.
  apply (content_length_of_one_digit_is_ignored (fixed_zone 0) init_request
           7).
  vm_compute. split; discriminate.
Defined.

Lemma parse_header_line_content_type : forall zone h rq rq',
  parse_header_line zone h rq = Some rq' ->
  strlen (Request.content_type rq) <= 63 ->
  strlen (Request.content_type rq') <= 63.
Proof.
  intros zone h rq rq' H L. unfold parse_header_line in H.
  destruct (header_if_modified_since zone h rq) as [rq1|] eqn:E; [|discriminate].
  inversion H; subst; clear H.
  assert (L1 : strlen (Request.content_type rq1) <= 63).
  { unfold header_if_modified_since in E.
    destruct (_ && _) in E; [|inversion E; subst; exact L].
    destruct (http_date_to_time zone _); inversion E; subst.
    now destruct rq. }
  unfold header_content_type, header_content_length.
  destruct (_ && _); destruct (_ && _);
    try (destruct rq1; exact L1);
    unfold Request.set_content_type; cbn [Request.content_type];
    match goal with |- strlen (take 63 ?s) <= 63 =>
      pose proof (length_take 63 s); unfold strlen; lia end.
Qed.


Lemma parse_headers_content_type : forall zone hl rq,
  strlen (Request.content_type rq) <= 63 ->
  strlen (Request.content_type (fst (parse_headers zone hl rq))) <= 63.
Proof.
  induction hl as [|h hl IH]; intros rq L; [exact L|].
  cbn [parse_headers].
  destruct (parse_header_line zone h rq) as [rq'|] eqn:E; [|exact L].
  apply IH. eapply parse_header_line_content_type; eauto.
Qed.

(** X22: whatever the header lines of the request are, every string that
    [execute_cgi] builds for [putenv] is shorter than the 255 bytes of its
    buffer. *)
Theorem cgi_environment_fits_its_buffers : forall zone buf m entry,
  In (Some entry)
     (cgi_environment (Request.set_method m (parsed_request zone buf))) ->
  strlen entry < 255.
Proof.
  intros zone buf m entry H.
  apply cgi_environment_entry_length in H; [lia|].
  unfold Request.set_method. cbn [Request.content_type].
  unfold parsed_request. apply parse_headers_content_type. cbn. lia.
Qed.

Lemma cgi_environment_fits_its_buffers_witness :
  let buf := "GET /cgi-bin/hello HTTP/1.0" ++ CRLF
             ++ "Content-Type: text/plain" ++ CRLF ++ CRLF in
  In (Some "CONTENT_TYPE =text/plain")
     (cgi_environment
        (Request.set_method REQUEST_METHOD_GET
           (parsed_request (fixed_zone 0) buf)))
  /\ strlen "CONTENT_TYPE =text/plain" < 255.
Proof.
  intros buf.
  assert (H : In (Some "CONTENT_TYPE =text/plain")
                (cgi_environment
                   (Request.set_method REQUEST_METHOD_GET
                      (parsed_request (fixed_zone 0) buf)))).
  { vm_compute. right. right. right. left. reflexivity. }
  split; [exact H|].
  apply (cgi_environment_fits_its_buffers (fixed_zone 0) buf
           REQUEST_METHOD_GET
           "CONTENT_TYPE =text/plain" H).
Defined.

(* ================================================================== *)
(** * Dates in header lines *)
(* ================================================================== *)

Lemma time_to_http_date_no_space : forall t dst_len date,
  time_to_http_date t dst_len = Some date -> skip_spaces date = date.
Proof.
  intros t n date H. unfold time_to_http_date in H.
  destruct (gmtime_r t) as [g|]; [|discriminate].
  unfold strftime_rfc1123 in H.
  destruct (_ <? n); [|discriminate]. inversion H; subst; clear H.
  destruct (Z.to_nat (tm_wday g)) as [|[|[|[|[|[|[|[|?]]]]]]]]; reflexivity.
Qed.

(** X24: the date that [time_to_http_date] prints for a modification
    time, sent back as "If-Modified-Since: date", is stored as the value
    that [local_to_gmtime] gives for the modification time, whatever the
    rules of the time zone are: the comparison in [fileserver] finds the
    file not newer.  The exception is a modification time for which
    [mktime] answers -1: the header line then fails the request. *)
Theorem echoed_last_modified_is_not_newer : forall zone mtime rq,
  YEAR_0 <= mtime < YEAR_10000 ->
  exists date,
    time_to_http_date mtime 128 = Some date
    /\ header_if_modified_since zone ("If-Modified-Since: " ++ date) rq
       = (if local_to_gmtime zone mtime =? -1 then None
          else Some (Request.set_if_modified_since_date
                       (local_to_gmtime zone mtime) rq)).
Proof.
  intros zone mtime rq Ht.
  destruct (http_date_to_time_round_trip zone mtime Ht) as (date & Hd & Hp).
  exists date. split; [exact Hd|].
  unfold header_if_modified_since.
  change (String.length IF_MODIFIED_SINCE_PREFIX) with 18%nat.
  replace (strncasecmp ("If-Modified-Since: " ++ date)
             IF_MODIFIED_SINCE_PREFIX 18 =? 0) with true
    by (vm_compute; reflexivity).
  rewrite strlen_append. change (strlen "If-Modified-Since: ") with 19.
  pose proof (strlen_nonneg date).
  replace (Z.of_nat 18 <? 19 + strlen date) with true
    by (symmetry; apply Z.ltb_lt; lia).
  cbn [andb].
  change (drop 18 ("If-Modified-Since: " ++ date)) with (String " " date).
  change (skip_spaces (String " " date)) with (skip_spaces date).
  rewrite (time_to_http_date_no_space _ _ _ Hd), Hp.
  destruct (local_to_gmtime zone mtime =? -1); reflexivity.
Qed.

Lemma echoed_last_modified_is_not_newer_witness :
  exists date,
    time_to_http_date 1325332800 128 = Some date
    /\ header_if_modified_since apia_zone ("If-Modified-Since: " ++ date)
         init_request
       = (if local_to_gmtime apia_zone 1325332800 =? -1 then None
          else Some (Request.set_if_modified_since_date
                       (local_to_gmtime apia_zone 1325332800) init_request)).
Proof.
  apply (echoed_last_modified_is_not_newer apia_zone 1325332800 init_request).
  vm_compute. split; [discriminate|reflexivity].
Defined.

Ltac settle_ltb :=
  repeat match goal with
  | |- context [Nat.ltb ?a ?b] =>
      first [ replace (Nat.ltb a b) with false
                by (symmetry; apply Nat.ltb_ge; lia)
            | replace (Nat.ltb a b) with true
                by (symmetry; apply Nat.ltb_lt; lia) ]
  end.

(** [%A] reads a full weekday name that a comma follows. *)
Lemma strptime_conv_full_weekday : forall w rest t,
  0 <= w <= 6 ->
  strptime_conv "A" (nth (Z.to_nat w) weekday_name "?" ++ String "," rest) t
  = Some (String "," rest, set_wday w t).
Proof.
  intros w rest t H.
  destruct (weekday_cases w H) as [E|[E|[E|[E|[E|[E|E]]]]]]; subst w;
    cbv -[Nat.ltb]; settle_ltb; reflexivity.
Qed.

(** [%a] reads an abbreviated weekday name that a space follows. *)
Lemma strptime_conv_weekday_space : forall w rest t,
  0 <= w <= 6 ->
  strptime_conv "a"
    (nth (Z.to_nat w) ab_weekday_name "?" ++ String " " rest) t
  = Some (String " " rest, set_wday w t).
Proof.
  intros w rest t H.
  destruct (weekday_cases w H) as [E|[E|[E|[E|[E|[E|E]]]]]]; subst w;
    vm_compute; reflexivity.
Qed.

(** [%b] reads an abbreviated month name that a hyphen follows. *)
Lemma strptime_conv_month_hyphen : forall m rest t,
  0 <= m <= 11 ->
  strptime_conv "b"
    (nth (Z.to_nat m) ab_month_name "?" ++ String "-" rest) t
  = Some (String "-" rest, set_mon m t).
Proof.
  intros m rest t H.
  destruct (month_cases m H)
    as [E|[E|[E|[E|[E|[E|[E|[E|[E|[E|[E|E]]]]]]]]]]]; subst m;
    try (vm_compute; reflexivity).
  cbv -[Nat.ltb]. rewrite Nat.ltb_irrefl. reflexivity.
Qed.

(** [get_number] reads one digit that a space follows. *)
Lemma get_number_one_digit : forall from to d rest,
  0 <= d <= 9 -> from <= d <= to ->
  get_number from to 2 (String (digit_char d) (String " " rest))
  = Some (d, String " " rest).
Proof.
  intros from to d rest Hd Hr.
  destruct (digit_char_facts d Hd) as (D & S & V).
  unfold get_number. cbn [skip_spaces]. rewrite S, D.
  cbn [Nat.pred get_digits]. change (isdigit " ") with false. cbn [andb].
  rewrite V.
  destruct (d <? from) eqn:E1; [apply Z.ltb_lt in E1; lia|].
  destruct (to <? d) eqn:E2; [apply Z.ltb_lt in E2; lia|].
  reflexivity.
Qed.

Lemma skip_spaces_month : forall mon rest,
  0 <= mon <= 11 ->
  skip_spaces (nth (Z.to_nat mon) ab_month_name "?" ++ rest)
  = nth (Z.to_nat mon) ab_month_name "?" ++ rest.
Proof.
  intros mon rest Hmo.
  destruct (month_cases mon Hmo)
    as [E|[E|[E|[E|[E|[E|[E|[E|[E|[E|[E|E]]]]]]]]]]]; subst mon;
    reflexivity.
Qed.

(** [strptime] reads an RFC 850 date. *)
Lemma strptime_rfc850 : forall ss mi hh mday mon y2 wday,
  0 <= ss <= 59 -> 0 <= mi <= 59 -> 0 <= hh <= 23 ->
  1 <= mday <= 31 -> 0 <= mon <= 11 -> 0 <= y2 <= 99 ->
  0 <= wday <= 6 ->
  strptime
    (nth (Z.to_nat wday) weekday_name "?" ++ ", " ++
     fmt_02d mday ++ "-" ++
     nth (Z.to_nat mon) ab_month_name "?" ++ "-" ++
     fmt_02d y2 ++ " " ++
     (fmt_02d hh ++ ":" ++ fmt_02d mi ++ ":" ++ fmt_02d ss) ++ " GMT")
    "%A, %d-%b-%y %H:%M:%S GMT" tm_zero
  = Some (mk_tm ss mi hh mday mon (if 69 <=? y2 then y2 else y2 + 100)
            wday 0 0).
Proof.
  intros ss mi hh mday mon y2 wday Hs Hmi Hh Hd Hmo Hy Hw.
  assert (Bd : 0 <= mday / 10 <= 9) by (apply div_bounds; lia).
  assert (Bh : 0 <= hh / 10 <= 9) by (apply div_bounds; lia).
  assert (By : 0 <= y2 / 10 <= 9) by (apply div_bounds; lia).
  rewrite !fmt_02d_digits by lia.
  rewrite !append_assoc. cbn [append]. unfold strptime.
  rewrite strptime_go_conv.
  rewrite strptime_conv_full_weekday by lia.
  rewrite strptime_go_literal by reflexivity.
  rewrite strptime_go_space, skip_spaces_digit by lia.
  rewrite strptime_go_conv. unfold strptime_conv at 1.
  cbn [Ascii.eqb Bool.eqb orb].
  rewrite conv_number_two_digits by lia.
  rewrite strptime_go_literal by reflexivity.
  rewrite strptime_go_conv, strptime_conv_month_hyphen by lia.
  rewrite strptime_go_literal by reflexivity.
  rewrite strptime_go_conv. unfold strptime_conv at 1.
  cbn [Ascii.eqb Bool.eqb orb].
  rewrite conv_number_two_digits by lia.
  rewrite strptime_go_space, skip_spaces_digit by lia.
  rewrite strptime_go_conv. unfold strptime_conv at 1.
  cbn [Ascii.eqb Bool.eqb orb].
  rewrite conv_number_two_digits by lia.
  rewrite strptime_go_literal by reflexivity.
  rewrite strptime_go_conv. unfold strptime_conv at 1.
  cbn [Ascii.eqb Bool.eqb orb].
  rewrite conv_number_two_digits by lia.
  rewrite strptime_go_literal by reflexivity.
  rewrite strptime_go_conv. unfold strptime_conv at 1.
  cbn [Ascii.eqb Bool.eqb orb].
  rewrite conv_number_two_digits by lia.
  reflexivity.
Qed.

(** [strptime] reads an asctime date. *)
Lemma strptime_asctime : forall ss mi hh mday mon year wday,
  0 <= ss <= 59 -> 0 <= mi <= 59 -> 0 <= hh <= 23 ->
  1 <= mday <= 31 -> 0 <= mon <= 11 -> 1000 <= year <= 9999 ->
  0 <= wday <= 6 ->
  strptime
    (nth (Z.to_nat wday) ab_weekday_name "?" ++ " " ++
     nth (Z.to_nat mon) ab_month_name "?" ++ " " ++
     (if mday <? 10 then " " ++ fmt_d mday else fmt_d mday) ++ " " ++
     (fmt_02d hh ++ ":" ++ fmt_02d mi ++ ":" ++ fmt_02d ss) ++ " " ++
     fmt_d year)
    "%a %b %e %H:%M:%S %Y" tm_zero
  = Some (mk_tm ss mi hh mday mon (year - 1900) wday 0 0).
Proof.
  intros ss mi hh mday mon year wday Hs Hmi Hh Hd Hmo Hy Hw.
  assert (Bd : 0 <= mday / 10 <= 9) by (apply div_bounds; lia).
  assert (Bh : 0 <= hh / 10 <= 9) by (apply div_bounds; lia).
  assert (By1 : 100 <= year / 10 <= 999) by (apply div_bounds; lia).
  assert (By2 : 10 <= year / 10 / 10 <= 99) by (apply div_bounds; lia).
  assert (By3 : 1 <= year / 10 / 10 / 10 <= 9) by (apply div_bounds; lia).
  rewrite !fmt_02d_digits by lia. rewrite (fmt_d_four_digits year) by lia.
  rewrite !append_assoc.
  cbn [append]. unfold strptime.
  rewrite strptime_go_conv.
  rewrite strptime_conv_weekday_space by lia.
  rewrite strptime_go_space. cbn [skip_spaces].
  change (isspace " ") with true. cbv iota.
  rewrite skip_spaces_month by lia.
  rewrite strptime_go_conv, strptime_conv_month by lia.
  rewrite strptime_go_space.
  destruct (mday <? 10) eqn:E.
  - apply Z.ltb_lt in E. rewrite fmt_d_one_digit by lia.
    cbn [append skip_spaces]. change (isspace " ") with true. cbv iota.
    destruct (digit_char_facts mday ltac:(lia)) as (_ & Sd & _).
    rewrite Sd.
    rewrite strptime_go_conv. unfold strptime_conv at 1.
    cbn [Ascii.eqb Bool.eqb orb]. unfold conv_number at 1.
    rewrite get_number_one_digit by lia.
    rewrite strptime_go_space, skip_spaces_digit by lia.
    rewrite strptime_go_conv. unfold strptime_conv at 1.
    cbn [Ascii.eqb Bool.eqb orb].
    rewrite conv_number_two_digits by lia.
    rewrite strptime_go_literal by reflexivity.
    rewrite strptime_go_conv. unfold strptime_conv at 1.
    cbn [Ascii.eqb Bool.eqb orb].
    rewrite conv_number_two_digits by lia.
    rewrite strptime_go_literal by reflexivity.
    rewrite strptime_go_conv. unfold strptime_conv at 1.
    cbn [Ascii.eqb Bool.eqb orb].
    rewrite conv_number_two_digits by lia.
    rewrite strptime_go_space, skip_spaces_digit by lia.
    rewrite strptime_go_conv. unfold strptime_conv at 1.
    cbn [Ascii.eqb Bool.eqb orb]. unfold conv_number.
    rewrite get_number_four_digits by lia.
    reflexivity.
  - apply Z.ltb_ge in E. rewrite fmt_d_two_digits by lia.
    cbn [append]. rewrite skip_spaces_digit by lia.
    rewrite strptime_go_conv. unfold strptime_conv at 1.
    cbn [Ascii.eqb Bool.eqb orb].
    rewrite conv_number_two_digits by lia.
    rewrite strptime_go_space, skip_spaces_digit by lia.
    rewrite strptime_go_conv. unfold strptime_conv at 1.
    cbn [Ascii.eqb Bool.eqb orb].
    rewrite conv_number_two_digits by lia.
    rewrite strptime_go_literal by reflexivity.
    rewrite strptime_go_conv. unfold strptime_conv at 1.
    cbn [Ascii.eqb Bool.eqb orb].
    rewrite conv_number_two_digits by lia.
    rewrite strptime_go_literal by reflexivity.
    rewrite strptime_go_conv. unfold strptime_conv at 1.
    cbn [Ascii.eqb Bool.eqb orb].
    rewrite conv_number_two_digits by lia.
    rewrite strptime_go_space, skip_spaces_digit by lia.
    rewrite strptime_go_conv. unfold strptime_conv at 1.
    cbn [Ascii.eqb Bool.eqb orb]. unfold conv_number.
    rewrite get_number_four_digits by lia.
    reflexivity.
Qed.

Lemma digit_char_not_comma : forall k, 0 <= k <= 9 ->
  Ascii.eqb (digit_char k) "," = false.
Proof.
  intros k Hk.
  destruct (digit_cases k Hk) as [->|[->|[->|[->|[->|[->|[->|[->|[->| ->]]]]]]]]];
    reflexivity.
Qed.

Lemma strchr_two_digits : forall n, 0 <= n < 100 ->
  strchr (fmt_02d n) "," = None.
Proof.
  intros n H. rewrite fmt_02d_digits by lia. cbn [strchr].
  rewrite !digit_char_not_comma; [reflexivity| |].
  - pose proof (Z.mod_pos_bound n 10). lia.
  - apply div_bounds; lia.
Qed.

Lemma strchr_four_digits : forall y, 1000 <= y <= 9999 ->
  strchr (fmt_d y) "," = None.
Proof.
  intros y H. rewrite fmt_d_four_digits by lia. cbn [strchr].
  assert (By1 : 100 <= y / 10 <= 999) by (apply div_bounds; lia).
  assert (By2 : 10 <= y / 10 / 10 <= 99) by (apply div_bounds; lia).
  assert (By3 : 1 <= y / 10 / 10 / 10 <= 9) by (apply div_bounds; lia).
  pose proof (Z.mod_pos_bound y 10).
  pose proof (Z.mod_pos_bound (y / 10) 10).
  pose proof (Z.mod_pos_bound (y / 10 / 10) 10).
  rewrite !digit_char_not_comma by lia. reflexivity.
Qed.

Lemma strchr_day : forall mday, 1 <= mday <= 31 ->
  strchr (if mday <? 10 then " " ++ fmt_d mday else fmt_d mday) "," = None.
Proof.
  intros mday H. destruct (mday <? 10) eqn:E.
  - apply Z.ltb_lt in E. rewrite fmt_d_one_digit by lia. cbn [append strchr].
    rewrite digit_char_not_comma by lia. reflexivity.
  - apply Z.ltb_ge in E. rewrite fmt_d_two_digits by lia. cbn [strchr].
    assert (0 <= mday / 10 <= 9) by (apply div_bounds; lia).
    pose proof (Z.mod_pos_bound mday 10).
    rewrite !digit_char_not_comma by lia. reflexivity.
Qed.

Lemma strchr_time_of_day : forall g,
  0 <= tm_sec g <= 59 -> 0 <= tm_min g <= 59 -> 0 <= tm_hour g <= 23 ->
  strchr (time_of_day g) "," = None.
Proof.
  intros g Hs Hm Hh. unfold time_of_day.
  repeat (apply strchr_app_none;
          [first [apply strchr_two_digits; lia | reflexivity]|]).
  apply strchr_two_digits; lia.
Qed.

Lemma strchr_asctime : forall g,
  0 <= tm_sec g <= 59 -> 0 <= tm_min g <= 59 -> 0 <= tm_hour g <= 23 ->
  1 <= tm_mday g <= 31 -> 0 <= tm_mon g <= 11 ->
  1000 <= tm_year g + 1900 <= 9999 -> 0 <= tm_wday g <= 6 ->
  strchr (asctime_date g) "," = None.
Proof.
  intros g Hs Hmi Hh Hd Hmo Hy Hw. unfold asctime_date.
  apply strchr_app_none.
  { destruct (weekday_cases _ Hw) as [E|[E|[E|[E|[E|[E|E]]]]]]; rewrite E;
      reflexivity. }
  apply strchr_app_none; [reflexivity|].
  apply strchr_app_none.
  { destruct (month_cases _ Hmo)
      as [E|[E|[E|[E|[E|[E|[E|[E|[E|[E|[E|E]]]]]]]]]]]; rewrite E;
      reflexivity. }
  apply strchr_app_none; [reflexivity|].
  apply strchr_app_none; [apply strchr_day; lia|].
  apply strchr_app_none; [reflexivity|].
  apply strchr_app_none; [apply strchr_time_of_day; lia|].
  apply strchr_app_none; [reflexivity|].
  apply strchr_four_digits; lia.
Qed.

Lemma strchr_rfc850 : forall w rest,
  0 <= w <= 6 ->
  exists pos,
    strchr (nth (Z.to_nat w) weekday_name "?" ++ String "," rest) ","
    = Some pos
    /\ (Z.of_nat pos =? 3) = false.
Proof.
  intros w rest H.
  destruct (weekday_cases w H) as [E|[E|[E|[E|[E|[E|E]]]]]]; subst w;
    eexists; (split; [vm_compute; reflexivity|reflexivity]).
Qed.

Lemma year_window : all_from (Z.to_nat 36525) (-365) year_in_window = true.
Proof. vm_compute. reflexivity. Qed.

Lemma gmtime_r_year_window : forall t g,
  YEAR_1969 <= t < YEAR_2069 ->
  gmtime_r t = Some g ->
  1969 <= tm_year g + 1900 <= 2068.
Proof.
  intros t g Ht. unfold YEAR_1969, YEAR_2069 in Ht. unfold gmtime_r.
  destruct (civil_from_days (t / 86400)) as [[y m] d] eqn:E.
  assert (Hdays : -365 <= t / 86400 < -365 + Z.of_nat (Z.to_nat 36525)).
  { pose proof (Z.div_mod t 86400 ltac:(lia)).
    pose proof (Z.mod_pos_bound t 86400 ltac:(lia)). lia. }
  pose proof (all_from_spec _ _ _ year_window _ Hdays) as K.
  unfold year_in_window in K. rewrite E in K.
  apply andb_true_iff in K. destruct K as [K1 K2].
  apply Z.leb_le in K1, K2.
  destruct (_ && _); [|discriminate].
  intro H; inversion H; subst; clear H.
  cbn [tm_year]. lia.
Qed.

Lemma gmtime_r_isdst : forall t g, gmtime_r t = Some g -> tm_isdst g = 0.
Proof.
  intros t g. unfold gmtime_r.
  destruct (civil_from_days (t / 86400)) as [[y m] d].
  destruct (_ && _); [|discriminate].
  intros H; inversion H; reflexivity.
Qed.

(** X25: [http_date_to_time] reads the asctime form of a time between the
    years 1000 and 9999, and the RFC 850 form of a time between the years
    1969 and 2068, as it reads the RFC 1123 form: [mktime] is handed the
    same fields, so the result is the value of [local_to_gmtime] at that
    time, whatever the rules of the time zone are (and a failure when that
    value is -1). *)
Theorem older_date_formats_denote_the_same_time : forall zone t,
  YEAR_1000 <= t < YEAR_10000 ->
  exists g,
    gmtime_r t = Some g
    /\ http_date_to_time zone (asctime_date g)
       = (if local_to_gmtime zone t =? -1 then None
          else Some (local_to_gmtime zone t))
    /\ (YEAR_1969 <= t < YEAR_2069 ->
        http_date_to_time zone (rfc850_date g)
        = (if local_to_gmtime zone t =? -1 then None
           else Some (local_to_gmtime zone t))).
Proof.
  intros zone t Ht.
  destruct (gmtime_r_fields t Ht)
    as (g & Hg & Hs & Hmi & Hh & Hd & Hmo & Hy & Hw).
  exists g. split; [exact Hg|].
  pose proof (gmtime_r_isdst _ _ Hg) as Hdst.
  unfold local_to_gmtime. rewrite Hg.
  split.
  - unfold http_date_to_time, http_date_tm.
    rewrite strchr_asctime by assumption.
    unfold asctime_date, time_of_day.
    rewrite strptime_asctime by assumption.
    unfold mktime.
    cbn [tm_year tm_mon tm_mday tm_hour tm_min tm_sec tm_isdst].
    replace (tm_year g + 1900 - 1900) with (tm_year g) by lia.
    rewrite Hdst. reflexivity.
  - intro Hwin.
    pose proof (gmtime_r_year_window t g Hwin Hg) as Yw.
    assert (Y2 : 0 <= (tm_year g + 1900) mod 100 <= 99)
      by (pose proof (Z.mod_pos_bound (tm_year g + 1900) 100); lia).
    unfold http_date_to_time, http_date_tm.
    unfold rfc850_date, time_of_day.
    change (", " ++ ?x) with (String "," (" " ++ x)).
    destruct (strchr_rfc850 (tm_wday g)
                (" " ++ fmt_02d (tm_mday g) ++ "-" ++
                 nth (Z.to_nat (tm_mon g)) ab_month_name "?" ++ "-" ++
                 fmt_02d ((tm_year g + 1900) mod 100) ++ " " ++
                 (fmt_02d (tm_hour g) ++ ":" ++ fmt_02d (tm_min g) ++ ":"
                  ++ fmt_02d (tm_sec g)) ++ " GMT") Hw) as (pos & Hp & Hn).
    rewrite Hp, Hn.
    change (String "," (" " ++ ?x)) with (", " ++ x).
    rewrite strptime_rfc850 by assumption.
    unfold mktime.
    cbn [tm_year tm_mon tm_mday tm_hour tm_min tm_sec tm_isdst].
    assert (Ey : (if 69 <=? (tm_year g + 1900) mod 100
                  then (tm_year g + 1900) mod 100
                  else (tm_year g + 1900) mod 100 + 100) = tm_year g).
    { pose proof (Z.div_mod (tm_year g + 1900) 100 ltac:(lia)) as Q.
      destruct (69 <=? (tm_year g + 1900) mod 100) eqn:E.
      - apply Z.leb_le in E.
        assert ((tm_year g + 1900) / 100 = 19) by lia. lia.
      - apply Z.leb_gt in E.
        assert ((tm_year g + 1900) / 100 = 20) by lia. lia. }
    rewrite Ey, Hdst. reflexivity.
Qed.

Lemma older_date_formats_denote_the_same_time_witness :
  exists g,
    gmtime_r 1325376000 = Some g
    /\ http_date_to_time apia_zone (asctime_date g)
       = (if local_to_gmtime apia_zone 1325376000 =? -1 then None
          else Some (local_to_gmtime apia_zone 1325376000))
    /\ (YEAR_1969 <= 1325376000 < YEAR_2069 ->
        http_date_to_time apia_zone (rfc850_date g)
        = (if local_to_gmtime apia_zone 1325376000 =? -1 then None
           else Some (local_to_gmtime apia_zone 1325376000))).
Proof.
  apply (older_date_formats_denote_the_same_time apia_zone 1325376000).
  vm_compute. split; [discriminate|reflexivity].
Defined.

(** X30: for a time between the years 1000 and 9999 the date of
    [time_to_http_date] has 29 characters: the function succeeds exactly
    when the destination holds at least 30 bytes. *)
Theorem http_date_needs_thirty_bytes : forall t dst_len,
  YEAR_1000 <= t < YEAR_10000 ->
  exists date,
    strlen date = 29
    /\ time_to_http_date t dst_len
       = (if 29 <? dst_len then Some date else None).
Proof.
  intros t dst_len Ht.
  destruct (gmtime_r_fields t Ht)
    as (g & Hg & Hs & Hmi & Hh & Hd & Hmo & Hy & Hw).
  set (date :=
         nth (Z.to_nat (tm_wday g)) ab_weekday_name "?" ++ ", " ++
         fmt_02d (tm_mday g) ++ " " ++
         nth (Z.to_nat (tm_mon g)) ab_month_name "?" ++ " " ++
         fmt_d (tm_year g + 1900) ++ " " ++
         fmt_02d (tm_hour g) ++ ":" ++ fmt_02d (tm_min g) ++ ":" ++
         fmt_02d (tm_sec g) ++ " GMT").
  assert (L : strlen date = 29).
  { subst date. rewrite !fmt_02d_digits by lia.
    rewrite fmt_d_four_digits by lia.
    destruct (weekday_cases _ Hw) as [E|[E|[E|[E|[E|[E|E]]]]]]; rewrite E;
      destruct (month_cases _ Hmo)
        as [F|[F|[F|[F|[F|[F|[F|[F|[F|[F|[F|F]]]]]]]]]]]; rewrite F;
      reflexivity. }
  exists date. split; [exact L|].
  unfold time_to_http_date. rewrite Hg. unfold strftime_rfc1123.
  rewrite to_int_small by (unfold INT_MIN, INT_MAX; lia).
  fold date. rewrite L. reflexivity.
Qed.

Lemma http_date_needs_thirty_bytes_witness :
  exists date,
    strlen date = 29
    /\ time_to_http_date 1700000000 128
       = (if 29 <? 128 then Some date else None).
Proof.
  apply (http_date_needs_thirty_bytes 1700000000 128).
  vm_compute. split; [discriminate|reflexivity].
Defined.

(* ================================================================== *)
(** * util.c: lines and buffers read from a descriptor *)
(* ================================================================== *)

Lemma read1_received : forall script a bytes,
  no_empty_data script = true ->
  received script = Some (String a bytes) ->
  exists script',
    read1 script = (Read1 a, script')
    /\ no_empty_data script' = true
    /\ received script' = Some bytes.
Proof.
  induction script as [|ev script IH]; intros a bytes Hn Hr.
  - discriminate.
  - destruct ev as [s| |]; try discriminate.
    cbn [received] in Hr. cbn [no_empty_data] in Hn.
    apply andb_true_iff in Hn. destruct Hn as [Hs Hn].
    destruct (received script) as [r|] eqn:Er; [|discriminate].
    cbn in Hr. destruct s as [|c s]; [discriminate|].
    cbn in Hr. inversion Hr; subst.
    destruct s as [|c' s].
    + exists script. cbn. rewrite Er. auto.
    + exists (Data (String c' s) :: script). cbn [read1 no_empty_data received].
      rewrite Er, Hn. auto.
Qed.

Lemma socket_line_loop_line : forall text room script buf more,
  no_empty_data script = true ->
  received script = Some (text ++ String LF more) ->
  strchr text LF = None ->
  (String.length text < room)%nat ->
  exists script',
    socket_line_loop room script buf = (1, buf ++ text, script')
    /\ no_empty_data script' = true
    /\ received script' = Some more.
Proof.
  induction text as [|a text IH]; intros room script buf more Hn Hr Ht Hl.
  - destruct room as [|room]; [cbn in Hl; lia|].
    cbn [append] in Hr.
    destruct (read1_received _ _ _ Hn Hr) as (script' & E & Hn' & Hr').
    exists script'. cbn [socket_line_loop]. rewrite E.
    change (Ascii.eqb LF LF) with true. rewrite append_nil_r. auto.
  - destruct room as [|room]; [cbn in Hl; lia|].
    cbn [append] in Hr. cbn [strchr] in Ht.
    destruct (Ascii.eqb a LF) eqn:Ea; [discriminate|].
    destruct (read1_received _ _ _ Hn Hr) as (script' & E & Hn' & Hr').
    cbn [socket_line_loop]. rewrite E, Ea.
    destruct (IH room script' (buf ++ String a "") more Hn' Hr') as (s2 & E2 & R).
    + destruct (strchr text LF); [discriminate|reflexivity].
    + cbn [String.length] in Hl. lia.
    + exists s2. rewrite E2, append_assoc. auto.
Qed.

Lemma last_char_cons : forall c s,
  last_char (String c s)
  = match s with EmptyString => Some c | _ => last_char s end.
Proof.
  intros c s. unfold last_char. cbn [String.length].
  destruct s as [|d s]; [reflexivity|]. cbn [String.length String.get].
  reflexivity.
Qed.

Lemma length_remove_last : forall s,
  String.length (remove_last s) = Nat.pred (String.length s).
Proof.
  induction s as [|c s IH]; [reflexivity|].
  cbn [remove_last]. destruct s as [|d s]; [reflexivity|].
  cbn [String.length] in *. rewrite IH. reflexivity.
Qed.

Lemma strlen_strip_cr : forall text, strlen (strip_cr text) <= strlen text.
Proof.
  intros text. unfold strip_cr.
  destruct (last_char text) as [c|]; [|lia].
  destruct (Ascii.eqb c CR); [|lia].
  unfold strlen. rewrite length_remove_last. lia.
Qed.

(** X26: for a buffer of at most [INT_MAX] bytes, when the stream holds a
    text without line feed, shorter than [buf_size - 1], followed by a line
    feed, [get_socket_line] returns the text without the carriage return
    that may end it, with its length, however the stream is cut into
    reads; what follows the line feed is left to be read. *)
Theorem get_socket_line_returns_the_line_without_its_end :
  forall script buf_size text more,
    buf_size <= INT_MAX ->
    no_empty_data script = true ->
    received script = Some (text ++ String LF more) ->
    strchr text LF = None ->
    strlen text < buf_size - 1 ->
    exists rest,
      get_socket_line script buf_size
      = (strlen (strip_cr text), Some (strip_cr text), rest)
      /\ no_empty_data rest = true
      /\ received rest = Some more.
Proof.
  intros script buf_size text more _ Hn Hr Ht Hl.
  pose proof (strlen_nonneg text).
  unfold get_socket_line.
  replace (buf_size =? 0) with false by (symmetry; apply Z.eqb_neq; lia).
  replace (buf_size =? 1) with false by (symmetry; apply Z.eqb_neq; lia).
  destruct (socket_line_loop_line text (Z.to_nat (buf_size - 1)) script ""
              more Hn Hr Ht) as (rest & E & Hn' & Hr').
  { unfold strlen in Hl. lia. }
  exists rest. rewrite E. cbn [append Z.ltb Z.compare].
  split; [|auto].
  unfold strip_cr. destruct text as [|a text]; [reflexivity|].
  replace (strlen (String a text) =? 0) with false
    by (symmetry; apply Z.eqb_neq; unfold strlen; cbn; lia).
  destruct (last_char (String a text)) as [c|]; [|reflexivity].
  destruct (Ascii.eqb c CR); [|reflexivity].
  unfold strlen. rewrite length_remove_last. cbn [String.length].
  repeat f_equal. lia.
Qed.

Lemma get_socket_line_returns_the_line_without_its_end_witness :
  let script := [Data "GE"; Data ("T /" ++ String CR (String LF "Host"))] in
  let text := "GET /" ++ String CR "" in
  exists rest,
    get_socket_line script 64
    = (strlen (strip_cr text), Some (strip_cr text), rest)
    /\ no_empty_data rest = true
    /\ received rest = Some "Host".
Proof.
  intros script text.
  apply (get_socket_line_returns_the_line_without_its_end script 64 text
           "Host").
  - vm_compute. discriminate.
  - reflexivity.
  - reflexivity.
  - reflexivity.
  - vm_compute. reflexivity.
Defined.

Lemma strchr_app_char : forall buf a c,
  strchr buf c = None -> Ascii.eqb a c = false ->
  strchr (buf ++ String a "") c = None.
Proof.
  induction buf as [|b buf IH]; intros a c Hb Ha; cbn.
  - now rewrite Ha.
  - cbn in Hb. destruct (Ascii.eqb b c); [discriminate|].
    rewrite IH; auto. destruct (strchr buf c); [discriminate|reflexivity].
Qed.

Lemma socket_line_loop_bound : forall room script buf n buf' rest,
  socket_line_loop room script buf = (n, buf', rest) ->
  strchr buf LF = None ->
  (String.length buf' <= String.length buf + room)%nat
  /\ strchr buf' LF = None
  /\ (n = 1 \/ n = 0 \/ n = -1).
Proof.
  induction room as [|room IH]; intros script buf n buf' rest H Hb.
  - cbn in H. inversion H; subst. split; [lia|auto].
  - cbn [socket_line_loop] in H.
    destruct (read1 script) as [[a| |] script'].
    + destruct (Ascii.eqb a LF) eqn:Ea.
      * inversion H; subst. split; [lia|auto].
      * apply IH in H; [|apply strchr_app_char; assumption].
        rewrite length_append in H. cbn [String.length] in H.
        destruct H as (L & S & N). split; [lia|auto].
    + inversion H; subst. split; [lia|auto].
    + inversion H; subst. split; [lia|auto].
Qed.

Lemma strchr_remove_last : forall s c,
  strchr s c = None -> strchr (remove_last s) c = None.
Proof.
  induction s as [|a s IH]; intros c H; [reflexivity|].
  change (remove_last (String a s))
    with (match s with
          | EmptyString => EmptyString
          | _ => String a (remove_last s)
          end).
  destruct s as [|b s'] eqn:Es; [reflexivity|]. rewrite <- Es in *.
  cbn [strchr] in H |- *. destruct (Ascii.eqb a c); [discriminate|].
  rewrite IH; [reflexivity|].
  destruct (strchr s c); [discriminate|reflexivity].
Qed.

(** X27: for a buffer of at most [INT_MAX] bytes, whatever arrives, the
    line that [get_socket_line] stores has the length it returns, at most
    [buf_size - 1] characters and no line feed; it stores none only when
    [read] failed (return value -1) or the buffer has size 0 (return value
    0). *)
Theorem get_socket_line_stays_within_the_buffer :
  forall script buf_size n line rest,
    0 <= buf_size <= INT_MAX ->
    get_socket_line script buf_size = (n, line, rest) ->
    (forall text,
       line = Some text ->
       n = strlen text /\ strlen text <= buf_size - 1
       /\ strchr text LF = None)
    /\ (line = None -> n = -1 \/ (buf_size = 0 /\ n = 0)).
Proof.
  intros script buf_size n line rest [Hs _] H. unfold get_socket_line in H.
  assert (G : (n = -1 /\ line = None
               \/ exists text,
                    line = Some text /\ n = strlen text
                    /\ strlen text <= buf_size - 1
                    /\ strchr text LF = None)
              \/ (buf_size = 0 /\ n = 0 /\ line = None));
    [|destruct G as [[[-> ->]|(text & -> & -> & L & F)]|(-> & -> & ->)];
      (split; [intros t Q; inversion Q; subst; auto|intro Q; auto]);
      discriminate].
  destruct (buf_size =? 0) eqn:E0.
  { apply Z.eqb_eq in E0. inversion H; subst. right. auto. }
  destruct (buf_size =? 1) eqn:E1.
  { apply Z.eqb_eq in E1. inversion H; subst. left. right.
    exists "". cbn. repeat split; lia. }
  apply Z.eqb_neq in E0, E1. left.
  destruct (socket_line_loop (Z.to_nat (buf_size - 1)) script "")
    as [[cr buf] script'] eqn:L.
  apply socket_line_loop_bound in L; [|reflexivity].
  destruct L as (Lb & Lf & Lc). cbn [String.length] in Lb.
  assert (B : strlen buf <= buf_size - 1) by (unfold strlen; lia).
  destruct (cr <? 0) eqn:Ec.
  { inversion H; subst. left. apply Z.ltb_lt in Ec. split; [lia|reflexivity]. }
  right.
  destruct (strlen buf =? 0) eqn:Ez.
  { inversion H; subst. exists "". apply Z.eqb_eq in Ez.
    repeat split; cbn; lia. }
  assert (R : forall c, Ascii.eqb c CR = true ->
            (strlen buf - 1, Some (remove_last buf), script') = (n, line, rest) ->
            exists text,
              line = Some text /\ n = strlen text
              /\ strlen text <= buf_size - 1 /\ strchr text LF = None).
  { intros c _ Q. inversion Q; subst. exists (remove_last buf).
    apply Z.eqb_neq in Ez.
    assert (strlen (remove_last buf) = strlen buf - 1).
    { unfold strlen in *. rewrite length_remove_last. lia. }
    repeat split; [lia|lia|apply strchr_remove_last; exact Lf]. }
  destruct (last_char buf) as [c|].
  - destruct (Ascii.eqb c CR) eqn:Ecr; [eapply R; eauto|].
    inversion H; subst. exists buf. auto.
  - inversion H; subst. exists buf. auto.
Qed.

Lemma get_socket_line_stays_within_the_buffer_witness :
  let script := [Data "abcdef"] in
  get_socket_line script 4 = (3, Some "abc", [Data "def"])
  /\ (forall text,
        Some "abc" = Some text ->
        3 = strlen text /\ strlen text <= 4 - 1 /\ strchr text LF = None)
  /\ (Some "abc" = None -> 3 = -1 \/ (4 = 0 /\ 3 = 0)).
Proof.
  intros script. split; [reflexivity|].
  apply (get_socket_line_stays_within_the_buffer script 4 3 (Some "abc")
           [Data "def"]).
  - vm_compute. split; discriminate.
  - reflexivity.
Defined.

Lemma length_take_min : forall n s,
  String.length (take n s) = Nat.min n (String.length s).
Proof.
  induction n as [|n IH]; intros s; [reflexivity|].
  destruct s as [|c s]; [reflexivity|]. cbn. now rewrite IH.
Qed.

Lemma drop_app_le : forall n a b,
  (n <= String.length a)%nat -> drop n (a ++ b) = drop n a ++ b.
Proof.
  induction n as [|n IH]; intros a b H; [reflexivity|].
  destruct a as [|c a]; [cbn in H; lia|].
  cbn. apply IH. cbn in H. lia.
Qed.

Lemma drop_app_plus : forall a b k,
  drop (String.length a + k) (a ++ b) = drop k b.
Proof. induction a; intros; cbn; auto. Qed.

Lemma read_buffer_loop_received : forall script buf room bytes,
  0 <= room ->
  no_empty_data script = true ->
  received script = Some bytes ->
  exists rest,
    read_buffer_loop script buf room
    = (strlen (buf ++ take (Z.to_nat room) bytes),
       buf ++ take (Z.to_nat room) bytes, rest)
    /\ received rest = Some (drop (Z.to_nat room) bytes).
Proof.
  induction script as [|ev script IH]; intros buf room bytes Hr Hn Hb.
  - cbn in Hb. inversion Hb; subst. exists [].
    cbn [read_buffer_loop].
    replace (take (Z.to_nat room) "") with "" by (now destruct (Z.to_nat room)).
    replace (drop (Z.to_nat room) "") with "" by (now destruct (Z.to_nat room)).
    rewrite append_nil_r. auto.
  - destruct ev as [s| |]; try discriminate.
    cbn [received] in Hb. cbn [no_empty_data] in Hn.
    apply andb_true_iff in Hn. destruct Hn as [Hs Hn].
    destruct (received script) as [r|] eqn:Er; [|discriminate].
    cbn in Hb. inversion Hb; subst; clear Hb.
    assert (Ps : 0 < strlen s).
    { destruct s; [discriminate|]. unfold strlen. cbn. lia. }
    cbn [read_buffer_loop].
    replace (strlen s =? 0) with false by (symmetry; apply Z.eqb_neq; lia).
    destruct (room =? 0) eqn:E0.
    { apply Z.eqb_eq in E0. subst room. cbn [Z.to_nat take drop].
      rewrite append_nil_r. eexists. split; [reflexivity|].
      cbn [received]. rewrite Er. reflexivity. }
    apply Z.eqb_neq in E0.
    destruct (room <? strlen s) eqn:E1.
    { apply Z.ltb_lt in E1.
      rewrite take_app_le by (unfold strlen in E1; lia).
      eexists. split; [reflexivity|].
      cbn [received]. rewrite Er. cbn [option_map].
      rewrite drop_app_le by (unfold strlen in E1; lia). reflexivity. }
    apply Z.ltb_ge in E1.
    replace (Z.to_nat room)
      with (String.length s + Z.to_nat (room - strlen s))%nat
      by (unfold strlen in *; lia).
    rewrite take_app_plus, drop_app_plus.
    destruct (0 <? room - strlen s) eqn:E2.
    + destruct (IH (buf ++ s) (room - strlen s) r ltac:(lia) Hn eq_refl)
        as (rest & E & R).
      exists rest. rewrite E, !append_assoc. auto.
    + apply Z.ltb_ge in E2.
      replace (Z.to_nat (room - strlen s)) with 0%nat by lia.
      cbn [take drop]. rewrite append_nil_r. exists script. auto.
Qed.

(** X28: for a buffer of at most [INT_MAX] bytes, on a stream without
    read errors [read_buffer] returns the smaller of the buffer length and
    the number of bytes of the stream, stores the first bytes of the stream
    up to that number, however the stream is cut into reads, and leaves
    the rest to be read. *)
Theorem read_buffer_fills_the_buffer_from_the_stream :
  forall script buf_len bytes,
    0 <= buf_len <= INT_MAX ->
    no_empty_data script = true ->
    received script = Some bytes ->
    exists rest,
      read_buffer script buf_len
      = (Z.min buf_len (strlen bytes), take (Z.to_nat buf_len) bytes, rest)
      /\ received rest = Some (drop (Z.to_nat buf_len) bytes).
Proof.
  intros script buf_len bytes [Hl _] Hn Hb.
  destruct (read_buffer_loop_received script "" buf_len bytes Hl Hn Hb)
    as (rest & E & R).
  exists rest. unfold read_buffer. rewrite E. cbn [append].
  split; [|exact R]. unfold strlen. rewrite length_take_min.
  repeat f_equal. lia.
Qed.

Lemma read_buffer_fills_the_buffer_from_the_stream_witness :
  let script := [Data "ab"; Data "cde"] in
  exists rest,
    read_buffer script 4
    = (Z.min 4 (strlen "abcde"), take (Z.to_nat 4) "abcde", rest)
    /\ received rest = Some (drop (Z.to_nat 4) "abcde").
Proof.
  intros script.
  apply (read_buffer_fills_the_buffer_from_the_stream script 4 "abcde").
  - vm_compute. split; discriminate.
  - reflexivity.
  - reflexivity.
Defined.

(* ================================================================== *)
(** * The log entry *)
(* ================================================================== *)

Lemma length_fmt_u_digits : forall fuel n acc k,
  0 <= n < 10 ^ Z.of_nat k ->
  (String.length (fmt_u fuel n acc) <= Nat.max 1 k + String.length acc)%nat.
Proof.
  induction fuel as [|fuel IH]; intros n acc k Hn; [cbn; lia|].
  rewrite fmt_u_step. destruct (n / 10 =? 0) eqn:E.
  - cbn [String.length]. lia.
  - apply Z.eqb_neq in E.
    destruct k as [|k].
    { cbn in Hn. assert (n = 0) by lia. subst n. cbn in E. congruence. }
    rewrite Nat2Z.inj_succ, Z.pow_succ_r in Hn by lia.
    destruct k as [|k].
    { cbn in Hn. exfalso. apply E. apply Z.div_small. lia. }
    specialize (IH (n / 10) (String (digit_char (n mod 10)) acc) (S k)).
    cbn [String.length] in IH.
    assert (0 <= n / 10 < 10 ^ Z.of_nat (S k)).
    { split; [apply Z.div_pos; lia|apply Z.div_lt_upper_bound; lia]. }
    specialize (IH H). lia.
Qed.

Lemma strlen_fmt_d_int : forall z, INT_MIN <= z <= INT_MAX -> strlen (fmt_d z) <= 11.
Proof.
  intros z H. unfold INT_MIN, INT_MAX in H. unfold fmt_d, strlen.
  destruct (z <? 0) eqn:E.
  - apply Z.ltb_lt in E. cbn [String.length].
    pose proof (length_fmt_u_digits 20 (- z) "" 10
                  ltac:(change (10 ^ Z.of_nat 10) with 10000000000; lia)).
    cbn [String.length] in H0. lia.
  - apply Z.ltb_ge in E.
    pose proof (length_fmt_u_digits 20 z "" 10
                  ltac:(change (10 ^ Z.of_nat 10) with 10000000000; lia)).
    cbn [String.length] in H0. lia.
Qed.

Lemma take_all : forall n s, (String.length s <= n)%nat -> take n s = s.
Proof.
  induction n as [|n IH]; intros s H.
  - destruct s; [reflexivity|cbn in H; lia].
  - destruct s as [|c s]; [reflexivity|]. cbn. rewrite IH; [reflexivity|].
    cbn in H. lia.
Qed.

Lemma strlen_take : forall n s, strlen (take n s) <= Z.of_nat n.
Proof. intros n s. pose proof (length_take n s). unfold strlen. lia. Qed.

(** X29: the log entry of a request is never cut: the 4384 bytes of
    [logstr] hold the five fields with their separators for every client
    address, request line and response.  A client address shorter than 64
    characters, a request line shorter than [BUF_SIZE] and an [int]
    status code are logged in full. *)
Theorem log_entry_is_written_whole : forall o client_ip request_line r,
  let log := httpd_log o client_ip request_line r in
  writelog log
  = remoteip log ++ " [" ++ request_time log ++ "] " ++ DQUOTE
    ++ request_lineq log ++ DQUOTE ++ " " ++ request_status log ++ " "
    ++ response_size log ++ String LF ""
  /\ (strlen client_ip < 64 -> remoteip log = client_ip)
  /\ (strlen request_line < BUF_SIZE -> request_lineq log = request_line)
  /\ (INT_MIN <= Response.code r <= INT_MAX ->
      request_status log = fmt_d (Response.code r)).
Proof.
  intros o client_ip request_line r log.
  split; [|split; [|split]].
  - unfold writelog. apply take_all.
    assert (T : strlen (request_time log) <= 127).
    { subst log. unfold httpd_log. cbn [request_time init_logging].
      destruct (time_to_http_date (os_time o) 128) as [d|] eqn:E.
      - apply time_to_http_date_fits in E. lia.
      - cbn. lia. }
    pose proof (strlen_take (64 - 1) client_ip) as A.
    pose proof (strlen_take (Z.to_nat (BUF_SIZE - 1)) request_line) as B.
    pose proof (strlen_take (16 - 1) (fmt_d (Response.code r))) as C.
    pose proof (strlen_take (64 - 1) (fmt_d (Response.content_length r))) as D.
    assert (L : strlen (remoteip log ++ " [" ++ request_time log ++ "] "
                        ++ DQUOTE ++ request_lineq log ++ DQUOTE ++ " "
                        ++ request_status log ++ " " ++ response_size log
                        ++ String LF "") <= 4383).
    { rewrite !strlen_append. subst log. unfold httpd_log in *.
      cbn [remoteip request_time request_lineq request_status response_size]
        in *.
      change (strlen " [") with 2. change (strlen "] ") with 2.
      change (strlen DQUOTE) with 1. change (strlen " ") with 1.
      change (strlen (String LF "")) with 1.
      change (Z.of_nat (64 - 1)) with 63 in *.
      change (Z.of_nat (16 - 1)) with 15 in *.
      change (Z.of_nat (Z.to_nat (BUF_SIZE - 1))) with 4095 in *. lia. }
    unfold strlen in L. change (sizeof_logging + 16 - 1) with 4383. lia.
  - intro H. subst log. unfold httpd_log. cbn [remoteip].
    apply take_all. unfold strlen in H. lia.
  - intro H. subst log. unfold httpd_log. cbn [request_lineq].
    apply take_all. unfold strlen, BUF_SIZE in *. lia.
  - intro H. subst log. unfold httpd_log. cbn [request_status].
    apply take_all.
    pose proof (strlen_fmt_d_int (Response.code r) H). unfold strlen in *. lia.
Qed.

Lemma log_entry_is_written_whole_witness :
  writelog (httpd_log example_os "192.0.2.7" "GET /a.txt HTTP/1.0"
              (Response.mk RESPONSE_STATUS_OK 1600000000 "text/plain" 5))
  = "192.0.2.7 [Tue, 14 Nov 2023 22:13:20 GMT] " ++ DQUOTE
    ++ "GET /a.txt HTTP/1.0" ++ DQUOTE ++ " 200 5" ++ String LF "".
Proof.
  destruct (log_entry_is_written_whole example_os "192.0.2.7"
              "GET /a.txt HTTP/1.0"
              (Response.mk RESPONSE_STATUS_OK 1600000000 "text/plain" 5))
    as [E _].
  rewrite E. vm_compute. reflexivity.
Defined.
